(** * ember-cli addon model ([lib/models/addon.js])

    A shallow embedding of the addon-composition layer: the [Addon]
    constructor, the memoised [moduleName] / [includedModules], the tree
    assembly ([treeFor], [compileAddon], [compileStyles], ...), and the
    static resolver ([resolvePath], [lookup]).

    JavaScript strings are modelled as [string]: the strings whose code
    units are below 256, on which [toLowerCase] and the class [\s] are
    what [JsString] says.  JavaScript objects used as maps are
    association lists kept in the order [Object.keys] lists them, broccoli
    trees a term algebra of the plugin calls that build them, and
    exceptions the left summand of a result type. *)

From Stdlib Require Import String Ascii List Bool Arith NArith Lia.
Import ListNotations.
Open Scope list_scope.
Open Scope string_scope.

Set Implicit Arguments.
Set Warnings "-register-all".

(** ** JavaScript string primitives used by the source

    A [string] stands for the JavaScript string of the same code units,
    all below U+0100.  On these strings [toLowerCase] works code unit by
    code unit and keeps the length; neither holds for JavaScript strings
    in general (U+0130 lowercases to two code units), and whitespace and
    capitals above U+00FF have no counterpart here. *)
Module JsString.

(** [String.prototype.toLowerCase] on one code unit: ASCII [A-Z] and the
    Latin-1 capitals (U+00C0..U+00DE except the multiplication sign). *)
Definition lowerChar (c : ascii) : ascii :=
  let n := nat_of_ascii c in
  if ((65 <=? n) && (n <=? 90))%nat then ascii_of_nat (n + 32)
  else if ((192 <=? n) && (n <=? 222) && negb (n =? 215))%nat then ascii_of_nat (n + 32)
  else c.

Fixpoint toLowerCase (s : string) : string :=
  match s with
  | EmptyString => EmptyString
  | String c r => String (lowerChar c) (toLowerCase r)
  end.

(** The regular-expression class [\s] restricted to code units below 256:
    TAB, LF, VT, FF, CR, SPACE and NBSP. *)
Definition isWhitespace (c : ascii) : bool :=
  let n := nat_of_ascii c in
  (((9 <=? n) && (n <=? 13)) || (n =? 32) || (n =? 160))%nat.

(** [s.replace(/\s/g, '-')] *)
Fixpoint replaceWhitespace (s : string) : string :=
  match s with
  | EmptyString => EmptyString
  | String c r =>
      String (if isWhitespace c then "-"%char else c) (replaceWhitespace r)
  end.

(** First occurrence of [pat] in [s], as the text before and after it. *)
Fixpoint splitAtFirst (pat s : string) : option (string * string) :=
  if prefix pat s then Some (EmptyString, substring (String.length pat) (String.length s - String.length pat) s)
  else match s with
       | EmptyString => None
       | String c r =>
           match splitAtFirst pat r with
           | Some (b, a) => Some (String c b, a)
           | None => None
           end
       end.

(** The replacement-text expansion of [String.prototype.replace]
    (ECMAScript GetSubstitution) when the search value is a string, so
    that there are no captures: [$$] is a dollar sign, [$&] the matched
    text, [$`] the text before the match, [$'] the text after it; any
    other character, and a dollar sign followed by anything else, is
    copied. *)
Fixpoint getSubstitution (matched before after repl : string) : string :=
  match repl with
  | EmptyString => EmptyString
  | String c r =>
      if Ascii.eqb c "$" then
        match r with
        | String d r' =>
            if Ascii.eqb d "$" then String "$" (getSubstitution matched before after r')
            else if Ascii.eqb d "&" then matched ++ getSubstitution matched before after r'
            else if Ascii.eqb d "`" then before ++ getSubstitution matched before after r'
            else if Ascii.eqb d "'" then after ++ getSubstitution matched before after r'
            else String c (getSubstitution matched before after r)
        | EmptyString => String c EmptyString
        end
      else String c (getSubstitution matched before after r)
  end.

(** [s.replace(pat, repl)] with a string pattern: only the first
    occurrence is replaced. *)
Definition replace (s pat repl : string) : string :=
  match splitAtFirst pat s with
  | None => s
  | Some (b, a) => b ++ getSubstitution pat b a repl ++ a
  end.

(** [s.slice(0, -n)].  In JavaScript [-0] is [0], so [s.slice(0, -0)] is
    the empty string, not [s]. *)
Definition sliceDropLast (s : string) (n : nat) : string :=
  match n with
  | O => EmptyString
  | _ => substring 0 (String.length s - n) s
  end.

(** [s.split('/')] *)
Fixpoint splitSlash (s : string) : list string :=
  match s with
  | EmptyString => [EmptyString]
  | String c r =>
      if Ascii.eqb c "/" then EmptyString :: splitSlash r
      else match splitSlash r with
           | h :: t => String c h :: t
           | [] => [String c EmptyString]
           end
  end.

(** [parts.join('/')] *)
Definition joinSlash (parts : list string) : string := String.concat "/" parts.

Definition nonEmpty (s : string) : bool :=
  match s with EmptyString => false | _ => true end.

Definition startsWithSlash (s : string) : bool :=
  match s with String c _ => Ascii.eqb c "/" | EmptyString => false end.

Fixpoint endsWithSlash (s : string) : bool :=
  match s with
  | EmptyString => false
  | String c EmptyString => Ascii.eqb c "/"
  | String _ r => endsWithSlash r
  end.

Fixpoint contains (c : ascii) (s : string) : bool :=
  match s with
  | EmptyString => false
  | String d r => Ascii.eqb c d || contains c r
  end.

End JsString.

(** ** Node's POSIX [path] module, as far as the source calls it *)
Module Path.
Import JsString.

(** [normalizeArray(parts, allowAboveRoot)]: resolves [.] and [..]
    segments scanning from the last segment to the first. *)
Fixpoint normalizeScan (parts : list string) : list string * nat :=
  match parts with
  | [] => ([], 0)
  | p :: rest =>
      let '(acc, up) := normalizeScan rest in
      if p =? "." then (acc, up)
      else if p =? ".." then (acc, S up)
      else match up with
           | O => (p :: acc, 0)
           | S u => (acc, u)
           end
  end.

Definition normalizeArray (parts : list string) (allowAboveRoot : bool) : list string :=
  let '(acc, up) := normalizeScan parts in
  if allowAboveRoot then (repeat ".." up ++ acc)%list else acc.

Definition segments (p : string) : list string := filter nonEmpty (splitSlash p).

(** [path.normalize] *)
Definition normalize (p : string) : string :=
  let isAbsolute := startsWithSlash p in
  let trailingSlash := endsWithSlash p in
  let body := joinSlash (normalizeArray (segments p) (negb isAbsolute)) in
  let body := if negb (nonEmpty body) && negb isAbsolute then "." else body in
  let body := if nonEmpty body && trailingSlash then body ++ "/" else body in
  (if isAbsolute then "/" else "") ++ body.

(** [path.join(a, b)] on two strings (empty arguments are dropped). *)
Definition join (a b : string) : string :=
  normalize (joinSlash (filter nonEmpty [a; b])).

(** [path.resolve(a, b)]; [cwd] is [process.cwd()], consulted only when
    neither argument is absolute. *)
Definition resolve (cwd a b : string) : string :=
  let step (acc : string * bool) (p : string) :=
    let '(resolved, isAbs) := acc in
    if isAbs then acc
    else if nonEmpty p then (p ++ "/" ++ resolved, startsWithSlash p)
    else acc in
  let '(resolved, isAbs) := fold_left step [b; a; cwd] (EmptyString, false) in
  let body := joinSlash (normalizeArray (segments resolved) (negb isAbs)) in
  let r := (if isAbs then "/" else "") ++ body in
  if nonEmpty r then r else ".".

(** The last path portion, trailing slashes ignored. *)
Definition basename (p : string) : string := last (segments p) EmptyString.

(** Text of [b] from its last dot on, if it has one. *)
Fixpoint fromLastDot (b : string) : option string :=
  match b with
  | EmptyString => None
  | String c r =>
      match fromLastDot r with
      | Some e => Some e
      | None => if Ascii.eqb c "." then Some b else None
      end
  end.

(** [path.extname]: from the last dot of the last path portion to its
    end; empty when there is no dot, when the only dot is the first
    character, and for [..]. *)
Definition extname (p : string) : string :=
  let b := basename p in
  match b with
  | EmptyString => EmptyString
  | String c r =>
      if b =? ".." then EmptyString
      else match fromLastDot r with
           | Some e => e
           | None => EmptyString
           end
  end.

(** Drops the characters of [s] after its last slash. *)
Fixpoint uptoLastSlash (s : string) : string :=
  match s with
  | EmptyString => EmptyString
  | String c r =>
      if contains "/" r then String c (uptoLastSlash r)
      else if Ascii.eqb c "/" then "/" else EmptyString
  end.

Fixpoint dropTrailingSlashes (s : string) : string :=
  match s with
  | EmptyString => EmptyString
  | String c r =>
      match dropTrailingSlashes r with
      | EmptyString => if Ascii.eqb c "/" then EmptyString else String c EmptyString
      | r' => String c r'
      end
  end.

(** [path.dirname] *)
Definition dirname (p : string) : string :=
  let pre := uptoLastSlash (dropTrailingSlashes p) in
  if pre =? "" then (if startsWithSlash p then "/" else ".")
  else if pre =? "/" then "/"
  else if pre =? "//" then "//"
  else sliceDropLast pre 1.

End Path.

(** ** JavaScript objects used as string-keyed maps

    The own enumerable properties of an object, in the order
    [Object.keys] lists them: the array indices in ascending numeric
    order first, then the other names in the order they were created.
    Writing an existing key replaces its value where it stands; a new
    array index is inserted at its place among the indices, any other new
    key is appended.  Writing the key [__proto__] replaces the object's
    prototype and adds no property of its own.  [get] reads own
    properties: what an object inherits is no value of the map. *)
Module JsObject.

Definition isDigit (c : ascii) : bool :=
  let n := nat_of_ascii c in ((48 <=? n) && (n <=? 57))%nat.

Fixpoint digitsValue (s : string) (acc : N) : option N :=
  match s with
  | EmptyString => Some acc
  | String c r =>
      if isDigit c
      then digitsValue r (10 * acc + N.of_nat (nat_of_ascii c - 48))%N
      else None
  end.

(** An array index: the canonical decimal form of an integer from [0]
    to [2^32 - 2] (no sign, no leading zero). *)
Definition arrayIndex (k : string) : option N :=
  match k with
  | EmptyString => None
  | String c r =>
      if Ascii.eqb c "0" && JsString.nonEmpty r then None
      else match digitsValue k 0 with
           | Some n => if (n <=? 4294967294)%N then Some n else None
           | None => None
           end
  end.

Section WithValue.
Variable V : Type.

Definition t := list (string * V).

Definition empty : t := [].

Fixpoint get (k : string) (o : t) : option V :=
  match o with
  | [] => None
  | (k', v) :: rest => if k =? k' then Some v else get k rest
  end.

(** [Object.keys(o)] *)
Definition keys (o : t) : list string := map fst o.

Definition has (k : string) (o : t) : bool :=
  match get k o with Some _ => true | None => false end.

(** Replaces the value of [k] where it stands, or appends [k]. *)
Fixpoint replaceOrAppend (k : string) (v : V) (o : t) : t :=
  match o with
  | [] => [(k, v)]
  | (k', v') :: rest =>
      if k =? k' then (k', v) :: rest else (k', v') :: replaceOrAppend k v rest
  end.

(** Inserts the new array index [k], of value [n], after the indices
    below it. *)
Fixpoint insertIndex (n : N) (k : string) (v : V) (o : t) : t :=
  match o with
  | [] => [(k, v)]
  | (k', v') :: rest =>
      match arrayIndex k' with
      | Some n' => if (n' <? n)%N then (k', v') :: insertIndex n k v rest
                   else (k, v) :: o
      | None => (k, v) :: o
      end
  end.

(** [o[k] = v] *)
Definition set (k : string) (v : V) (o : t) : t :=
  if k =? "__proto__" then o
  else match arrayIndex k with
       | Some n => if has k o then replaceOrAppend k v o else insertIndex n k v o
       | None => replaceOrAppend k v o
       end.

(** lodash [assign(target, source)]: every own property of [source],
    in order, is written onto [target]. *)
Definition assign (target source : t) : t :=
  fold_left (fun acc kv => set (fst kv) (snd kv) acc) source target.

(** Building an object literal, property by property. *)
Definition literal (props : list (string * V)) : t := assign empty props.
End WithValue.

Arguments empty {V}.
End JsObject.

(** ** Broccoli trees

    A tree is a lazy handle; the source only builds trees by calling
    plugins, so a tree is represented by the plugin call that made it.
    The plugins (the broccoli packages, and the repository's
    [preprocessors], [utilities/reexport] and
    [broccoli/custom-static-compiler]) are not interpreted. *)

(** The preprocessor registry, as far as the source queries it:
    [registry.extensionsForType('js')]. *)
Record Registry := { extensionsForJs : list string }.

Record PickOptions := {
  srcDir : string;
  files : option (list string);
  destDir : string;
  allowEmpty : option bool
}.

Record ES6Options := {
  ignoredModules : list string;
  inputFiles : list string;
  wrapInEval : bool;
  outputFile : string;
  legacyFilesToAppend : list string
}.

Inductive tree : Type :=
| DirTree (dir : string)
| UnwatchedTree (dir : string)
| MergeTrees (branches : list tree)
| PickFiles (t : tree) (o : PickOptions)
| FileMover (t : tree) (srcFile destFile : string)
| ConcatFiles (t : tree) (inputs : list string) (output : string) (allowNone : bool)
| CompileES6 (t : tree) (o : ES6Options)
| JshintTrees (t : tree) (jshintrcPath description : string)
| PreprocessJs (t : tree) (inputPath outputPath : string) (r : Registry)
| PreprocessCss (t : tree) (inputPath outputPath : string) (r : Registry)
| PreprocessTemplates (t : tree) (r : Registry)
| Reexport (name file : string).

(** [trees.filter(Boolean)] on a list whose entries may be [undefined]. *)
Fixpoint filterBoolean (ts : list (option tree)) : list tree :=
  match ts with
  | [] => []
  | Some t :: rest => t :: filterBoolean rest
  | None :: rest => filterBoolean rest
  end.

(** ** Exceptions and the method monad *)
Inductive exn : Type :=
| TypeError (msg : string)
| SilentError (msg : string)
| RangeError (msg : string).

Definition result (A : Type) : Type := (exn + A)%type.

(** The project handle is opaque to this file. *)
Record Project := { projectId : string }.

(** The owning application, as far as the addon reads and writes it. *)
Record App := {
  appName : string;
  hinting : bool;
  importWhitelist : JsObject.t (list string);
  optionsWrapInEval : bool;
  optionsJshintrcApp : string
}.

Definition setImportWhitelist (a : App) (w : JsObject.t (list string)) : App :=
  {| appName := appName a; hinting := hinting a; importWhitelist := w;
     optionsWrapInEval := optionsWrapInEval a;
     optionsJshintrcApp := optionsJshintrcApp a |}.

(** A category method of a definition, as far as this development
    follows one: handed the tree, it can read [this.app] and leave
    another application (or the same one, changed) in its place, and it
    returns a tree, returns nothing, or raises.  What such a method does
    to the instance itself is outside the model. *)
Definition Hook : Type := tree -> option App -> result (option tree) * option App.

(** An addon instance: the fields the constructor sets, the properties it
    inherits from the definition it was built from ([name], [root],
    [modulePrefix], the category methods a definition may add), and the
    memo fields.  [modulePrefix] is both: [moduleName] reads what the
    definition supplied and writes its memo there.

    Members of a definition other than these are outside the model: an
    override of one of the class's own methods, or a member under the key
    [undefined], which [this[treeForMethod]] reads for a category that
    has no method name. *)
Record Addon := {
  project : Project;
  registry : Registry;
  didRequiredBuildPackages : bool;
  treePaths : JsObject.t string;
  treeForMethods : JsObject.t string;
  name : string;
  root : option string;
  modulePrefix : option string;
  includedModulesMemo : option (JsObject.t (list string));
  customMethods : list (string * Hook)
}.

(** What a method can read and write: the instance, and the application
    object [this.app] points to once [included] has run.  The application
    is shared by all addons of a build. *)
Record Heap := {
  self : Addon;
  owner : option App
}.

(** What an addon definition (the prototype of a constructor, or the
    plain object handed to [Addon.extend]) supplies to its instances: the
    [name], the [root], a [modulePrefix], and methods for the category
    hooks. *)
Record Definition_ := {
  defName : option string;
  defRoot : option string;
  defModulePrefix : option string;
  defMethods : list (string * Hook)
}.

(** What an addon's entry module can export, and what [lookup] can
    return: a function (with the properties of its prototype) or a plain
    object (with its own properties).  [extendsAddon] tells whether the
    function is a class made by [Addon.extend], so that [new] runs the
    [Addon] constructor on an instance of its prototype; what [new] does
    with any other function is that function's own body, which this
    development knows nothing about. *)
Inductive value : Type :=
| VFunction (prototype : Definition_) (extendsAddon : bool)
| VObject (props : Definition_).

Definition typeOf (v : value) : string :=
  match v with
  | VFunction _ _ => "function"
  | VObject _ => "object"
  end.

(** The process environment: the working directory, which absolute
    paths exist, the entries below a directory as [glob] lists them,
    whether [EMBER_ADDON_ENV] is [development], the registry
    [preprocessors.setupRegistry] builds, and what [require] loads. *)
Record World := {
  cwd : string;
  pathExists : string -> bool;
  filesBelow : string -> list string;
  addonEnvDevelopment : bool;
  setupRegistry : Project -> Registry;
  requireModule : string -> result value
}.

(** A method body: it runs on a heap and either raises or returns, and
    leaves a heap in both cases. *)
Definition M (A : Type) : Type := Heap -> result A * Heap.

Definition ret {A} (a : A) : M A := fun h => (inr a, h).

Definition bind {A B} (m : M A) (k : A -> M B) : M B :=
  fun h => match m h with
           | (inl e, h') => (inl e, h')
           | (inr a, h') => k a h'
           end.

Definition throw {A} (e : exn) : M A := fun h => (inl e, h).

Definition getSelf : M Addon := fun h => (inr (self h), h).

Definition putSelf (a : Addon) : M unit :=
  fun h => (inr tt, {| self := a; owner := owner h |}).

(** Reading [this.app.<field>]: a [TypeError] while [this.app] is unset. *)
Definition getApp : M App :=
  fun h => match owner h with
           | Some a => (inr a, h)
           | None => (inl (TypeError "Cannot read property of undefined"), h)
           end.

Definition putApp (a : App) : M unit :=
  fun h => (inr tt, {| self := self h; owner := Some a |}).

Declare Scope js_scope.
Delimit Scope js_scope with js.
Notation "x <- c ;; k" := (bind c (fun x => k))
  (at level 61, c at next level, right associativity) : js_scope.
Notation "c ;;; k" := (bind c (fun _ => k))
  (at level 61, right associativity) : js_scope.
Open Scope js_scope.

(** ** File system and [glob] *)

(** [fs.existsSync(p)]: a relative path is taken from the working
    directory of the process. *)
Definition existsSync (w : World) (p : string) : bool :=
  pathExists w (Path.resolve (cwd w) p "").

Module Glob.
Import JsString.

Fixpoint stripPrefix (p s : string) : option string :=
  match p, s with
  | EmptyString, _ => Some s
  | String a p', String b s' => if Ascii.eqb a b then stripPrefix p' s' else None
  | String _ _, EmptyString => None
  end.

(** [s] is one or more of the alternatives, concatenated: the extglob
    [+(e1|e2|...)]. *)
Fixpoint inPlus (fuel : nat) (alts : list string) (s : string) : bool :=
  match fuel with
  | O => false
  | S fuel' =>
      existsb (fun e => match stripPrefix e s with
                        | Some r => negb (nonEmpty r) || inPlus fuel' alts r
                        | None => false
                        end) alts
  end.

(** A file name against [*.+(e1|e2|...)]. *)
Fixpoint matchesStarDotExt (exts : list string) (b : string) : bool :=
  match b with
  | EmptyString => false
  | String c r =>
      (Ascii.eqb c "." && inPlus (S (String.length r)) exts r)
      || matchesStarDotExt exts r
  end.

Definition hidden (seg : string) : bool :=
  match seg with String c _ => Ascii.eqb c "." | EmptyString => false end.

(** A path relative to the globbed directory against
    [**/*.+(e1|e2|...)]: no portion starts with a dot, and the file name
    matches. *)
Definition matchesJsFileGlob (exts : list string) (rel : string) : bool :=
  let segs := splitSlash rel in
  forallb (fun seg => nonEmpty seg && negb (hidden seg)) segs
  && matchesStarDotExt exts (last segs EmptyString).

(** [glob.sync(pattern)] for a pattern [<dir>/**/*.+(...)]: the matching
    entries below [<dir>], each prefixed by [<dir>] as the pattern spells
    it.  [filesBelow w dir] lists the entries below [dir], relative to
    it, in the order [glob] reports them. *)
Definition sync (w : World) (exts : list string) (pattern : string) : list string :=
  let dir := Path.dirname (Path.dirname pattern) in
  map (fun rel => if endsWithSlash dir then dir ++ rel else dir ++ "/" ++ rel)
      (filter (matchesJsFileGlob exts) (filesBelow w dir)).
End Glob.

(** ** The [Addon] constructor *)

Definition fixedTreePaths : JsObject.t string :=
  JsObject.literal
    [ ("app", "app");
      ("styles", "app/styles");
      ("templates", "app/templates");
      ("addon", "addon");
      ("addon-styles", "addon/styles");
      ("addon-templates", "addon/templates");
      ("vendor", "vendor");
      ("test-support", "test-support");
      ("public", "public") ].

Definition fixedTreeForMethods : JsObject.t string :=
  JsObject.literal
    [ ("app", "treeForApp");
      ("styles", "treeForStyles");
      ("templates", "treeForTemplates");
      ("addon", "treeForAddon");
      ("vendor", "treeForVendor");
      ("test-support", "treeForTestSupport");
      ("public", "treeForPublic") ].

(** A string property is falsy when it is absent or empty. *)
Definition truthy (s : option string) : bool :=
  match s with Some (String _ _) => true | _ => false end.

(** [new Addon(project)] for an instance of definition [d]: the
    constructor assigns neither [name], [root] nor [modulePrefix], which
    the instance reads from its prototype. *)
Definition construct (w : World) (d : Definition_) (p : Project) : result Addon :=
  match defName d with
  | Some (String c r) =>
      inr {| project := p;
             registry := setupRegistry w p;
             didRequiredBuildPackages := false;
             treePaths := fixedTreePaths;
             treeForMethods := fixedTreeForMethods;
             name := String c r;
             root := defRoot d;
             modulePrefix := defModulePrefix d;
             includedModulesMemo := None;
             customMethods := defMethods d |}
  | _ => inl (SilentError "An addon must define a `name` property.")
  end.

(** ** Field updates *)
Definition withDidRequired (a : Addon) : Addon :=
  {| project := project a; registry := registry a;
     didRequiredBuildPackages := true;
     treePaths := treePaths a; treeForMethods := treeForMethods a;
     name := name a; root := root a; modulePrefix := modulePrefix a;
     includedModulesMemo := includedModulesMemo a;
     customMethods := customMethods a |}.

Definition withModulePrefix (a : Addon) (mp : string) : Addon :=
  {| project := project a; registry := registry a;
     didRequiredBuildPackages := didRequiredBuildPackages a;
     treePaths := treePaths a; treeForMethods := treeForMethods a;
     name := name a; root := root a; modulePrefix := Some mp;
     includedModulesMemo := includedModulesMemo a;
     customMethods := customMethods a |}.

Definition withIncludedModules (a : Addon) (m : JsObject.t (list string)) : Addon :=
  {| project := project a; registry := registry a;
     didRequiredBuildPackages := didRequiredBuildPackages a;
     treePaths := treePaths a; treeForMethods := treeForMethods a;
     name := name a; root := root a; modulePrefix := modulePrefix a;
     includedModulesMemo := Some m;
     customMethods := customMethods a |}.

(** [addon.name = n], an assignment from outside the class. *)
Definition withName (a : Addon) (n : string) : Addon :=
  {| project := project a; registry := registry a;
     didRequiredBuildPackages := didRequiredBuildPackages a;
     treePaths := treePaths a; treeForMethods := treeForMethods a;
     name := n; root := root a; modulePrefix := modulePrefix a;
     includedModulesMemo := includedModulesMemo a;
     customMethods := customMethods a |}.

(** ** Methods of [Addon.prototype] *)
Section Methods.
Variable w : World.

Definition _requireBuildPackages : M unit :=
  a <- getSelf ;;
  if didRequiredBuildPackages a then ret tt else putSelf (withDidRequired a).

Definition _unwatchedTreeGenerator (dir : string) : tree := UnwatchedTree dir.

Definition isDevelopingAddon : bool := addonEnvDevelopment w.

Definition treeGenerator (dir : string) : tree :=
  if isDevelopingAddon then DirTree dir else _unwatchedTreeGenerator dir.

(** [path.join(a, b)] on property reads that may be [undefined] (a
    missing key, or a member inherited from [Object.prototype], is not a
    string): Node raises a [TypeError] for a non-string argument. *)
Definition pathJoin (a b : option string) : M string :=
  match a, b with
  | Some a', Some b' => ret (Path.join a' b')
  | _, _ => throw (TypeError "Arguments to path.join must be strings")
  end.

Definition moduleName : M string :=
  a <- getSelf ;;
  if truthy (modulePrefix a) then
    ret (match modulePrefix a with Some mp => mp | None => EmptyString end)
  else
    let mp := JsString.replaceWhitespace (JsString.toLowerCase (name a)) in
    putSelf (withModulePrefix a mp) ;;;
    ret mp.

Definition _jsFileGlob : M string :=
  a <- getSelf ;;
  ret ("**/*.+(" ++ String.concat "|" (extensionsForJs (registry a)) ++ ")").

(** [s.replace(/\\/g, '/')] *)
Fixpoint backslashesToSlashes (s : string) : string :=
  match s with
  | EmptyString => EmptyString
  | String c r =>
      String (if Ascii.eqb c "\" then "/"%char else c) (backslashesToSlashes r)
  end.

(** The [reduce] callback of [includedModules], folded over the glob
    result. *)
Fixpoint collectModules (treePath : string) (filePaths : list string)
         (acc : JsObject.t (list string)) : M (JsObject.t (list string)) :=
  match filePaths with
  | [] => ret acc
  | filePath :: rest =>
      mn <- moduleName ;;
      let modulePath := JsString.replace filePath treePath mn in
      let modulePath :=
        JsString.sliceDropLast modulePath (String.length (Path.extname modulePath)) in
      collectModules treePath rest (JsObject.set modulePath ["default"] acc)
  end.

Definition includedModules : M (JsObject.t (list string)) :=
  a <- getSelf ;;
  match includedModulesMemo a with
  | Some m => ret m
  | None =>
      joined <- pathJoin (root a) (JsObject.get "addon" (treePaths a)) ;;
      let treePath := backslashesToSlashes joined in
      g <- _jsFileGlob ;;
      let found := Glob.sync w (extensionsForJs (registry a)) (Path.join treePath g) in
      m <- collectModules treePath found JsObject.empty ;;
      a1 <- getSelf ;;
      putSelf (withIncludedModules a1 m) ;;;
      mn <- moduleName ;;
      if JsObject.has (mn ++ "/index") m then
        mn' <- moduleName ;;
        let m' := JsObject.set mn' ["default"] m in
        a2 <- getSelf ;;
        putSelf (withIncludedModules a2 m') ;;;
        ret m'
      else ret m
  end.

Definition addonJsFiles (t : tree) : M tree :=
  _requireBuildPackages ;;;
  g <- _jsFileGlob ;;
  mn <- moduleName ;;
  a <- getSelf ;;
  let picked := PickFiles t {| srcDir := "/"; files := Some [g];
                               destDir := mn; allowEmpty := Some true |} in
  ret (PreprocessJs picked "/" (name a) (registry a)).

Definition compileStyles (t : option tree) : M (option tree) :=
  _requireBuildPackages ;;;
  match t with
  | Some t' =>
      a <- getSelf ;;
      let processedStyles := PreprocessCss t' "/" "/" (registry a) in
      app <- getApp ;;
      a' <- getSelf ;;
      ret (Some (FileMover processedStyles
                           ("/" ++ appName app ++ ".css")
                           ("/" ++ name a' ++ ".css")))
  | None => ret None
  end.

Definition compileTemplates (t : option tree) : M (option tree) :=
  _requireBuildPackages ;;;
  match t with
  | Some t' =>
      a <- getSelf ;;
      let standardTemplates :=
        PickFiles t' {| srcDir := "/"; files := None;
                        destDir := name a ++ "/templates"; allowEmpty := None |} in
      let podTemplates :=
        PickFiles t' {| srcDir := "/"; files := Some ["**/template.*"];
                        destDir := name a ++ "/"; allowEmpty := Some true |} in
      ret (Some (PreprocessTemplates (MergeTrees [standardTemplates; podTemplates])
                                     (registry a)))
  | None => ret None
  end.

Definition jshintAddonTree : M (option tree) :=
  _requireBuildPackages ;;;
  a <- getSelf ;;
  match JsObject.get "addon" (treePaths a) with
  | None => ret None
  | Some addonPath =>
      if negb (existsSync w addonPath) then ret None
      else
        addonJs <- addonJsFiles (DirTree addonPath) ;;
        app <- getApp ;;
        let jshintedAddon :=
          JshintTrees addonJs (optionsJshintrcApp app) "JSHint - Addon" in
        a' <- getSelf ;;
        ret (Some (PickFiles jshintedAddon
                             {| srcDir := "/"; files := None;
                                destDir := name a' ++ "/tests/";
                                allowEmpty := None |}))
  end.

Definition treeForPublic (t : tree) : M (option tree) :=
  _requireBuildPackages ;;;
  mn <- moduleName ;;
  ret (Some (PickFiles t {| srcDir := "/"; files := None;
                            destDir := "/" ++ mn; allowEmpty := None |})).

(** The methods below call each other through [_treeFor]; [treeForRec]
    stands for that recursive call. *)
Section Knot.
Variable treeForRec : string -> M (option tree).

Definition compileAddonWith (t : tree) : M (option tree) :=
  _requireBuildPackages ;;;
  m <- includedModules ;;
  match JsObject.keys m with
  | [] => ret None
  | _ :: _ =>
      addonJs <- addonJsFiles t ;;
      templates <- treeForRec "addon-templates" ;;
      templatesTree <- compileTemplates templates ;;
      a <- getSelf ;;
      let reexported := Reexport (name a) "__reexport.js" in
      let trees := filterBoolean [Some addonJs; templatesTree; Some reexported] in
      let merged := MergeTrees trees in
      app <- getApp ;;
      mn <- moduleName ;;
      a1 <- getSelf ;;
      app1 <- getApp ;;
      let es6Tree :=
        CompileES6 merged
          {| ignoredModules := (JsObject.keys (importWhitelist app) ++ [mn])%list;
             inputFiles := [name a1 ++ "/**/*.js"];
             wrapInEval := optionsWrapInEval app1;
             outputFile := "/" ++ name a1 ++ ".js";
             legacyFilesToAppend := ["__reexport.js"] |} in
      app2 <- getApp ;;
      m2 <- includedModules ;;
      putApp (setImportWhitelist app2 (JsObject.assign (importWhitelist app2) m2)) ;;;
      ret (Some es6Tree)
  end.

Definition treeForAddonWith (t : tree) : M (option tree) :=
  _requireBuildPackages ;;;
  addonTree <- compileAddonWith t ;;
  styles <- treeForRec "addon-styles" ;;
  stylesTree <- compileStyles styles ;;
  a <- getSelf ;;
  let jsTree :=
    match addonTree with
    | Some at' => Some (ConcatFiles at' ["**/*.js"] ("/" ++ name a ++ ".js") true)
    | None => None
    end in
  ret (Some (MergeTrees (filterBoolean [jsTree; stylesTree]))).

(** Calling a method of the definition, with [this] the instance. *)
Definition runHook (f : Hook) (t : tree) : M (option tree) :=
  fun h => let '(r, o') := f t (owner h) in (r, {| self := self h; owner := o' |}).

(** [this[method]]: a method the definition supplies shadows the one
    on [Addon.prototype]; of the names [treeForMethods] holds, only
    [treeForPublic] and [treeForAddon] are defined there. *)
Definition lookupMethod (a : Addon) (method : option string)
  : option (tree -> M (option tree)) :=
  match method with
  | None => None
  | Some m =>
      match JsObject.get m (customMethods a) with
      | Some f => Some (runHook f)
      | None =>
          if m =? "treeForPublic" then Some treeForPublic
          else if m =? "treeForAddon" then Some treeForAddonWith
          else None
      end
  end.

Definition _treeForWith (nm : string) : M (option tree) :=
  a <- getSelf ;;
  treePath <- pathJoin (root a) (JsObject.get nm (treePaths a)) ;;
  let treeForMethod := JsObject.get nm (treeForMethods a) in
  if existsSync w treePath then
    let t := treeGenerator treePath in
    a' <- getSelf ;;
    match lookupMethod a' treeForMethod with
    | Some method => method t
    | None => ret (Some t)
    end
  else ret None.
End Knot.

(** [_treeFor] with a bound on the nesting of calls; JavaScript raises a
    [RangeError] when its call stack is exhausted. *)
Fixpoint _treeFor (depth : nat) (nm : string) : M (option tree) :=
  match depth with
  | O => throw (RangeError "Maximum call stack size exceeded")
  | S d => _treeForWith (_treeFor d) nm
  end.

Definition compileAddon (depth : nat) (t : tree) : M (option tree) :=
  compileAddonWith (_treeFor depth) t.

Definition treeForAddon (depth : nat) (t : tree) : M (option tree) :=
  treeForAddonWith (_treeFor depth) t.

Definition treeFor (depth : nat) (nm : string) : M tree :=
  _requireBuildPackages ;;;
  t <- _treeFor depth nm ;;
  let trees := match t with Some t' => [Some t'] | None => [] end in
  trees' <- (if isDevelopingAddon then
               app <- getApp ;;
               if hinting app && (nm =? "app") then
                 j <- jshintAddonTree ;;
                 ret (trees ++ [j])%list
               else ret trees
             else ret trees) ;;
  ret (MergeTrees (filterBoolean trees')).

Definition included (app : App) : M unit := putApp app.
End Methods.

(** ** Static resolver: [Addon.resolvePath] and [Addon.lookup] *)

(** The [ember-addon] object of a package manifest. *)
Record EmberAddonField := { main : option string }.

(** The manifest fields the resolver reads: [name], the legacy
    [ember-addon-main], and [ember-addon]. *)
Record Package := {
  pkgName : string;
  emberAddonMain : option string;
  emberAddon : option EmberAddonField
}.

Record AddonRef := {
  addonPath : string;
  pkg : Package
}.

(** How a possibly absent string reads inside a string concatenation. *)
Definition toString (s : option string) : string :=
  match s with Some s' => s' | None => "undefined" end.

(** Modelled from the spec: [utilities/deprecate] is not part of the
    sources at hand; per the specification it emits a non-fatal notice.
    [deprecate message test] yields the notices printed: the message when
    [test] is truthy, nothing otherwise. *)
Definition deprecate (message : string) (test : option string) : list string :=
  if truthy test then [message] else [].

Definition deprecationMessage (p : Package) : string :=
  pkgName p ++ " is using the deprecated ember-addon-main definition. It should be updated to {'ember-addon': {'main': '"
  ++ toString (emberAddonMain p) ++ "'}}".

(** The entry-point name before the extension is added:
    [pkg['ember-addon-main'] || pkg['ember-addon'].main || 'index.js'];
    reading [.main] of an absent [ember-addon] is a [TypeError]. *)
Definition chooseMain (p : Package) : result string :=
  if truthy (emberAddonMain p) then inr (toString (emberAddonMain p))
  else match emberAddon p with
       | None => inl (TypeError "Cannot read property 'main' of undefined")
       | Some ea =>
           if truthy (main ea) then inr (toString (main ea)) else inr "index.js"
       end.

Definition withExtension (addonMain : string) : string :=
  if JsString.nonEmpty (Path.extname addonMain) then addonMain
  else addonMain ++ ".js".

(** [Addon.resolvePath(addon)]: the notices printed and the outcome. *)
Definition resolvePath (w : World) (addon : AddonRef) : list string * result string :=
  let notices := deprecate (deprecationMessage (pkg addon)) (emberAddonMain (pkg addon)) in
  match chooseMain (pkg addon) with
  | inl e => (notices, inl e)
  | inr addonMain =>
      (notices, inr (Path.resolve (cwd w) (addonPath addon) (withExtension addonMain)))
  end.

(** [Addon.extend(props)]: a new class whose prototype carries [props]
    and whose instances the [Addon] constructor initialises. *)
Definition extend (props : Definition_) : value := VFunction props true.

Definition withRoot (d : Definition_) (r : option string) : Definition_ :=
  {| defName := defName d; defRoot := r; defModulePrefix := defModulePrefix d;
     defMethods := defMethods d |}.

(** [new C(project)] for what [lookup] returned, where the source says
    what it does: [C] is a class made by [Addon.extend]. *)
Definition instantiate (w : World) (v : value) (p : Project) : option (result Addon) :=
  match v with
  | VFunction d true => Some (construct w d p)
  | _ => None
  end.

(** [Addon.lookup(addon)] *)
Definition lookup (w : World) (addon : AddonRef) : list string * result value :=
  match resolvePath w addon with
  | (notices, inl e) => (notices, inl e)
  | (notices, inr modulePath) =>
      let moduleDir := Path.dirname modulePath in
      if existsSync w modulePath then
        match requireModule w modulePath with
        | inl e => (notices, inl e)
        | inr (VFunction proto derived) =>
            (notices,
             inr (VFunction (withRoot proto (if truthy (defRoot proto) then defRoot proto
                                             else Some moduleDir))
                            derived))
        | inr (VObject props) =>
            (notices,
             inr (extend (withRoot props (match defRoot props with
                                          | Some r => Some r
                                          | None => Some moduleDir
                                          end))))
        end
      else
        (notices,
         inr (extend {| defName := Some ("(generated " ++ pkgName (pkg addon) ++ " addon)");
                        defRoot := Some moduleDir;
                        defModulePrefix := None;
                        defMethods := [] |}))
  end.

(** ** A sequential pass over the addons of one application *)

(** Runs [compileAddon] of each addon in turn against the shared
    application, returning the bundles and the final application. *)
Fixpoint compilePass (w : World) (depth : nat) (addons : list (Addon * tree)) (app : App)
  : list (result (option tree)) * App :=
  match addons with
  | [] => ([], app)
  | (a, t) :: rest =>
      let '(r, h) := compileAddon w depth t {| self := a; owner := Some app |} in
      let app' := match owner h with Some x => x | None => app end in
      let '(rs, final) := compilePass w depth rest app' in
      (r :: rs, final)
  end.

(** ** Derived descriptions used in the statements *)

(** The module name computed from a name: lowercased, then every
    whitespace character replaced by a hyphen. *)
Definition slug (n : string) : string :=
  JsString.replaceWhitespace (JsString.toLowerCase n).

(** The same, character by character: a whitespace character becomes a
    hyphen, any other character its lowercase form. *)
Definition slugChar (c : ascii) : ascii :=
  if JsString.isWhitespace c then "-"%char else JsString.lowerChar c.

Fixpoint mapChars (f : ascii -> ascii) (s : string) : string :=
  match s with
  | EmptyString => EmptyString
  | String c r => String (f c) (mapChars f r)
  end.

(** The value [moduleName()] returns on an instance. *)
Definition moduleNameOf (a : Addon) : string :=
  match modulePrefix a with
  | Some (String c n) => String c n
  | _ => slug (name a)
  end.

(** Two states of one instance that differ at most in the memo fields and
    the build-package flag, and agree on the module name. *)
Definition sameConfig (a a' : Addon) : Prop :=
  registry a' = registry a
  /\ treePaths a' = treePaths a
  /\ treeForMethods a' = treeForMethods a
  /\ name a' = name a
  /\ root a' = root a
  /\ customMethods a' = customMethods a
  /\ moduleNameOf a' = moduleNameOf a.

(** [m] returns [v] from [h], leaving the application as it was, the
    instance in a state [sameConfig] with the old one, and [memo] as its
    modules memo. *)
Definition runs {A} (m : M A) (h : Heap) (v : A)
           (memo : option (JsObject.t (list string))) : Prop :=
  exists a', m h = (inr v, {| self := a'; owner := owner h |})
             /\ sameConfig (self h) a'
             /\ includedModulesMemo a' = memo.

(** The same, with the modules memo untouched. *)
Definition returns {A} (m : M A) (h : Heap) (v : A) : Prop :=
  runs m h v (includedModulesMemo (self h)).

(** [m] returns [v] from [h] in a final state satisfying [Q]. *)
Definition yields {A} (m : M A) (h : Heap) (v : A)
           (Q : Addon -> option App -> Prop) : Prop :=
  exists a' o', m h = (inr v, {| self := a'; owner := o' |}) /\ Q a' o'.

(** [m] raises [e] from [h], leaving the application as it was and the
    instance in a state [sameConfig] with the old one. *)
Definition fails {A} (m : M A) (h : Heap) (e : exn) : Prop :=
  exists a', m h = (inl e, {| self := a'; owner := owner h |})
             /\ sameConfig (self h) a'.

(** [m] either raises the [TypeError] of a read through the unset
    [this.app], or returns; in both cases it leaves the application as it
    was and the instance in a state [sameConfig] with the old one. *)
Definition stops {A} (m : M A) (h : Heap) : Prop :=
  fails m h (TypeError "Cannot read property of undefined")
  \/ exists v memo, runs m h v memo.

(** The glob [_jsFileGlob()] builds for a registry. *)
Definition jsFileGlobOf (r : Registry) : string :=
  "**/*.+(" ++ String.concat "|" (extensionsForJs r) ++ ")".

(** The tree [addonJsFiles(t)] builds on an instance. *)
Definition addonJsFilesOf (a : Addon) (t : tree) : tree :=
  PreprocessJs
    (PickFiles t {| srcDir := "/"; files := Some [jsFileGlobOf (registry a)];
                    destDir := moduleNameOf a; allowEmpty := Some true |})
    "/" (name a) (registry a).

Definition compileTemplatesOf (a : Addon) (t : option tree) : option tree :=
  match t with
  | Some t' =>
      Some (PreprocessTemplates
              (MergeTrees
                 [ PickFiles t' {| srcDir := "/"; files := None;
                                   destDir := name a ++ "/templates"; allowEmpty := None |};
                   PickFiles t' {| srcDir := "/"; files := Some ["**/template.*"];
                                   destDir := name a ++ "/"; allowEmpty := Some true |} ])
              (registry a))
  | None => None
  end.

(** The lint tree the method builds when it builds one. *)
Definition lintTreeOf (a : Addon) (app : App) (addonPath : string) : tree :=
  PickFiles
    (JshintTrees (addonJsFilesOf a (DirTree addonPath))
                 (optionsJshintrcApp app) "JSHint - Addon")
    {| srcDir := "/"; files := None; destDir := name a ++ "/tests/"; allowEmpty := None |}.

(** The key one globbed file is registered under. *)
Definition moduleKey (treePath mn filePath : string) : string :=
  let modulePath := JsString.replace filePath treePath mn in
  JsString.sliceDropLast modulePath (String.length (Path.extname modulePath)).

Definition collectOf (treePath mn : string) (filePaths : list string)
           (acc : JsObject.t (list string)) : JsObject.t (list string) :=
  fold_left (fun acc filePath => JsObject.set (moduleKey treePath mn filePath) ["default"] acc)
            filePaths acc.

(** The directory [includedModules] globs, as the source spells it. *)
Definition addonTreePath (r rel : string) : string :=
  backslashesToSlashes (Path.join r rel).

Definition globbedFiles (w : World) (a : Addon) (r rel : string) : list string :=
  Glob.sync w (extensionsForJs (registry a))
            (Path.join (addonTreePath r rel) (jsFileGlobOf (registry a))).

(** The object a first call of [includedModules()] computes. *)
Definition includedModulesOf (w : World) (a : Addon) (r rel : string)
  : JsObject.t (list string) :=
  let mn := moduleNameOf a in
  let m := collectOf (addonTreePath r rel) mn (globbedFiles w a r rel) JsObject.empty in
  if JsObject.has (mn ++ "/index") m then JsObject.set mn ["default"] m else m.

(** An instance as the constructor leaves it. *)
Definition asConstructed (a : Addon) : Prop :=
  treePaths a = fixedTreePaths
  /\ treeForMethods a = fixedTreeForMethods
  /\ includedModulesMemo a = None.

(** The bundle [compileAddon(t)] links for an instance rooted at [r]. *)
Definition bundleOf (w : World) (a : Addon) (app : App) (r : string) (t : tree) : tree :=
  let templates :=
    if existsSync w (Path.join r "addon/templates")
    then Some (treeGenerator w (Path.join r "addon/templates")) else None in
  CompileES6
    (MergeTrees (filterBoolean [ Some (addonJsFilesOf a t);
                                 compileTemplatesOf a templates;
                                 Some (Reexport (name a) "__reexport.js") ]))
    {| ignoredModules := (JsObject.keys (importWhitelist app) ++ [moduleNameOf a])%list;
       inputFiles := [name a ++ "/**/*.js"];
       wrapInEval := optionsWrapInEval app;
       outputFile := "/" ++ name a ++ ".js";
       legacyFilesToAppend := ["__reexport.js"] |}.

(** A path portion that [normalize] keeps as it is: not empty, without a
    slash, and neither [.] nor [..]. *)
Definition normalSegment (s : string) : bool :=
  JsString.nonEmpty s && negb (JsString.contains "/" s)
  && negb (s =? ".") && negb (s =? "..").

(** A name without a slash or a dot, such as [main] or [index]. *)
Definition plainName (s : string) : bool :=
  JsString.nonEmpty s && negb (JsString.contains "/" s)
  && negb (JsString.contains "." s).

(** ** Concrete worlds and addons used in examples *)
Module Examples.

Definition theProject : Project := {| projectId := "my-app" |}.

(** An addon [x] installed at [/lib/x] with [foo.js], [bar/baz.js] and
    [index.js] (and some files the glob skips) in its [addon] directory,
    used from an application in [/work/app]. *)
Definition world : World := {|
  cwd := "/work/app";
  pathExists := fun p => existsb (String.eqb p) ["/lib/x"; "/lib/x/addon"];
  filesBelow := fun d =>
    if d =? "/lib/x/addon"
    then ["bar/baz.js"; "foo.js"; "index.js"; "README.md"; ".hidden.js"]
    else [];
  addonEnvDevelopment := false;
  setupRegistry := fun _ => {| extensionsForJs := ["js"] |};
  requireModule := fun _ => inl (TypeError "Cannot find module")
|}.

Definition definitionX : Definition_ :=
  {| defName := Some "x"; defRoot := Some "/lib/x"; defModulePrefix := None;
     defMethods := [] |}.

Definition theApp : App :=
  {| appName := "my-app"; hinting := true;
     importWhitelist := JsObject.literal [("ember", ["default"])];
     optionsWrapInEval := true;
     optionsJshintrcApp := "/work/app/.jshintrc" |}.

(** The instance [new X(theProject)], written out. *)
Definition addonX : Addon :=
  {| project := theProject;
     registry := {| extensionsForJs := ["js"] |};
     didRequiredBuildPackages := false;
     treePaths := fixedTreePaths;
     treeForMethods := fixedTreeForMethods;
     name := "x";
     root := Some "/lib/x";
     modulePrefix := None;
     includedModulesMemo := None;
     customMethods := [] |}.

Definition heapX : Heap := {| self := addonX; owner := Some theApp |}.

End Examples.

Module LookupExample.
(** A package that only has a manifest: no entry file on disk. *)
Definition manifestOnly : AddonRef :=
  {| addonPath := "/work/app/node_modules/ember-foo";
     pkg := {| pkgName := "ember-foo"; emberAddonMain := None;
               emberAddon := Some {| main := None |} |} |}.
End LookupExample.

Module LintExample.
(** The addon ["My Addon"] being developed in place: the process runs
    in the addon's own directory, which has an [addon] folder. *)
Definition world : World := {|
  cwd := "/work/my-addon";
  pathExists := fun p => existsb (String.eqb p) ["/work/my-addon"; "/work/my-addon/addon"];
  filesBelow := fun d => if d =? "/work/my-addon/addon" then ["index.js"] else [];
  addonEnvDevelopment := true;
  setupRegistry := fun _ => {| extensionsForJs := ["js"] |};
  requireModule := fun _ => inl (TypeError "Cannot find module")
|}.

Definition myAddon : Addon :=
  {| project := Examples.theProject;
     registry := {| extensionsForJs := ["js"] |};
     didRequiredBuildPackages := false;
     treePaths := fixedTreePaths;
     treeForMethods := fixedTreeForMethods;
     name := "My Addon";
     root := Some "/work/my-addon";
     modulePrefix := None;
     includedModulesMemo := None;
     customMethods := [] |}.

Definition heap : Heap := {| self := myAddon; owner := Some Examples.theApp |}.
End LintExample.

Module PrefixExample.
(** Two definitions of the addon ["My Addon"]: one as plain as can be,
    one that brings a module prefix of its own. *)
Definition plain : Definition_ :=
  {| defName := Some "My Addon"; defRoot := Some "/work/my-addon";
     defModulePrefix := None; defMethods := [] |}.

Definition prefixed : Definition_ :=
  {| defName := Some "My Addon"; defRoot := Some "/work/my-addon";
     defModulePrefix := Some "Custom Prefix"; defMethods := [] |}.

(** The instance [new Prefixed(theProject)], written out. *)
Definition prefixedAddon : Addon :=
  {| project := Examples.theProject;
     registry := {| extensionsForJs := ["js"] |};
     didRequiredBuildPackages := false;
     treePaths := fixedTreePaths;
     treeForMethods := fixedTreeForMethods;
     name := "My Addon";
     root := Some "/work/my-addon";
     modulePrefix := Some "Custom Prefix";
     includedModulesMemo := None;
     customMethods := [] |}.
End PrefixExample.

Module WhitelistExample.
(** An addon named [ic-ajax] with an [addon/index.js], used by an
    application that already imported a vendored [ic-ajax] exporting
    [default] and [request]. *)
Definition world : World := {|
  cwd := "/work/app";
  pathExists := fun p => existsb (String.eqb p) ["/lib/ic-ajax"; "/lib/ic-ajax/addon"];
  filesBelow := fun d => if d =? "/lib/ic-ajax/addon" then ["index.js"] else [];
  addonEnvDevelopment := false;
  setupRegistry := fun _ => {| extensionsForJs := ["js"] |};
  requireModule := fun _ => inl (TypeError "Cannot find module")
|}.

Definition icAjax : Addon :=
  {| project := Examples.theProject;
     registry := {| extensionsForJs := ["js"] |};
     didRequiredBuildPackages := false;
     treePaths := fixedTreePaths;
     treeForMethods := fixedTreeForMethods;
     name := "ic-ajax";
     root := Some "/lib/ic-ajax";
     modulePrefix := None;
     includedModulesMemo := None;
     customMethods := [] |}.

Definition app : App :=
  {| appName := "my-app"; hinting := false;
     importWhitelist :=
       JsObject.literal [("ember", ["default"]); ("ic-ajax", ["default"; "request"])];
     optionsWrapInEval := true;
     optionsJshintrcApp := "/work/app/.jshintrc" |}.

Definition addonTree : tree := UnwatchedTree "/lib/ic-ajax/addon".
End WhitelistExample.

Module PassExample.
(** A build in which both [x] and [ic-ajax] are installed and bring
    modules. *)
Definition world : World := {|
  cwd := "/work/app";
  pathExists := fun p =>
    existsb (String.eqb p) ["/lib/x"; "/lib/x/addon"; "/lib/ic-ajax"; "/lib/ic-ajax/addon"];
  filesBelow := fun d =>
    if d =? "/lib/x/addon" then ["bar/baz.js"; "foo.js"; "index.js"]
    else if d =? "/lib/ic-ajax/addon" then ["index.js"]
    else [];
  addonEnvDevelopment := false;
  setupRegistry := fun _ => {| extensionsForJs := ["js"] |};
  requireModule := fun _ => inl (TypeError "Cannot find module")
|}.

Definition icAjaxFirst : list (Addon * tree) :=
  [(WhitelistExample.icAjax, WhitelistExample.addonTree);
   (Examples.addonX, UnwatchedTree "/lib/x/addon")].

Definition xFirst : list (Addon * tree) :=
  [(Examples.addonX, UnwatchedTree "/lib/x/addon");
   (WhitelistExample.icAjax, WhitelistExample.addonTree)].
End PassExample.

Module KeyOrderExample.
(** One addon directory with an [index.js], for addons whose names are
    an array index ([42]) or [__proto__]. *)
Definition world : World := {|
  cwd := "/work/app";
  pathExists := fun p => existsb (String.eqb p) ["/lib/a"; "/lib/a/addon"];
  filesBelow := fun d => if d =? "/lib/a/addon" then ["index.js"] else [];
  addonEnvDevelopment := false;
  setupRegistry := fun _ => {| extensionsForJs := ["js"] |};
  requireModule := fun _ => inl (TypeError "Cannot find module")
|}.

Definition named (n : string) : Addon :=
  {| project := Examples.theProject;
     registry := {| extensionsForJs := ["js"] |};
     didRequiredBuildPackages := false;
     treePaths := fixedTreePaths;
     treeForMethods := fixedTreeForMethods;
     name := n;
     root := Some "/lib/a";
     modulePrefix := None;
     includedModulesMemo := None;
     customMethods := [] |}.
End KeyOrderExample.

Module ResolveExample.
(** A manifest that sets both the legacy and the current field. *)
Definition bothFields : AddonRef :=
  {| addonPath := "/work/app/node_modules/ember-foo";
     pkg := {| pkgName := "ember-foo";
               emberAddonMain := Some "old-main.js";
               emberAddon := Some {| main := Some "new-main.js" |} |} |}.

(** A manifest with only the legacy field. *)
Definition legacyOnly : AddonRef :=
  {| addonPath := "/work/app/node_modules/ember-foo";
     pkg := {| pkgName := "ember-foo";
               emberAddonMain := Some "main";
               emberAddon := Some {| main := None |} |} |}.
End ResolveExample.

Module DollarExample.
(** An addon whose name contains [$$], with [foo.js] and [index.js] in
    its [addon] directory. *)
Definition world : World := {|
  cwd := "/work/app";
  pathExists := fun p => existsb (String.eqb p) ["/lib/cash"; "/lib/cash/addon"];
  filesBelow := fun d => if d =? "/lib/cash/addon" then ["foo.js"; "index.js"] else [];
  addonEnvDevelopment := false;
  setupRegistry := fun _ => {| extensionsForJs := ["js"] |};
  requireModule := fun _ => inl (TypeError "Cannot find module")
|}.

Definition cash : Addon :=
  {| project := Examples.theProject;
     registry := {| extensionsForJs := ["js"] |};
     didRequiredBuildPackages := false;
     treePaths := fixedTreePaths;
     treeForMethods := fixedTreeForMethods;
     name := "ca$$h";
     root := Some "/lib/cash";
     modulePrefix := None;
     includedModulesMemo := None;
     customMethods := [] |}.

Definition heap : Heap := {| self := cash; owner := Some Examples.theApp |}.
End DollarExample.

(** ** Further methods and descriptions *)

(** [Addon.prototype.blueprintsPath] *)
Definition blueprintsPath (w : World) : M (option string) :=
  a <- getSelf ;;
  blueprintPath <- pathJoin (root a) (Some "blueprints") ;;
  if existsSync w blueprintPath then ret (Some blueprintPath) else ret None.

(** [addon.root = r], an assignment from outside the class. *)
Definition withRootOf (a : Addon) (r : option string) : Addon :=
  {| project := project a; registry := registry a;
     didRequiredBuildPackages := didRequiredBuildPackages a;
     treePaths := treePaths a; treeForMethods := treeForMethods a;
     name := name a; root := r; modulePrefix := modulePrefix a;
     includedModulesMemo := includedModulesMemo a;
     customMethods := customMethods a |}.

(** The modules an addon brings to a pass: those of its first
    [includedModules()], none when it has no root. *)
Definition contribution (w : World) (a : Addon) : JsObject.t (list string) :=
  match root a with
  | Some r => includedModulesOf w a r "addon"
  | None => JsObject.empty
  end.

(** An instance with the constructor's two tables. *)
Definition fixedTables (a : Addon) : Prop :=
  treePaths a = fixedTreePaths /\ treeForMethods a = fixedTreeForMethods.

(** The category's method is one of the class itself and has no
    effect on [this.app]: the definition supplies none under the method's
    name, and the name is not that of the built-in [treeForAddon]. *)
Definition plainMethod (a : Addon) (mname : option string) : Prop :=
  match mname with
  | Some m => JsObject.get m (customMethods a) = None /\ m <> "treeForAddon"
  | None => True
  end.

(** The branch [_treeFor] contributes for an existing directory whose
    tree is [t], when the category's method, named [mname], is a
    [plainMethod]: [treeForPublic] moves the tree below the module name;
    without a method the tree is passed through. *)
Definition branchOf (a : Addon) (mname : option string) (t : tree) : option tree :=
  match mname with
  | None => Some t
  | Some m =>
      if m =? "treeForPublic"
      then Some (PickFiles t {| srcDir := "/"; files := None;
                                destDir := "/" ++ moduleNameOf a;
                                allowEmpty := None |})
      else Some t
  end.

(** [treeFor]'s list of branches, merged. *)
Definition mergedOf (branches : list (option tree)) : tree :=
  MergeTrees (filterBoolean branches).

Module LoadExample.
(** A package whose entry file exists and exports a plain object without
    a name. *)
Definition world : World := {|
  cwd := "/work/app";
  pathExists := fun p => String.eqb p "/work/app/node_modules/ember-foo/index.js";
  filesBelow := fun _ => [];
  addonEnvDevelopment := false;
  setupRegistry := fun _ => {| extensionsForJs := ["js"] |};
  requireModule := fun _ =>
    inr (VObject {| defName := None; defRoot := None; defModulePrefix := None;
                    defMethods := [] |})
|}.
End LoadExample.


(** The definition supplies no method under the category's method name,
    so that only code of the class itself runs for the category. *)
Definition noHook (a : Addon) (mname : option string) : Prop :=
  match mname with
  | None => True
  | Some m => JsObject.get m (customMethods a) = None
  end.

(** [m] returns [v] from [h] and leaves [o'] as [this.app], the
    instance in a state [sameConfig] with the old one, and [memo] as its
    modules memo. *)
Definition ends {A} (m : M A) (h : Heap) (v : A) (o' : option App)
           (memo : option (JsObject.t (list string))) : Prop :=
  exists a', m h = (inr v, {| self := a'; owner := o' |})
             /\ sameConfig (self h) a'
             /\ includedModulesMemo a' = memo.

(** The application after a [compileAddon] that found the modules [m]. *)
Definition appAfter (app : App) (m : JsObject.t (list string)) : App :=
  match JsObject.keys m with
  | [] => app
  | _ :: _ => setImportWhitelist app (JsObject.assign (importWhitelist app) m)
  end.

(** The styles branch of [treeForAddon] for an instance rooted at [r]. *)
Definition stylesBranchOf (w : World) (a : Addon) (app : App) (r : string) : option tree :=
  if existsSync w (Path.join r "addon/styles")
  then Some (FileMover
               (PreprocessCss (treeGenerator w (Path.join r "addon/styles")) "/" "/"
                              (registry a))
               ("/" ++ appName app ++ ".css") ("/" ++ name a ++ ".css"))
  else None.

(** The script branch of [treeForAddon]: the bundle, concatenated. *)
Definition scriptBranchOf (w : World) (a : Addon) (app : App) (r : string) (t : tree)
           (m : JsObject.t (list string)) : option tree :=
  match JsObject.keys m with
  | [] => None
  | _ :: _ => Some (ConcatFiles (bundleOf w a app r t) ["**/*.js"]
                                ("/" ++ name a ++ ".js") true)
  end.

Module TreeExample.
(** The addon [x] with a [vendor] and a [public] directory, and a
    definition whose [treeForVendor] drops its tree. *)
Definition world : World := {|
  cwd := "/work/app";
  pathExists := fun p =>
    existsb (String.eqb p) ["/lib/x"; "/lib/x/vendor"; "/lib/x/public"; "/lib/x/app";
                            "/work/app/addon"];
  filesBelow := fun _ => [];
  addonEnvDevelopment := false;
  setupRegistry := fun _ => {| extensionsForJs := ["js"] |};
  requireModule := fun _ => inl (TypeError "Cannot find module")
|}.

Definition devWorld : World := {|
  cwd := cwd world;
  pathExists := pathExists world;
  filesBelow := filesBelow world;
  addonEnvDevelopment := true;
  setupRegistry := setupRegistry world;
  requireModule := requireModule world
|}.

Definition dropping : Addon :=
  {| project := Examples.theProject;
     registry := {| extensionsForJs := ["js"] |};
     didRequiredBuildPackages := false;
     treePaths := fixedTreePaths;
     treeForMethods := fixedTreeForMethods;
     name := "x";
     root := Some "/lib/x";
     modulePrefix := None;
     includedModulesMemo := None;
     customMethods := [("treeForVendor", fun _ o => (inr None, o))] |}.
End TreeExample.

(** * Properties *)

(** ** The models of the [path] and string primitives on sample inputs *)

Example path_join_ex : Path.join "/a/b/" "addon" = "/a/b/addon".
Proof. reflexivity. Qed.
Example path_join_ex2 : Path.join "./x/../y" "addon/styles" = "y/addon/styles".
Proof. reflexivity. Qed.
Example path_resolve_ex : Path.resolve "/cwd" "node_modules/foo" "lib/main.js" = "/cwd/node_modules/foo/lib/main.js".
Proof. reflexivity. Qed.
Example path_resolve_ex2 : Path.resolve "/cwd" "/p/foo" "../index.js" = "/p/index.js".
Proof. reflexivity. Qed.
Example path_extname_ex : map Path.extname ["index"; "index.js"; "a.b/c"; ".rc"; "x."; ".."; "a/b.coffee/"; "..."; "a.b.c"]
  = [""; ".js"; ""; ""; "."; ""; ".coffee"; "."; ".c"].
Proof. reflexivity. Qed.
Example path_dirname_ex : map Path.dirname ["/a/b/index.js"; "/index.js"; "index.js"; "a/b/"; "a//b"; ""; "///"; "//b"]
  = ["/a/b"; "/"; "."; "a"; "a/"; "."; "/"; "//"].
Proof. reflexivity. Qed.
Example js_replace_ex : JsString.replace "/r/addon/index.js" "/r/addon" "a$$b" = "a$b/index.js".
Proof. reflexivity. Qed.
Example js_replace_ex2 : JsString.replace "/r/addon/index.js" "/r/addon" "x" = "x/index.js".
Proof. reflexivity. Qed.
Example js_replace_ex3 : JsString.replace "abcabc" "b" "[$&|$`|$'|$1|$]" = "a[b|a|cabc|$1|$]cabc".
Proof. reflexivity. Qed.

(** ** Facts about strings and paths *)
Module StringFacts.
Import JsString.
Local Arguments Ascii.eqb : simpl never.

Lemma append_nil_r : forall s, s ++ "" = s.
Proof. induction s; simpl; congruence. Qed.

Lemma append_assoc : forall a b c, (a ++ b) ++ c = a ++ b ++ c.
Proof. induction a; simpl; intros; congruence. Qed.

Lemma length_append : forall a b, String.length (a ++ b) = String.length a + String.length b.
Proof. induction a; simpl; intros; auto. Qed.

Lemma prefix_append : forall p r, prefix p (p ++ r) = true.
Proof.
  induction p as [|c p IH]; simpl; intros r.
  - destruct r; reflexivity.
  - destruct (ascii_dec c c); [apply IH | contradiction].
Qed.

Lemma substring_all : forall s, substring 0 (String.length s) s = s.
Proof. induction s; simpl; congruence. Qed.

Lemma substring_skip :
  forall p r, substring (String.length p) (String.length r) (p ++ r) = r.
Proof. induction p; simpl; intros r; [apply substring_all | auto]. Qed.

Lemma substring_take :
  forall p r, substring 0 (String.length p) (p ++ r) = p.
Proof.
  induction p as [|c p IH]; simpl; intros r.
  - destruct r; reflexivity.
  - now rewrite IH.
Qed.

Lemma splitAtFirst_prefix :
  forall pat rest, splitAtFirst pat (pat ++ rest) = Some ("", rest).
Proof.
  intros pat rest.
  assert (H : forall s, prefix pat s = true ->
                        splitAtFirst pat s
                        = Some ("", substring (String.length pat)
                                              (String.length s - String.length pat) s)).
  { intros s Hp. destruct s; cbn -[prefix substring String.length];
      rewrite Hp; reflexivity. }
  rewrite H by apply prefix_append.
  rewrite length_append.
  replace (String.length pat + String.length rest - String.length pat)
    with (String.length rest) by lia.
  now rewrite substring_skip.
Qed.

(** Without a dollar sign the replacement text is taken literally. *)
Lemma getSubstitution_plain :
  forall m b a repl, contains "$" repl = false -> getSubstitution m b a repl = repl.
Proof.
  intros m b a. induction repl as [|c r IH]; simpl; intros H; [reflexivity|].
  apply orb_false_iff in H. destruct H as [Hc Hr].
  rewrite Ascii.eqb_sym in Hc. rewrite Hc. now rewrite IH.
Qed.

Lemma replace_prefix :
  forall pat rest repl,
    contains "$" repl = false ->
    replace (pat ++ rest) pat repl = repl ++ rest.
Proof.
  intros pat rest repl H. unfold replace.
  rewrite splitAtFirst_prefix, getSubstitution_plain by exact H. reflexivity.
Qed.

Lemma sliceDropLast_append :
  forall s e, e <> "" -> sliceDropLast (s ++ e) (String.length e) = s.
Proof.
  intros s e He. unfold sliceDropLast.
  destruct e as [|c e]; [contradiction|].
  change (match String.length (String c e) with
          | O => ""
          | S _ => substring 0 (String.length (s ++ String c e) - String.length (String c e))
                             (s ++ String c e)
          end = s). simpl String.length at 1.
  rewrite length_append.
  replace (String.length s + String.length (String c e) - String.length (String c e))
    with (String.length s) by lia.
  apply substring_take.
Qed.

Lemma contains_append :
  forall c a b, contains c (a ++ b) = contains c a || contains c b.
Proof.
  intros c. induction a as [|d a IH]; simpl; intros b; [reflexivity|].
  now rewrite IH, orb_assoc.
Qed.

Lemma splitSlash_nonnil : forall s, splitSlash s <> [].
Proof.
  induction s as [|c s IH]; simpl; [discriminate|].
  destruct (Ascii.eqb c "/"); [discriminate|].
  destruct (splitSlash s); [contradiction | discriminate].
Qed.

Lemma splitSlash_append :
  forall a b, splitSlash (a ++ String "/" b) = (splitSlash a ++ splitSlash b)%list.
Proof.
  induction a as [|c a IH]; simpl; intros b; [reflexivity|].
  destruct (Ascii.eqb c "/").
  - now rewrite IH.
  - rewrite IH. destruct (splitSlash a) eqn:E; [|reflexivity].
    exfalso. now apply (splitSlash_nonnil a).
Qed.

Lemma splitSlash_plain : forall s, contains "/" s = false -> splitSlash s = [s].
Proof.
  induction s as [|c s IH]; simpl; intros H; [reflexivity|].
  apply orb_false_iff in H. destruct H as [Hc Hs].
  rewrite Ascii.eqb_sym in Hc. rewrite Hc, IH by exact Hs. reflexivity.
Qed.
End StringFacts.

Module PathFacts.
Import JsString Path StringFacts.
Local Arguments Ascii.eqb : simpl never.

Lemma segments_append :
  forall a b, segments (a ++ String "/" b) = (segments a ++ segments b)%list.
Proof.
  intros a b. unfold segments. now rewrite splitSlash_append, filter_app.
Qed.

Lemma segments_normal : forall s, normalSegment s = true -> segments s = [s].
Proof.
  intros s H. unfold normalSegment in H.
  repeat (apply andb_true_iff in H; destruct H as [H ?]).
  unfold segments. rewrite splitSlash_plain.
  - simpl. now rewrite H.
  - now apply negb_true_iff.
Qed.

Lemma segments_joinSlash :
  forall segs, forallb normalSegment segs = true -> segments (joinSlash segs) = segs.
Proof.
  induction segs as [|x segs IH]; intros H; [reflexivity|].
  simpl in H. apply andb_true_iff in H. destruct H as [Hx Hs].
  destruct segs as [|y segs].
  - simpl. now apply segments_normal.
  - change (joinSlash (x :: y :: segs)) with (x ++ String "/" (joinSlash (y :: segs))).
    rewrite segments_append, segments_normal, IH by assumption. reflexivity.
Qed.

Lemma normalizeScan_normal :
  forall segs, forallb normalSegment segs = true -> normalizeScan segs = (segs, 0).
Proof.
  induction segs as [|x segs IH]; intros H; [reflexivity|].
  simpl in H. apply andb_true_iff in H. destruct H as [Hx Hs].
  simpl. rewrite IH by assumption.
  unfold normalSegment in Hx.
  repeat (apply andb_true_iff in Hx; destruct Hx as [Hx ?]).
  apply negb_true_iff in H, H0. now rewrite H, H0.
Qed.

Lemma joinSlash_snoc :
  forall segs x, segs <> [] -> joinSlash (segs ++ [x]) = joinSlash segs ++ "/" ++ x.
Proof.
  induction segs as [|y segs IH]; intros x Hne; [contradiction|].
  destruct segs as [|z segs].
  - reflexivity.
  - change (joinSlash ((y :: z :: segs) ++ [x]))
      with (y ++ String "/" (joinSlash ((z :: segs) ++ [x]))).
    rewrite IH by discriminate.
    change (joinSlash (y :: z :: segs)) with (y ++ String "/" (joinSlash (z :: segs))).
    rewrite append_assoc. reflexivity.
Qed.

Lemma forallb_snoc :
  forall (f : string -> bool) l x,
    forallb f l = true -> f x = true -> forallb f (l ++ [x]) = true.
Proof.
  intros f l x Hl Hx. rewrite forallb_app, Hl. simpl. now rewrite Hx.
Qed.

Lemma normalSegment_nonEmpty : forall s, normalSegment s = true -> nonEmpty s = true.
Proof.
  intros s H. unfold normalSegment in H.
  repeat (apply andb_true_iff in H; destruct H as [H ?]). exact H.
Qed.

Lemma normalSegment_noSlash :
  forall s, normalSegment s = true -> startsWithSlash s = false.
Proof.
  intros s H. unfold normalSegment in H.
  repeat (apply andb_true_iff in H; destruct H as [H ?]).
  apply negb_true_iff in H2. destruct s as [|c s]; [reflexivity|].
  simpl in *. apply orb_false_iff in H2. destruct H2 as [Hc _].
  now rewrite Ascii.eqb_sym.
Qed.

(** Resolving a plain file name against a normalised absolute directory
    appends it. *)
Lemma resolve_in_directory :
  forall cwd segs file,
    forallb normalSegment segs = true ->
    normalSegment file = true ->
    resolve cwd ("/" ++ joinSlash segs) file = "/" ++ joinSlash (segs ++ [file]).
Proof.
  intros cwd segs file Hsegs Hfile. unfold resolve. simpl fold_left.
  rewrite (normalSegment_nonEmpty _ Hfile).
  rewrite (normalSegment_noSlash _ Hfile). simpl.
  assert (Hseg : segments (String "/" (joinSlash segs ++ String "/" (file ++ "/")))
                 = (segs ++ [file])%list).
  { change (String "/" (joinSlash segs ++ String "/" (file ++ "/")))
      with ("" ++ String "/" (joinSlash segs ++ String "/" (file ++ "/"))).
    rewrite segments_append, segments_append.
    change (file ++ "/") with (file ++ String "/" "").
    rewrite segments_append, (segments_joinSlash _ Hsegs), (segments_normal _ Hfile).
    reflexivity. }
  rewrite Hseg. unfold normalizeArray.
  rewrite normalizeScan_normal by (now apply forallb_snoc). reflexivity.
Qed.

(** With an absolute working directory [resolve] yields an absolute
    path. *)
Lemma resolve_absolute :
  forall cwd a b,
    startsWithSlash cwd = true -> startsWithSlash (resolve cwd a b) = true.
Proof.
  intros cwd a b Hcwd. unfold resolve. simpl fold_left.
  assert (Hne : nonEmpty cwd = true) by (destruct cwd; [discriminate | reflexivity]).
  destruct (nonEmpty b), (startsWithSlash b), (nonEmpty a), (startsWithSlash a);
    simpl; rewrite ?Hne, ?Hcwd; reflexivity.
Qed.

Lemma fromLastDot_none : forall s, contains "." s = false -> fromLastDot s = None.
Proof.
  induction s as [|c s IH]; simpl; intros H; [reflexivity|].
  apply orb_false_iff in H. destruct H as [Hc Hs].
  rewrite IH by exact Hs. rewrite Ascii.eqb_sym in Hc. now rewrite Hc.
Qed.

Lemma plainName_normal : forall s, plainName s = true -> normalSegment s = true.
Proof.
  intros s H. unfold plainName in H.
  repeat (apply andb_true_iff in H; destruct H as [H ?]).
  unfold normalSegment. rewrite H, H1. simpl.
  apply negb_true_iff in H0.
  destruct (String.eqb_spec s "."); [subst; discriminate|].
  destruct (String.eqb_spec s ".."); [subst; discriminate | reflexivity].
Qed.

(** A plain name has no extension. *)
Lemma extname_plain : forall s, plainName s = true -> extname s = "".
Proof.
  intros s H. unfold extname, basename.
  rewrite (segments_normal _ (plainName_normal _ H)). simpl.
  unfold plainName in H.
  repeat (apply andb_true_iff in H; destruct H as [H ?]).
  apply negb_true_iff in H0.
  destruct s as [|c s]; [reflexivity|].
  simpl in H0. apply orb_false_iff in H0. destruct H0 as [_ Hs].
  destruct (String c s =? ".."); [reflexivity|].
  now rewrite fromLastDot_none.
Qed.

Lemma normalSegment_with_suffix :
  forall s, plainName s = true -> normalSegment (s ++ ".js") = true.
Proof.
  intros s H. unfold plainName in H.
  repeat (apply andb_true_iff in H; destruct H as [H ?]).
  apply negb_true_iff in H0, H1.
  unfold normalSegment. rewrite contains_append, H1.
  destruct s as [|c s]; [discriminate|].
  simpl in H0. apply orb_false_iff in H0. destruct H0 as [Hc Hs].
  rewrite Ascii.eqb_sym in Hc.
  assert (Hne1 : (String c s ++ ".js" =? ".") = false).
  { apply String.eqb_neq. intros E. injection E as -> _. discriminate. }
  assert (Hne2 : (String c s ++ ".js" =? "..") = false).
  { apply String.eqb_neq. intros E. injection E as -> _. discriminate. }
  rewrite Hne1, Hne2. reflexivity.
Qed.
End PathFacts.

(** ** Facts about objects: [set] and [assign] *)
Module JsObjectFacts.
Import JsObject.

Section Facts.
Variable V : Type.
Implicit Types (o t s : JsObject.t V) (k : string) (v : V).

Lemma get_in_keys : forall o k v, get k o = Some v -> In k (keys o).
Proof.
  induction o as [|[k' v'] o IH]; simpl; intros k v H; [discriminate|].
  destruct (String.eqb_spec k k'); [left; congruence | right; eauto].
Qed.

Lemma in_keys_get : forall o k, In k (keys o) -> exists v, get k o = Some v.
Proof.
  induction o as [|[k' v'] o IH]; simpl; intros k H; [contradiction|].
  destruct (String.eqb_spec k k'); [eauto|].
  destruct H as [H|H]; [congruence | auto].
Qed.

Lemma has_true_iff : forall o k, has k o = true <-> In k (keys o).
Proof.
  intros o k. unfold has. split.
  - destruct (get k o) eqn:E; [eauto using get_in_keys | discriminate].
  - intros H. destruct (in_keys_get _ _ H) as (v & ->). reflexivity.
Qed.

(** *** Replacing or appending *)

Lemma get_replaceOrAppend_same : forall o k v, get k (replaceOrAppend k v o) = Some v.
Proof.
  induction o as [|[k' v'] o IH]; simpl; intros k v.
  - now rewrite String.eqb_refl.
  - destruct (String.eqb_spec k k') as [->|Hne]; simpl.
    + now rewrite String.eqb_refl.
    + destruct (String.eqb_spec k k'); [contradiction | apply IH].
Qed.

Lemma get_replaceOrAppend_other :
  forall o k k' v, k' <> k -> get k' (replaceOrAppend k v o) = get k' o.
Proof.
  induction o as [|[k0 v0] o IH]; simpl; intros k k' v Hne.
  - destruct (String.eqb_spec k' k); [contradiction | reflexivity].
  - destruct (String.eqb_spec k k0) as [->|Hk]; simpl.
    + destruct (String.eqb_spec k' k0); [contradiction | reflexivity].
    + destruct (String.eqb_spec k' k0); [reflexivity | now apply IH].
Qed.

Lemma keys_replaceOrAppend :
  forall o k v,
    keys (replaceOrAppend k v o) = if has k o then keys o else (keys o ++ [k])%list.
Proof.
  unfold has.
  induction o as [|[k' v'] o IH]; simpl; intros k v; [reflexivity|].
  destruct (String.eqb_spec k k') as [->|Hne]; simpl; [reflexivity|].
  unfold keys in *. rewrite IH. destruct (get k o); reflexivity.
Qed.

Lemma replaceOrAppend_values :
  forall d o k,
    (forall k' v', In (k', v') o -> v' = d) ->
    forall k' v', In (k', v') (replaceOrAppend k d o) -> v' = d.
Proof.
  intros d. induction o as [|[k0 v0] o IH]; simpl; intros k Hall k' v' Hin.
  - destruct Hin as [H|[]]. congruence.
  - destruct (k =? k0)%string; simpl in Hin.
    + destruct Hin as [H|H]; [congruence | eauto].
    + destruct Hin as [H|H]; [eauto | eapply IH; eauto].
Qed.

Lemma replaceOrAppend_same_value :
  forall o k v, get k o = Some v -> replaceOrAppend k v o = o.
Proof.
  induction o as [|[k' v'] o IH]; simpl; intros k v H; [discriminate|].
  destruct (String.eqb_spec k k') as [->|Hne].
  - now injection H as ->.
  - now rewrite IH.
Qed.

(** *** Inserting an array index *)

Lemma get_insertIndex_same :
  forall n o k v, get k o = None -> get k (insertIndex n k v o) = Some v.
Proof.
  intros n. induction o as [|[k' v'] o IH]; simpl; intros k v H.
  - now rewrite String.eqb_refl.
  - destruct (String.eqb_spec k k') as [->|Hne]; [discriminate|].
    destruct (arrayIndex k') as [n'|]; [destruct (n' <? n)%N|]; simpl;
      rewrite ?String.eqb_refl; try reflexivity.
    destruct (String.eqb_spec k k'); [contradiction | now apply IH].
Qed.

Lemma get_insertIndex_other :
  forall n o k k' v, k' <> k -> get k' (insertIndex n k v o) = get k' o.
Proof.
  intros n. induction o as [|[k0 v0] o IH]; simpl; intros k k' v Hne.
  - destruct (String.eqb_spec k' k); [contradiction | reflexivity].
  - destruct (arrayIndex k0) as [n'|]; [destruct (n' <? n)%N|]; simpl;
      try (destruct (String.eqb_spec k' k); [contradiction | reflexivity]).
    destruct (String.eqb_spec k' k0); [reflexivity | now apply IH].
Qed.

Lemma in_keys_insertIndex :
  forall n o k v k', In k' (keys (insertIndex n k v o)) <-> In k' (keys o) \/ k' = k.
Proof.
  intros n. induction o as [|[k0 v0] o IH]; simpl; intros k v k'.
  - intuition.
  - destruct (arrayIndex k0) as [n'|]; [destruct (n' <? n)%N|]; simpl.
    + rewrite IH. intuition.
    + intuition.
    + intuition.
Qed.

Lemma insertIndex_values :
  forall n d o k,
    (forall k' v', In (k', v') o -> v' = d) ->
    forall k' v', In (k', v') (insertIndex n k d o) -> v' = d.
Proof.
  intros n d. induction o as [|[k0 v0] o IH]; simpl; intros k Hall k' v' Hin.
  - destruct Hin as [H|[]]. congruence.
  - destruct (arrayIndex k0) as [n'|]; [destruct (n' <? n)%N|]; simpl in Hin.
    + destruct Hin as [H|H]; [eauto | eapply IH; eauto].
    + destruct Hin as [H|H]; [congruence | eauto].
    + destruct Hin as [H|H]; [congruence | eauto].
Qed.

(** *** Writing a key *)

Lemma set_proto : forall o v, set "__proto__" v o = o.
Proof. reflexivity. Qed.

Lemma get_set_same :
  forall o k v, k <> "__proto__" -> get k (set k v o) = Some v.
Proof.
  intros o k v Hk. unfold set.
  destruct (String.eqb_spec k "__proto__") as [Heq|_]; [contradiction|].
  destruct (arrayIndex k) as [n|]; [|apply get_replaceOrAppend_same].
  unfold has. destruct (get k o) eqn:E.
  - apply get_replaceOrAppend_same.
  - now apply get_insertIndex_same.
Qed.

Lemma get_set_other : forall o k k' v, k' <> k -> get k' (set k v o) = get k' o.
Proof.
  intros o k k' v Hne. unfold set.
  destruct (k =? "__proto__"); [reflexivity|].
  destruct (arrayIndex k) as [n|]; [|now apply get_replaceOrAppend_other].
  destruct (has k o); [now apply get_replaceOrAppend_other|].
  now apply get_insertIndex_other.
Qed.

Lemma in_keys_replaceOrAppend :
  forall o k v k', In k' (keys (replaceOrAppend k v o)) <-> In k' (keys o) \/ k' = k.
Proof.
  intros o k v k'. rewrite keys_replaceOrAppend. destruct (has k o) eqn:E.
  - apply has_true_iff in E. split; [auto | intros [H | ->]; auto].
  - rewrite in_app_iff. simpl. intuition.
Qed.

(** Writing a key never drops a key. *)
Lemma in_keys_set_old :
  forall o k v k', In k' (keys o) -> In k' (keys (set k v o)).
Proof.
  intros o k v k' H. unfold set.
  destruct (k =? "__proto__"); [exact H|].
  destruct (arrayIndex k) as [n|];
    [destruct (has k o)|];
    try (apply in_keys_replaceOrAppend; now left).
  apply in_keys_insertIndex. now left.
Qed.

(** The keys after a write are the old ones and the written one, unless
    that is [__proto__]. *)
Lemma in_keys_set_inv :
  forall o k v k', In k' (keys (set k v o)) -> In k' (keys o) \/ (k' = k /\ k <> "__proto__").
Proof.
  intros o k v k' H. unfold set in H.
  destruct (String.eqb_spec k "__proto__") as [->|Hk]; [now left|].
  assert (In k' (keys o) \/ k' = k) as [?|?]; [|tauto|tauto].
  destruct (arrayIndex k) as [n|];
    [destruct (has k o)|];
    try (now apply in_keys_replaceOrAppend in H).
  now apply in_keys_insertIndex in H.
Qed.

Lemma in_keys_set :
  forall o k v k',
    k <> "__proto__" ->
    In k' (keys (set k v o)) <-> In k' (keys o) \/ k' = k.
Proof.
  intros o k v k' Hk. split.
  - intros H. apply in_keys_set_inv in H. tauto.
  - intros [H | ->]; [now apply in_keys_set_old|].
    apply has_true_iff. unfold has. now rewrite get_set_same.
Qed.

Lemma set_values :
  forall d o k,
    (forall k' v', In (k', v') o -> v' = d) ->
    forall k' v', In (k', v') (set k d o) -> v' = d.
Proof.
  intros d o k Hall k' v'. unfold set.
  destruct (k =? "__proto__"); [apply Hall|].
  destruct (arrayIndex k) as [n|];
    [destruct (has k o)|];
    try (now apply replaceOrAppend_values).
  now apply insertIndex_values.
Qed.

(** Writing the value a key already has changes nothing. *)
Lemma set_same_value :
  forall o k v, get k o = Some v -> set k v o = o.
Proof.
  intros o k v H. unfold set.
  destruct (k =? "__proto__"); [reflexivity|].
  destruct (arrayIndex k) as [n|]; [|now apply replaceOrAppend_same_value].
  unfold has. rewrite H. now apply replaceOrAppend_same_value.
Qed.

(** No write creates an own property [__proto__]. *)
Lemma set_no_proto :
  forall o k v, ~ In "__proto__" (keys o) -> ~ In "__proto__" (keys (set k v o)).
Proof.
  intros o k v H Hin. apply in_keys_set_inv in Hin.
  destruct Hin as [Hin | (<- & Hk)]; [now apply H | now apply Hk].
Qed.

(** *** [assign] *)

Lemma in_keys_assign_old :
  forall s t k, In k (keys t) -> In k (keys (assign t s)).
Proof.
  unfold assign. induction s as [|[k0 v0] s IH]; simpl; intros t k H; [exact H|].
  apply IH. now apply in_keys_set_old.
Qed.

Lemma in_keys_assign_inv :
  forall s t k, In k (keys (assign t s)) -> In k (keys t) \/ In k (keys s).
Proof.
  unfold assign. induction s as [|[k0 v0] s IH]; simpl; intros t k H; [now left|].
  apply IH in H. destruct H as [H|H]; [|tauto].
  apply in_keys_set_inv in H. destruct H as [H | (-> & _)]; auto.
Qed.

Lemma in_keys_assign :
  forall s t k,
    ~ In "__proto__" (keys s) ->
    In k (keys (assign t s)) <-> In k (keys t) \/ In k (keys s).
Proof.
  unfold assign. induction s as [|[k0 v0] s IH]; simpl; intros t k Hs.
  - intuition.
  - rewrite IH by tauto. rewrite in_keys_set by (intros ->; tauto).
    split; [intros [[H | ->] | H] | intros [H | [<- | H]]]; auto.
Qed.

Lemma get_assign_other :
  forall s t k, ~ In k (keys s) -> get k (assign t s) = get k t.
Proof.
  unfold assign. induction s as [|[k0 v0] s IH]; simpl; intros t k Hn; [reflexivity|].
  rewrite IH by tauto. apply get_set_other. intros ->. tauto.
Qed.

(** A source whose values are all [d] leaves [d] under each of its
    keys, whatever the target held there. *)
Lemma get_assign_const :
  forall d s t k,
    (forall k' v', In (k', v') s -> v' = d) ->
    k <> "__proto__" ->
    In k (keys s) -> get k (assign t s) = Some d.
Proof.
  unfold assign. intros d. induction s as [|[k0 v0] s IH]; simpl; intros t k Hall Hk Hin.
  - contradiction.
  - destruct (in_dec string_dec k (keys s)) as [Hs|Hs].
    + apply IH; eauto.
    + fold (assign (set k0 v0 t) s). rewrite get_assign_other by exact Hs.
      destruct Hin as [<-|Hin]; [|contradiction].
      rewrite get_set_same by exact Hk. f_equal. eauto.
Qed.

Lemma assign_no_proto :
  forall s t, ~ In "__proto__" (keys t) -> ~ In "__proto__" (keys (assign t s)).
Proof.
  unfold assign. induction s as [|[k0 v0] s IH]; simpl; intros t H; [exact H|].
  apply IH. now apply set_no_proto.
Qed.
End Facts.
End JsObjectFacts.

(** ** The constructor *)

Ltac run_method :=
  cbv beta delta [bind ret throw getSelf putSelf getApp putApp
                  _requireBuildPackages] iota; simpl.

(** C6: construction fails with the configuration error
    [SilentError "An addon must define a `name` property."] when the
    definition has no [name] or an empty one, whatever the project; with a
    non-empty name it yields an instance carrying that name. *)
Theorem construct_name_required :
  forall (w : World) (p : Project) (r mp : option string)
         (ms : list (string * Hook)),
    construct w {| defName := None; defRoot := r; defModulePrefix := mp;
                   defMethods := ms |} p
      = inl (SilentError "An addon must define a `name` property.")
    /\ construct w {| defName := Some ""; defRoot := r; defModulePrefix := mp;
                      defMethods := ms |} p
      = inl (SilentError "An addon must define a `name` property.")
    /\ forall c n,
        exists a,
          construct w {| defName := Some (String c n); defRoot := r;
                         defModulePrefix := mp; defMethods := ms |} p
          = inr a
          /\ name a = String c n.
Proof.
  intros w p r mp ms. repeat split.
  intros c n. eexists. split; reflexivity.
Qed.

Lemma construct_inversion :
  forall w d p a,
    construct w d p = inr a ->
    exists c n, defName d = Some (String c n) /\ name a = String c n
                /\ treePaths a = fixedTreePaths
                /\ treeForMethods a = fixedTreeForMethods
                /\ root a = defRoot d
                /\ modulePrefix a = defModulePrefix d
                /\ includedModulesMemo a = None.
Proof.
  intros w d p a H. unfold construct in H.
  destruct (defName d) as [[|c n]|]; try discriminate.
  injection H as <-. exists c, n. simpl. repeat split.
Qed.

(** C8 (as the code has it): right after construction [treePaths] is one
    fixed mapping, the same for every instance and every project, of
    exactly nine category names to the nine relative paths. *)
Theorem treePaths_fixed :
  forall (w : World) (d : Definition_) (p : Project) (a : Addon),
    construct w d p = inr a ->
    treePaths a =
      [ ("app", "app"); ("styles", "app/styles"); ("templates", "app/templates");
        ("addon", "addon"); ("addon-styles", "addon/styles");
        ("addon-templates", "addon/templates"); ("vendor", "vendor");
        ("test-support", "test-support"); ("public", "public") ]
    /\ List.length (JsObject.keys (treePaths a)) = 9.
Proof.
  intros w d p a H.
  destruct (construct_inversion _ _ _ H) as (c & n & _ & _ & Htp & _).
  rewrite Htp. split; reflexivity.
Qed.

Lemma treePaths_fixed_witness :
  treePaths Examples.addonX = fixedTreePaths
  /\ List.length (JsObject.keys (treePaths Examples.addonX)) = 9.
Proof.
  apply (@treePaths_fixed Examples.world Examples.definitionX Examples.theProject
                          Examples.addonX).
  reflexivity.
Defined.

(** C8 as stated fails: the instance built for [x] has nine category
    names in [treePaths], not seven. *)
Lemma treePaths_not_seven :
  construct Examples.world Examples.definitionX Examples.theProject = inr Examples.addonX
  /\ List.length (JsObject.keys (treePaths Examples.addonX)) <> 7.
Proof.
  split; [reflexivity | vm_compute; discriminate].
Qed.

(** ** [moduleName] *)

Lemma slugChar_spec :
  forall c,
    (if JsString.isWhitespace (JsString.lowerChar c) then "-"%char
     else JsString.lowerChar c) = slugChar c.
Proof.
  intros c. destruct c as [[] [] [] [] [] [] [] []]; reflexivity.
Qed.

Lemma slug_charwise : forall n, slug n = mapChars slugChar n.
Proof.
  unfold slug. induction n as [|c n IH]; simpl; [reflexivity|].
  now rewrite IH, slugChar_spec.
Qed.

Lemma slug_nonempty :
  forall c n, exists c' n', slug (String c n) = String c' n'.
Proof. intros c n. unfold slug. simpl. eauto. Qed.

Lemma moduleName_memo_hit :
  forall h c n,
    modulePrefix (self h) = Some (String c n) ->
    moduleName h = (inr (String c n), h).
Proof.
  intros [a o] c n H. simpl in H. unfold moduleName. run_method.
  rewrite H. reflexivity.
Qed.

Lemma moduleName_memo_miss :
  forall h,
    truthy (modulePrefix (self h)) = false ->
    moduleName h =
      (inr (slug (name (self h))),
       {| self := withModulePrefix (self h) (slug (name (self h))); owner := owner h |}).
Proof.
  intros [a o] H. simpl in H. unfold moduleName. run_method.
  rewrite H. reflexivity.
Qed.

(** [moduleName] always returns, and records a truthy result. *)
Lemma moduleName_total :
  forall h, exists v, fst (moduleName h) = inr v
                      /\ modulePrefix (self (snd (moduleName h))) = Some v
                      /\ owner (snd (moduleName h)) = owner h.
Proof.
  intros h. destruct (truthy (modulePrefix (self h))) eqn:E.
  - destruct (modulePrefix (self h)) as [[|c n]|] eqn:Hmp; try discriminate.
    rewrite (moduleName_memo_hit h Hmp). simpl. eauto.
  - rewrite (moduleName_memo_miss h E). simpl. eauto.
Qed.

(** C7 (as the code has it): on an instance with a non-empty name and
    no module prefix of its own (none supplied by its definition, none
    memoised yet), the first [moduleName()] returns the name lowercased
    with every whitespace character turned into a hyphen; on an instance
    that has a non-empty module prefix, it returns that prefix as it is.
    In both cases a later call returns the same value as the first, also
    after [name] has been assigned a new value (and whatever [this.app]
    then is); and ["My Addon"] gives ["my-addon"]. *)
Theorem moduleName_slug_and_idempotent :
  forall (h : Heap) (c : ascii) (n : string),
    name (self h) = String c n ->
    (truthy (modulePrefix (self h)) = false ->
     fst (moduleName h) = inr (slug (String c n)))
    /\ (forall c' p', modulePrefix (self h) = Some (String c' p') ->
                      fst (moduleName h) = inr (String c' p'))
    /\ fst (moduleName (snd (moduleName h))) = fst (moduleName h)
    /\ (forall (n' : string) (o' : option App),
          fst (moduleName {| self := withName (self (snd (moduleName h))) n';
                             owner := o' |})
          = fst (moduleName h))
    /\ slug (String c n) = mapChars slugChar (String c n)
    /\ slug "My Addon" = "my-addon".
Proof.
  intros h c n Hn.
  assert (Hmemo : exists c' n', fst (moduleName h) = inr (String c' n')
            /\ modulePrefix (self (snd (moduleName h))) = Some (String c' n')).
  { destruct (truthy (modulePrefix (self h))) eqn:E.
    - destruct (modulePrefix (self h)) as [[|c' n']|] eqn:Hmp; try discriminate.
      rewrite (moduleName_memo_hit h Hmp). simpl. eauto.
    - rewrite (moduleName_memo_miss h E). simpl. rewrite Hn.
      destruct (slug_nonempty c n) as (c' & n' & ->). eauto. }
  destruct Hmemo as (c' & n' & Hv & Hm).
  split; [|split; [|split; [|split; [|split]]]].
  - intros E. rewrite (moduleName_memo_miss h E). simpl. now rewrite Hn.
  - intros c0 p0 Hmp. now rewrite (moduleName_memo_hit h Hmp).
  - rewrite (moduleName_memo_hit _ Hm). simpl. now rewrite Hv.
  - intros n0 o'.
    rewrite (@moduleName_memo_hit
               {| self := withName (self (snd (moduleName h))) n0; owner := o' |} c' n').
    + simpl. now rewrite Hv.
    + simpl. exact Hm.
  - apply slug_charwise.
  - reflexivity.
Qed.

Lemma moduleName_slug_and_idempotent_witness :
  fst (moduleName LintExample.heap) = inr "my-addon"
  /\ fst (moduleName {| self := withName (self (snd (moduleName LintExample.heap))) "Renamed";
                        owner := None |}) = inr "my-addon".
Proof.
  pose proof (@moduleName_slug_and_idempotent LintExample.heap "M"%char "y Addon" eq_refl)
    as (H1 & _ & _ & H3 & _ & _).
  split.
  - exact (H1 eq_refl).
  - rewrite (H3 "Renamed" None). exact (H1 eq_refl).
Defined.

(** C7 as stated fails: the constructor does not touch [modulePrefix],
    so an instance of a definition that brings the module prefix
    ["Custom Prefix"] answers its first [moduleName()] with that prefix,
    capitals and space included, not with the normalised name. *)
Lemma moduleName_definition_prefix_verbatim :
  construct LintExample.world PrefixExample.prefixed Examples.theProject
  = inr PrefixExample.prefixedAddon
  /\ name PrefixExample.prefixedAddon = "My Addon"
  /\ fst (moduleName {| self := PrefixExample.prefixedAddon; owner := None |})
     = inr "Custom Prefix"
  /\ fst (moduleName {| self := PrefixExample.prefixedAddon; owner := None |})
     <> inr "my-addon".
Proof.
  repeat split. discriminate.
Qed.

(** ** [compileStyles] *)

(** C10: for a styles tree that is present, [compileStyles] returns the
    CSS-preprocessed tree (rooted at [/]) with the file
    [/<owning app's name>.css] moved to [/<addon's name>.css]; for an
    absent tree it returns nothing. *)
Theorem compileStyles_renames_app_css :
  forall (a : Addon) (app : App) (t : tree),
    fst (compileStyles (Some t) {| self := a; owner := Some app |})
    = inr (Some (FileMover (PreprocessCss t "/" "/" (registry a))
                           ("/" ++ appName app ++ ".css")
                           ("/" ++ name a ++ ".css")))
    /\ forall o, fst (compileStyles None {| self := a; owner := o |}) = inr None.
Proof.
  intros a app t. split.
  - unfold compileStyles. run_method.
    destruct (didRequiredBuildPackages a); reflexivity.
  - intros o. unfold compileStyles. run_method.
    destruct (didRequiredBuildPackages a); reflexivity.
Qed.

(** ** [treeFor] *)

Lemma requireBuildPackages_run :
  forall h, exists a',
    _requireBuildPackages h = (inr tt, {| self := a'; owner := owner h |})
    /\ treePaths a' = treePaths (self h)
    /\ treeForMethods a' = treeForMethods (self h)
    /\ root a' = root (self h)
    /\ name a' = name (self h)
    /\ registry a' = registry (self h)
    /\ modulePrefix a' = modulePrefix (self h)
    /\ includedModulesMemo a' = includedModulesMemo (self h)
    /\ customMethods a' = customMethods (self h).
Proof.
  intros [a o]. unfold _requireBuildPackages. run_method.
  destruct (didRequiredBuildPackages a).
  - exists a. repeat split.
  - exists (withDidRequired a). repeat split.
Qed.

(** C3 (as the code has it): for a category name that is not a key of
    [treePaths], [treeFor] raises the [TypeError] of [path.join] and
    returns no tree, whatever the file system holds. *)
Theorem treeFor_unknown_category_raises :
  forall (w : World) (d : nat) (nm : string) (h : Heap),
    JsObject.get nm (treePaths (self h)) = None ->
    fst (treeFor w (S d) nm h)
    = inl (TypeError "Arguments to path.join must be strings").
Proof.
  intros w d nm h Hnone.
  destruct (requireBuildPackages_run h) as (a' & Hrun & Htp & _).
  unfold treeFor, bind at 1. rewrite Hrun.
  unfold bind at 1. simpl (_treeFor w (S d) nm).
  unfold _treeForWith, bind at 1. unfold getSelf at 1. cbn [self].
  unfold bind at 1. rewrite Htp, Hnone.
  unfold pathJoin. destruct (root a'); reflexivity.
Qed.

Lemma treeFor_unknown_category_raises_witness :
  fst (treeFor Examples.world 3 "bogus" Examples.heapX)
  = inl (TypeError "Arguments to path.join must be strings").
Proof.
  apply (@treeFor_unknown_category_raises Examples.world 2 "bogus" Examples.heapX).
  reflexivity.
Defined.

(** C3 as stated fails: ["bogus"] is none of the fixed category names,
    yet [treeFor("bogus")] raises instead of returning the empty merge. *)
Lemma treeFor_unknown_category_not_empty :
  JsObject.get "bogus" fixedTreePaths = None
  /\ JsObject.get "bogus" fixedTreeForMethods = None
  /\ (exists e, fst (treeFor Examples.world 3 "bogus" Examples.heapX) = inl e)
  /\ fst (treeFor Examples.world 3 "bogus" Examples.heapX) <> inr (MergeTrees []).
Proof.
  repeat split.
  - eexists. vm_compute. reflexivity.
  - vm_compute. discriminate.
Qed.

(** ** [Addon.lookup] *)

(** C5: when the resolved entry file does not exist, [lookup] returns a
    constructor built by [extend] whose [name] is
    ["(generated <package name> addon)"] and whose [root] is the directory
    of the resolved path; and whenever [lookup] returns, what it returns is
    a function: it does return one when the file is missing or the module
    loads. *)
Theorem lookup_yields_constructor :
  forall (w : World) (addon : AddonRef) (p : string),
    snd (resolvePath w addon) = inr p ->
    (existsSync w p = false ->
     snd (lookup w addon)
     = inr (VFunction {| defName := Some ("(generated " ++ pkgName (pkg addon) ++ " addon)");
                         defRoot := Some (Path.dirname p);
                         defModulePrefix := None;
                         defMethods := [] |}
                      true))
    /\ (forall v, snd (lookup w addon) = inr v -> typeOf v = "function")
    /\ (existsSync w p = false \/ (exists v, requireModule w p = inr v) ->
        exists d derived, snd (lookup w addon) = inr (VFunction d derived)).
Proof.
  intros w addon p Hres. unfold lookup.
  destruct (resolvePath w addon) as [notices [e|p']]; simpl in Hres; try discriminate.
  injection Hres as ->.
  repeat split.
  - intros ->. reflexivity.
  - intros v. destruct (existsSync w p).
    + destruct (requireModule w p) as [e|[proto derived|props]]; simpl; intros H;
        try discriminate; injection H as <-; reflexivity.
    + simpl. intros H. injection H as <-. reflexivity.
  - intros [Hmiss | (v & Hv)].
    + rewrite Hmiss. simpl. do 2 eexists. reflexivity.
    + destruct (existsSync w p).
      * rewrite Hv. destruct v; simpl; do 2 eexists; reflexivity.
      * simpl. do 2 eexists. reflexivity.
Qed.

Lemma lookup_yields_constructor_witness :
  snd (lookup Examples.world LookupExample.manifestOnly)
  = inr (VFunction {| defName := Some "(generated ember-foo addon)";
                      defRoot := Some "/work/app/node_modules/ember-foo";
                      defModulePrefix := None;
                      defMethods := [] |}
                   true).
Proof.
  pose proof (@lookup_yields_constructor Examples.world LookupExample.manifestOnly
                "/work/app/node_modules/ember-foo/index.js" eq_refl) as (H & _).
  exact (H eq_refl).
Defined.

(** ** Running the methods: what each returns and what it leaves *)

Lemma sameConfig_refl : forall a, sameConfig a a.
Proof. intros a. repeat split. Qed.

Lemma sameConfig_trans :
  forall a b c, sameConfig a b -> sameConfig b c -> sameConfig a c.
Proof.
  unfold sameConfig. intros a b c (H1 & H2 & H3 & H4 & H5 & H6 & H7)
                            (G1 & G2 & G3 & G4 & G5 & G6 & G7).
  repeat split; congruence.
Qed.

Lemma runs_bind :
  forall A B (m : M A) (k : A -> M B) h v u memo memo',
    runs m h v memo ->
    (forall a', sameConfig (self h) a' ->
                includedModulesMemo a' = memo ->
                runs (k v) {| self := a'; owner := owner h |} u memo') ->
    runs (bind m k) h u memo'.
Proof.
  intros A B m k h v u memo memo' (a' & Hm & Hs & Hi) Hk.
  destruct (Hk a' Hs Hi) as (a'' & Hk' & Hs' & Hi'). simpl in *.
  exists a''. unfold bind. rewrite Hm, Hk'.
  repeat split; try (eapply sameConfig_trans; eauto). exact Hi'.
Qed.

Lemma returns_bind :
  forall A B (m : M A) (k : A -> M B) h v u,
    returns m h v ->
    (forall a', sameConfig (self h) a' ->
                includedModulesMemo a' = includedModulesMemo (self h) ->
                returns (k v) {| self := a'; owner := owner h |} u) ->
    returns (bind m k) h u.
Proof.
  intros A B m k h v u Hm Hk. unfold returns in *.
  eapply runs_bind; [exact Hm|]. intros a' Hs Hi.
  specialize (Hk a' Hs Hi). simpl in Hk. rewrite Hi in Hk. exact Hk.
Qed.

Lemma bind_returns :
  forall A B (m : M A) (k : A -> M B) h v,
    returns m h v ->
    exists a', bind m k h = k v {| self := a'; owner := owner h |}
               /\ sameConfig (self h) a'
               /\ includedModulesMemo a' = includedModulesMemo (self h).
Proof.
  intros A B m k h v (a' & Hm & Hs & Hi). exists a'. unfold bind. rewrite Hm. auto.
Qed.

Lemma returns_ret : forall A (v : A) h, returns (ret v) h v.
Proof.
  intros A v [a o]. exists a. repeat split.
Qed.

Lemma returns_getSelf : forall h, returns getSelf h (self h).
Proof. intros [a o]. exists a. repeat split. Qed.

Lemma returns_requireBuildPackages : forall h, returns _requireBuildPackages h tt.
Proof.
  intros [a o]. unfold returns, runs, _requireBuildPackages. run_method.
  destruct (didRequiredBuildPackages a).
  - exists a. repeat split.
  - exists (withDidRequired a). repeat split.
Qed.

Lemma returns_moduleName : forall h, returns moduleName h (moduleNameOf (self h)).
Proof.
  intros [a o]. unfold returns, runs. simpl.
  destruct (truthy (modulePrefix a)) eqn:E.
  - destruct (modulePrefix a) as [[|c n]|] eqn:Hmp; try discriminate.
    exists a. rewrite (@moduleName_memo_hit {| self := a; owner := o |} c n Hmp).
    unfold moduleNameOf. rewrite Hmp. repeat split.
  - exists (withModulePrefix a (slug (name a))).
    rewrite (@moduleName_memo_miss {| self := a; owner := o |} E). simpl.
    assert (Hv : moduleNameOf a = slug (name a)).
    { unfold moduleNameOf. destruct (modulePrefix a) as [[|c n]|]; try reflexivity.
      discriminate. }
    rewrite Hv. repeat split.
    simpl. rewrite Hv. unfold moduleNameOf. simpl.
    destruct (slug (name a)); reflexivity.
Qed.

Lemma returns_getApp :
  forall h app, owner h = Some app -> returns getApp h app.
Proof.
  intros [a o] app H. simpl in H. subst o. exists a. repeat split.
Qed.

Lemma returns_jsFileGlob :
  forall h, returns _jsFileGlob h (jsFileGlobOf (registry (self h))).
Proof. intros [a o]. exists a. repeat split. Qed.

Ltac config H :=
  let Hreg := fresh "Hreg" in
  let Htp := fresh "Htp" in
  let Htm := fresh "Htm" in
  let Hname := fresh "Hname" in
  let Hroot := fresh "Hroot" in
  let Hcm := fresh "Hcm" in
  let Hmn := fresh "Hmn" in
  destruct H as (Hreg & Htp & Htm & Hname & Hroot & Hcm & Hmn); cbn [self owner] in *.

(** Rewrites every field read of a later state into the read of the
    state it is known to agree with. *)
Ltac to_self :=
  repeat match goal with
         | H : ?f ?a = ?f ?b |- _ => rewrite H
         end.

Lemma returns_addonJsFiles :
  forall t h, returns (addonJsFiles t) h (addonJsFilesOf (self h) t).
Proof.
  intros t h. unfold addonJsFiles.
  eapply returns_bind; [apply returns_requireBuildPackages|]. intros a1 S1 _.
  eapply returns_bind; [apply returns_jsFileGlob|]. intros a2 S2 _.
  eapply returns_bind; [apply returns_moduleName|]. intros a3 S3 _.
  eapply returns_bind; [apply returns_getSelf|]. intros a4 S4 _.
  config S1. config S2. config S3. config S4.
  unfold addonJsFilesOf. to_self. apply returns_ret.
Qed.

Lemma returns_compileTemplates :
  forall t h, returns (compileTemplates t) h (compileTemplatesOf (self h) t).
Proof.
  intros t h. unfold compileTemplates.
  eapply returns_bind; [apply returns_requireBuildPackages|]. intros a1 S1 _.
  destruct t as [t'|]; [|apply returns_ret].
  eapply returns_bind; [apply returns_getSelf|]. intros a2 S2 _.
  config S1. config S2. unfold compileTemplatesOf. to_self. apply returns_ret.
Qed.

(** ** [jshintAddonTree] *)

Lemma returns_jshintAddonTree :
  forall w h app addonPath,
    owner h = Some app ->
    JsObject.get "addon" (treePaths (self h)) = Some addonPath ->
    returns (jshintAddonTree w) h
            (if existsSync w addonPath then Some (lintTreeOf (self h) app addonPath)
             else None).
Proof.
  intros w h app addonPath Happ Hpath. unfold jshintAddonTree.
  eapply returns_bind; [apply returns_requireBuildPackages|]. intros a1 S1 _.
  eapply returns_bind; [apply returns_getSelf|]. intros a2 S2 _.
  config S1. config S2. to_self.
  rewrite Hpath. destruct (existsSync w addonPath); simpl; [|apply returns_ret].
  eapply returns_bind; [apply returns_addonJsFiles|]. intros a3 S3 _.
  eapply returns_bind; [apply returns_getApp; exact Happ|]. intros a4 S4 _.
  eapply returns_bind; [apply returns_getSelf|]. intros a5 S5 _.
  config S3. config S4. config S5.
  unfold lintTreeOf, addonJsFilesOf. to_self. apply returns_ret.
Qed.

(** C9 (as the code has it): [jshintAddonTree()] returns either nothing
    or the lint results, under the owning application's [jshintrc], of the
    files of the tree [addon] that match the JS glob (picked under the
    module name and preprocessed), moved below [<name>/tests/]: the
    addon's [name], not its module name.  When the directory the method
    tests is the addon's own source directory, it returns nothing exactly
    when that directory does not exist. *)
Theorem jshintAddonTree_lints_below_name :
  forall (w : World) (a : Addon) (app : App) (addonPath : string),
    JsObject.get "addon" (treePaths a) = Some addonPath ->
    let out := fst (jshintAddonTree w {| self := a; owner := Some app |}) in
    let lintTree :=
      PickFiles
        (JshintTrees
           (PreprocessJs
              (PickFiles (DirTree addonPath)
                         {| srcDir := "/"; files := Some [jsFileGlobOf (registry a)];
                            destDir := moduleNameOf a; allowEmpty := Some true |})
              "/" (name a) (registry a))
           (optionsJshintrcApp app) "JSHint - Addon")
        {| srcDir := "/"; files := None; destDir := name a ++ "/tests/";
           allowEmpty := None |} in
    (out = inr None \/ out = inr (Some lintTree))
    /\ forall r,
        root a = Some r ->
        existsSync w addonPath = existsSync w (Path.join r addonPath) ->
        (existsSync w (Path.join r addonPath) = false -> out = inr None)
        /\ (existsSync w (Path.join r addonPath) = true -> out = inr (Some lintTree)).
Proof.
  intros w a app addonPath Hpath out lintTree.
  destruct (@returns_jshintAddonTree w {| self := a; owner := Some app |} app addonPath
              eq_refl Hpath) as (a' & Hrun & _).
  assert (Hout : out = inr (if existsSync w addonPath
                            then Some (lintTreeOf a app addonPath) else None)).
  { unfold out. rewrite Hrun. reflexivity. }
  change lintTree with (lintTreeOf a app addonPath).
  split.
  - rewrite Hout. destruct (existsSync w addonPath); auto.
  - intros r _ Hsame. rewrite Hout, Hsame. split; intros ->; reflexivity.
Qed.

Lemma jshintAddonTree_lints_below_name_witness :
  exists t,
    fst (jshintAddonTree LintExample.world LintExample.heap)
    = inr (Some (PickFiles t {| srcDir := "/"; files := None;
                                destDir := "My Addon/tests/"; allowEmpty := None |})).
Proof.
  pose proof (@jshintAddonTree_lints_below_name LintExample.world LintExample.myAddon
                Examples.theApp "addon" eq_refl) as (_ & H).
  destruct (H "/work/my-addon" eq_refl eq_refl) as (_ & Hyes).
  eexists. exact (Hyes eq_refl).
Defined.

(** C9 as stated fails: for the addon ["My Addon"], whose module name is
    ["my-addon"] and whose source directory exists, the lint tree is moved
    below ["My Addon/tests/"], not ["my-addon/tests/"]. *)
Lemma jshintAddonTree_not_below_moduleName :
  fst (moduleName LintExample.heap) = inr "my-addon"
  /\ existsSync LintExample.world "/work/my-addon/addon" = true
  /\ exists t o,
      fst (jshintAddonTree LintExample.world LintExample.heap) = inr (Some (PickFiles t o))
      /\ destDir o = "My Addon/tests/"
      /\ destDir o <> "my-addon/tests/".
Proof.
  split; [reflexivity|]. split; [reflexivity|].
  eexists. eexists. split; [vm_compute; reflexivity|].
  split; [reflexivity | discriminate].
Qed.

(** ** [includedModules] *)

Lemma returns_collectModules :
  forall treePath filePaths acc h,
    returns (collectModules treePath filePaths acc) h
            (collectOf treePath (moduleNameOf (self h)) filePaths acc).
Proof.
  intros treePath. induction filePaths as [|f rest IH]; intros acc h; simpl.
  - apply returns_ret.
  - eapply returns_bind; [apply returns_moduleName|]. intros a1 S1 _.
    specialize (IH (JsObject.set (moduleKey treePath (moduleNameOf (self h)) f)
                                 ["default"] acc)
                   {| self := a1; owner := owner h |}).
    config S1. rewrite Hmn in IH. exact IH.
Qed.

Lemma includedModules_hit :
  forall w h m,
    includedModulesMemo (self h) = Some m ->
    includedModules w h = (inr m, h).
Proof.
  intros w [a o] m H. simpl in H. unfold includedModules. run_method.
  rewrite H. reflexivity.
Qed.

Lemma sameConfig_sym : forall a b, sameConfig a b -> sameConfig b a.
Proof.
  unfold sameConfig. intros a b (H1 & H2 & H3 & H4 & H5 & H6 & H7).
  repeat split; congruence.
Qed.

Lemma runs_putMemo :
  forall h a m,
    sameConfig a (self h) ->
    runs (putSelf (withIncludedModules a m)) h tt (Some m).
Proof.
  intros [a0 o] a m S. exists (withIncludedModules a m). simpl in *.
  repeat split; apply (sameConfig_sym S).
Qed.

Lemma includedModules_miss :
  forall w h r rel,
    includedModulesMemo (self h) = None ->
    root (self h) = Some r ->
    JsObject.get "addon" (treePaths (self h)) = Some rel ->
    runs (includedModules w) h (includedModulesOf w (self h) r rel)
         (Some (includedModulesOf w (self h) r rel)).
Proof.
  intros w h r rel Hmemo Hroot Hrel.
  unfold includedModules.
  eapply runs_bind; [apply returns_getSelf|]. intros a1 S1 M1.
  rewrite Hmemo, Hroot, Hrel. unfold pathJoin.
  eapply runs_bind; [apply returns_ret|]. intros a2 S2 M2.
  eapply runs_bind; [apply returns_jsFileGlob|]. intros a3 S3 M3.
  eapply runs_bind; [apply returns_collectModules|]. intros a4 S4 M4.
  eapply runs_bind; [apply returns_getSelf|]. intros a5 S5 M5.
  eapply runs_bind; [apply runs_putMemo; exact S5|]. intros a6 S6 M6.
  eapply runs_bind; [apply returns_moduleName|]. intros a7 S7 M7.
  config S1. config S2. config S3. config S4. config S5. config S6. config S7.
  unfold includedModulesOf, globbedFiles.
  fold (addonTreePath r rel).
  replace (registry a2) with (registry (self h)) by congruence.
  replace (moduleNameOf a3) with (moduleNameOf (self h)) by congruence.
  replace (moduleNameOf a6) with (moduleNameOf (self h)) by congruence.
  set (mn := moduleNameOf (self h)).
  set (m := collectOf _ _ _ _).
  destruct (JsObject.has (mn ++ "/index") m).
  - eapply runs_bind; [apply returns_moduleName|]. intros a8 S8 M8.
    config S8.
    replace (moduleNameOf a7) with mn by (unfold mn; congruence).
    eapply runs_bind; [apply returns_getSelf|]. intros a9 S9 M9.
    eapply runs_bind; [apply runs_putMemo; exact S9|]. intros a10 S10 M10.
    destruct (returns_ret (JsObject.set mn ["default"] m)
                          {| self := a10; owner := owner h |}) as (a11 & Hr & S11 & M11).
    exists a11. simpl in *. rewrite Hr. repeat split; try apply S11.
    subst mn m. unfold addonTreePath in *. congruence.
  - destruct (returns_ret m {| self := a7; owner := owner h |}) as (a11 & Hr & S11 & M11).
    exists a11. simpl in *. rewrite Hr. repeat split; try apply S11.
    subst mn m. unfold addonTreePath in *. congruence.
Qed.

(** ** [compileAddon] and the import whitelist *)

Lemma runs_bind_yields :
  forall A B (m : M A) (k : A -> M B) h v u memo Q,
    runs m h v memo ->
    (forall a', sameConfig (self h) a' ->
                includedModulesMemo a' = memo ->
                yields (k v) {| self := a'; owner := owner h |} u Q) ->
    yields (bind m k) h u Q.
Proof.
  intros A B m k h v u memo Q (a' & Hm & Hs & Hi) Hk.
  destruct (Hk a' Hs Hi) as (a'' & o'' & Hk' & HQ).
  exists a'', o''. unfold bind. rewrite Hm, Hk'. auto.
Qed.

Lemma returns_includedModules_hit :
  forall w h m,
    includedModulesMemo (self h) = Some m -> returns (includedModules w) h m.
Proof.
  intros w [a o] m H. exists a. rewrite (includedModules_hit w _ H).
  repeat split.
Qed.

(** [_treeFor] for a category that has a directory entry but no method
    entry: the generated tree when the directory exists, else nothing. *)
Lemma returns_treeFor_leaf :
  forall w d nm rel r h,
    root (self h) = Some r ->
    JsObject.get nm (treePaths (self h)) = Some rel ->
    JsObject.get nm (treeForMethods (self h)) = None ->
    returns (_treeFor w (S d) nm) h
            (if existsSync w (Path.join r rel)
             then Some (treeGenerator w (Path.join r rel)) else None).
Proof.
  intros w d nm rel r h Hroot Hrel Hmeth. simpl. unfold _treeForWith.
  eapply returns_bind; [apply returns_getSelf|]. intros a1 S1 _.
  rewrite Hroot, Hrel, Hmeth. unfold pathJoin.
  eapply returns_bind; [apply returns_ret|]. intros a2 S2 _.
  destruct (existsSync w (Path.join r rel)); [|apply returns_ret].
  eapply returns_bind; [apply returns_getSelf|]. intros a3 S3 _.
  simpl. apply returns_ret.
Qed.

(** [compileAddon] on a freshly constructed instance with a root: nothing
    when no module is found, the whitelist untouched; else the bundle, and
    the addon's modules assigned onto the whitelist. *)
Lemma compileAddon_yields :
  forall w d t a app r,
    asConstructed a ->
    root a = Some r ->
    let m := includedModulesOf w a r "addon" in
    yields (compileAddon w (S d) t) {| self := a; owner := Some app |}
           (match JsObject.keys m with
            | [] => None
            | _ :: _ => Some (bundleOf w a app r t)
            end)
           (fun a' o' =>
              includedModulesMemo a' = Some m
              /\ o' = Some (match JsObject.keys m with
                            | [] => app
                            | _ :: _ => setImportWhitelist app
                                          (JsObject.assign (importWhitelist app) m)
                            end)).
Proof.
  intros w d t a app r (Htp & Htm & Hmemo) Hroot m.
  unfold compileAddon, compileAddonWith.
  eapply runs_bind_yields; [apply returns_requireBuildPackages|]. intros a1 S1 M1.
  config S1.
  eapply runs_bind_yields.
  { apply includedModules_miss with (r := r) (rel := "addon"); simpl; try congruence.
    rewrite Htp0, Htp. reflexivity. }
  intros a2 S2 M2. simpl in *.
  replace (includedModulesOf w a1 r "addon") with m in *.
  2:{ unfold m, includedModulesOf, globbedFiles. now rewrite Hmn, Hreg. }
  destruct (JsObject.keys m) eqn:Hkeys.
  { exists a2, (Some app). split; [reflexivity | auto]. }
  config S2.
  eapply runs_bind_yields; [apply returns_addonJsFiles|]. intros a3 S3 M3.
  config S3.
  eapply runs_bind_yields.
  { eapply returns_treeFor_leaf with (r := r) (rel := "addon/templates"); simpl.
    - congruence.
    - rewrite Htp2, Htp1, Htp0, Htp. reflexivity.
    - rewrite Htm2, Htm1, Htm0, Htm. reflexivity. }
  intros a4 S4 M4. config S4.
  eapply runs_bind_yields; [apply returns_compileTemplates|]. intros a5 S5 M5.
  eapply runs_bind_yields; [apply returns_getSelf|]. intros a6 S6 M6.
  eapply runs_bind_yields; [apply returns_getApp; reflexivity|]. intros a7 S7 M7.
  eapply runs_bind_yields; [apply returns_moduleName|]. intros a8 S8 M8.
  eapply runs_bind_yields; [apply returns_getSelf|]. intros a9 S9 M9.
  eapply runs_bind_yields; [apply returns_getApp; reflexivity|]. intros a10 S10 M10.
  eapply runs_bind_yields; [apply returns_getApp; reflexivity|]. intros a11 S11 M11.
  eapply runs_bind_yields.
  { apply returns_includedModules_hit with (m := m). simpl in *. congruence. }
  intros a12 S12 M12.
  config S5. config S6. config S7. config S8. config S9. config S10. config S11.
  exists a12, (Some (setImportWhitelist app (JsObject.assign (importWhitelist app) m))).
  split.
  - unfold bind, putApp, ret. simpl. unfold bundleOf, addonJsFilesOf, compileTemplatesOf.
    to_self. destruct (existsSync w (Path.join r "addon/templates")); reflexivity.
  - split; [congruence | reflexivity].
Qed.

Lemma compileAddon_no_root :
  forall w d t a app,
    asConstructed a ->
    root a = None ->
    exists a',
      compileAddon w (S d) t {| self := a; owner := Some app |}
      = (inl (TypeError "Arguments to path.join must be strings"),
         {| self := a'; owner := Some app |}).
Proof.
  intros w d t a app (Htp & Htm & Hmemo) Hroot.
  destruct (returns_requireBuildPackages {| self := a; owner := Some app |})
    as (a1 & Hreq & S1 & M1).
  config S1. simpl in M1. exists a1.
  unfold compileAddon, compileAddonWith.
  unfold bind at 1. rewrite Hreq.
  unfold bind at 1. unfold includedModules, bind at 1. unfold getSelf at 1.
  cbn [self]. rewrite M1, Hmemo. unfold bind at 1.
  rewrite Hroot0, Hroot. reflexivity.
Qed.

Lemma collectOf_values :
  forall treePath mn filePaths acc,
    (forall k v, In (k, v) acc -> v = ["default"]) ->
    forall k v, In (k, v) (collectOf treePath mn filePaths acc) -> v = ["default"].
Proof.
  intros treePath mn. unfold collectOf.
  induction filePaths as [|f rest IH]; simpl; intros acc Hacc; [exact Hacc|].
  apply IH. apply JsObjectFacts.set_values. exact Hacc.
Qed.

(** Every module [includedModules()] lists exports just [default]. *)
Lemma includedModulesOf_values :
  forall w a r rel k v,
    In (k, v) (includedModulesOf w a r rel) -> v = ["default"].
Proof.
  intros w a r rel k v. unfold includedModulesOf.
  set (m := collectOf _ _ _ _).
  assert (Hm : forall k v, In (k, v) m -> v = ["default"]).
  { apply collectOf_values. intros ? ? []. }
  destruct (JsObject.has _ m); [|apply Hm].
  apply JsObjectFacts.set_values. exact Hm.
Qed.

Lemma fails_bind_now :
  forall A B (m : M A) (k : A -> M B) h e,
    fails m h e -> fails (bind m k) h e.
Proof.
  intros A B m k h e (a' & Hm & Hs). exists a'. unfold bind. rewrite Hm. auto.
Qed.

Lemma runs_bind_fails :
  forall A B (m : M A) (k : A -> M B) h v memo e,
    runs m h v memo ->
    (forall a', sameConfig (self h) a' ->
                includedModulesMemo a' = memo ->
                fails (k v) {| self := a'; owner := owner h |} e) ->
    fails (bind m k) h e.
Proof.
  intros A B m k h v memo e (a' & Hm & Hs & Hi) Hk.
  destruct (Hk a' Hs Hi) as (a'' & Hk' & Hs'). simpl in *.
  exists a''. unfold bind. rewrite Hm, Hk'.
  split; [reflexivity | eapply sameConfig_trans; eauto].
Qed.

Lemma fails_getApp :
  forall h, owner h = None ->
            fails getApp h (TypeError "Cannot read property of undefined").
Proof.
  intros [a o] H. simpl in H. subst o. exists a. split; [reflexivity|].
  apply sameConfig_refl.
Qed.

(** Without a root, [compileAddon] raises in [includedModules], whether
    or not the instance is bound to an application. *)
Lemma compileAddon_rootless :
  forall w d t a o,
    asConstructed a ->
    root a = None ->
    fails (compileAddon w (S d) t) {| self := a; owner := o |}
          (TypeError "Arguments to path.join must be strings").
Proof.
  intros w d t a o (Htp & Htm & Hmemo) Hroot.
  unfold compileAddon, compileAddonWith.
  eapply runs_bind_fails; [apply returns_requireBuildPackages|]. intros a1 S1 M1.
  apply fails_bind_now. unfold includedModules.
  eapply runs_bind_fails; [apply returns_getSelf|]. intros a2 S2 M2.
  cbn [self owner] in *. config S1.
  rewrite M1, Hmemo, Hroot0, Hroot.
  apply fails_bind_now. exists a2. split; [reflexivity | apply sameConfig_refl].
Qed.

Lemma collectOf_no_proto :
  forall treePath mn filePaths acc,
    ~ In "__proto__" (JsObject.keys acc) ->
    ~ In "__proto__" (JsObject.keys (collectOf treePath mn filePaths acc)).
Proof.
  intros treePath mn. unfold collectOf.
  induction filePaths as [|f rest IH]; simpl; intros acc Hacc; [exact Hacc|].
  apply IH. now apply JsObjectFacts.set_no_proto.
Qed.

(** [includedModules()] never lists a module under [__proto__]: writing
    that key does not create a property. *)
Lemma includedModulesOf_no_proto :
  forall w a r rel, ~ In "__proto__" (JsObject.keys (includedModulesOf w a r rel)).
Proof.
  intros w a r rel. unfold includedModulesOf.
  set (m := collectOf _ _ _ _).
  assert (Hm : ~ In "__proto__" (JsObject.keys m)).
  { apply collectOf_no_proto. intros []. }
  destruct (JsObject.has _ m); [|exact Hm].
  now apply JsObjectFacts.set_no_proto.
Qed.

Lemma includedModulesOf_own_name :
  forall w a r rel k,
    In k (JsObject.keys (includedModulesOf w a r rel)) -> k <> "__proto__".
Proof.
  intros w a r rel k Hin ->. now apply (@includedModulesOf_no_proto w a r rel).
Qed.

(** Before [included(app)] has run, [compileAddon] on an instance with
    a root returns nothing when the addon has no modules, and raises at
    the first read of [this.app] when it has some. *)
Lemma compileAddon_unbound :
  forall w d t a r m,
    fixedTables a ->
    root a = Some r ->
    (includedModulesMemo a = None /\ m = includedModulesOf w a r "addon")
    \/ includedModulesMemo a = Some m ->
    match JsObject.keys m with
    | [] => runs (compileAddon w (S d) t) {| self := a; owner := None |} None (Some m)
    | _ :: _ => fails (compileAddon w (S d) t) {| self := a; owner := None |}
                      (TypeError "Cannot read property of undefined")
    end.
Proof.
  intros w d t a r m (Htp & Htm) Hroot Hmemo.
  assert (Hinc : forall a1, sameConfig a a1 ->
                            includedModulesMemo a1 = includedModulesMemo a ->
                            runs (includedModules w) {| self := a1; owner := None |} m (Some m)).
  { intros a1 S1 M1. destruct Hmemo as [(Hnone & ->) | Hsome].
    - replace (includedModulesOf w a r "addon") with (includedModulesOf w a1 r "addon").
      2:{ config S1. unfold includedModulesOf, globbedFiles. now rewrite Hmn, Hreg. }
      apply (@includedModules_miss w {| self := a1; owner := None |} r "addon"); simpl.
      + congruence.
      + config S1. congruence.
      + config S1. rewrite Htp0, Htp. reflexivity.
    - pose proof (@returns_includedModules_hit w {| self := a1; owner := None |} m) as H.
      unfold returns in H. simpl in H. rewrite M1, Hsome in H. apply H. reflexivity. }
  unfold compileAddon, compileAddonWith.
  destruct (JsObject.keys m) eqn:Hkeys.
  - eapply runs_bind; [apply returns_requireBuildPackages|]. intros a1 S1 M1.
    eapply runs_bind; [apply (Hinc a1 S1 M1)|]. intros a2 S2 M2.
    rewrite Hkeys. exists a2. repeat split. exact M2.
  - eapply runs_bind_fails; [apply returns_requireBuildPackages|]. intros a1 S1 M1.
    eapply runs_bind_fails; [apply (Hinc a1 S1 M1)|]. intros a2 S2 M2.
    rewrite Hkeys. cbn [self owner] in *.
    eapply runs_bind_fails; [apply returns_addonJsFiles|]. intros a3 S3 M3.
    cbn [self owner] in *.
    eapply runs_bind_fails.
    { eapply returns_treeFor_leaf with (r := r) (rel := "addon/templates"); simpl.
      - config S1. config S2. config S3. congruence.
      - config S1. config S2. config S3. rewrite Htp2, Htp1, Htp0, Htp. reflexivity.
      - config S1. config S2. config S3. rewrite Htm2, Htm1, Htm0, Htm. reflexivity. }
    intros a4 S4 M4.
    eapply runs_bind_fails; [apply returns_compileTemplates|]. intros a5 S5 M5.
    eapply runs_bind_fails; [apply returns_getSelf|]. intros a6 S6 M6.
    apply fails_bind_now. apply fails_getApp. reflexivity.
Qed.

(** One call of [compileAddon] on a bound instance never drops a
    whitelist name. *)
Lemma compileAddon_keeps_names :
  forall w d t a app,
    asConstructed a ->
    exists app',
      owner (snd (compileAddon w (S d) t {| self := a; owner := Some app |})) = Some app'
      /\ forall k, In k (JsObject.keys (importWhitelist app)) ->
                   In k (JsObject.keys (importWhitelist app')).
Proof.
  intros w d t a app Hc. destruct (root a) as [r|] eqn:Hroot.
  - destruct (@compileAddon_yields w d t a app r Hc Hroot) as (a' & o' & Hrun & _ & ->).
    rewrite Hrun. simpl.
    destruct (JsObject.keys (includedModulesOf w a r "addon")).
    + exists app. auto.
    + eexists. split; [reflexivity|]. intros k Hk. simpl.
      now apply JsObjectFacts.in_keys_assign_old.
  - destruct (@compileAddon_no_root w d t a app Hc Hroot) as (a' & ->).
    exists app. auto.
Qed.

(** C1 (as the code has it): over a sequential pass of [compileAddon]
    calls on constructed addons, no module name is ever removed from the
    whitelist.  A call either returns a bundle, or it returns nothing or
    raises and then leaves [this.app], and so the whitelist, as it found
    it.  A call that returns a bundle leaves exactly the old names
    together with the names of that addon's [includedModules()], and
    stores that addon's export list, [['default']], under each of them,
    replacing whatever an existing entry held; all other entries are
    untouched. *)
Theorem whitelist_keys_additive_values_assigned :
  forall (w : World) (d : nat) (addons : list (Addon * tree)) (app : App),
    Forall (fun at_ => asConstructed (fst at_)) addons ->
    (forall k,
        In k (JsObject.keys (importWhitelist app)) ->
        In k (JsObject.keys (importWhitelist (snd (compilePass w (S d) addons app)))))
    /\ forall a t o,
        asConstructed a ->
        let run := compileAddon w (S d) t {| self := a; owner := o |} in
        ((fst run = inr None \/ exists e, fst run = inl e) /\ owner (snd run) = o)
        \/ (exists bundle app0 app' r,
               fst run = inr (Some bundle)
               /\ o = Some app0
               /\ root a = Some r
               /\ includedModulesMemo (self (snd run))
                  = Some (includedModulesOf w a r "addon")
               /\ owner (snd run) = Some app'
               /\ (forall k, In k (JsObject.keys (importWhitelist app'))
                             <-> In k (JsObject.keys (importWhitelist app0))
                                 \/ In k (JsObject.keys (includedModulesOf w a r "addon")))
               /\ (forall k, In k (JsObject.keys (includedModulesOf w a r "addon")) ->
                             JsObject.get k (importWhitelist app') = Some ["default"])
               /\ (forall k, ~ In k (JsObject.keys (includedModulesOf w a r "addon")) ->
                             JsObject.get k (importWhitelist app')
                             = JsObject.get k (importWhitelist app0))).
Proof.
  intros w d addons app Hall. split.
  - revert app. induction Hall as [|[a t] rest Ha _ IH]; intros app k Hk; simpl.
    + exact Hk.
    + destruct (@compileAddon_keeps_names w d t a app Ha) as (app' & Ho & Hkeep).
      destruct (compileAddon w (S d) t {| self := a; owner := Some app |}) as [res h'].
      simpl in Ho. rewrite Ho.
      specialize (IH app' k (Hkeep k Hk)).
      destruct (compilePass w (S d) rest app') as [rs final]. exact IH.
  - intros a t o Ha run.
    destruct (root a) as [r|] eqn:Hroot.
    2:{ left. destruct (@compileAddon_rootless w d t a o Ha Hroot) as (a' & Hrun & _).
        unfold run. rewrite Hrun. simpl. split; [right; eauto | reflexivity]. }
    destruct o as [app0|].
    2:{ left. pose proof Ha as (Htp & Htm & Hmemo).
        pose proof (@compileAddon_unbound w d t a r (includedModulesOf w a r "addon")
                      (conj Htp Htm) Hroot (or_introl (conj Hmemo eq_refl))) as H.
        destruct (JsObject.keys (includedModulesOf w a r "addon")).
        - destruct H as (a' & Hrun & _). unfold run. rewrite Hrun. simpl. auto.
        - destruct H as (a' & Hrun & _). unfold run. rewrite Hrun. simpl.
          split; [right; eauto | reflexivity]. }
    destruct (@compileAddon_yields w d t a app0 r Ha Hroot) as (a' & o' & Hrun & Hmemo & ->).
    unfold run. rewrite Hrun. cbn [fst snd self owner].
    destruct (JsObject.keys (includedModulesOf w a r "addon")) eqn:Hkeys; [left; auto|].
    right. eexists _, app0, _, r.
    split; [reflexivity|]. split; [reflexivity|]. split; [reflexivity|].
    split; [exact Hmemo|]. split; [reflexivity|].
    unfold setImportWhitelist. cbn [importWhitelist].
    split; [|split].
    + intros k. apply JsObjectFacts.in_keys_assign. apply includedModulesOf_no_proto.
    + intros k Hin. eapply JsObjectFacts.get_assign_const; [| |exact Hin].
      * apply includedModulesOf_values.
      * eapply includedModulesOf_own_name; exact Hin.
    + intros k Hn. now apply JsObjectFacts.get_assign_other.
Qed.

Lemma whitelist_keys_additive_values_assigned_witness :
  In "ember"
     (JsObject.keys
        (importWhitelist
           (snd (compilePass WhitelistExample.world 2
                             [(WhitelistExample.icAjax, WhitelistExample.addonTree)]
                             WhitelistExample.app))))
  /\ In "ic-ajax"
        (JsObject.keys
           (importWhitelist
              (snd (compilePass WhitelistExample.world 2
                                [(WhitelistExample.icAjax, WhitelistExample.addonTree)]
                                WhitelistExample.app)))).
Proof.
  pose proof (@whitelist_keys_additive_values_assigned
                WhitelistExample.world 1
                [(WhitelistExample.icAjax, WhitelistExample.addonTree)]
                WhitelistExample.app) as H.
  destruct H as (Hkeep & _); [repeat constructor|].
  split; apply Hkeep; simpl; auto.
Defined.

(** C1 as stated fails: the application's entry for [ic-ajax] lists
    [default] and [request]; after the pass over the one addon [ic-ajax]
    the entry is overwritten with [default] alone. *)
Lemma whitelist_entry_overwritten :
  let final := snd (compilePass WhitelistExample.world 2
                                [(WhitelistExample.icAjax, WhitelistExample.addonTree)]
                                WhitelistExample.app) in
  JsObject.get "ic-ajax" (importWhitelist WhitelistExample.app) = Some ["default"; "request"]
  /\ JsObject.get "ic-ajax" (importWhitelist final) = Some ["default"]
  /\ JsObject.get "ic-ajax" (importWhitelist final)
     <> JsObject.get "ic-ajax" (importWhitelist WhitelistExample.app).
Proof.
  vm_compute. repeat split. discriminate.
Qed.

(** The order of the names: an addon named [42] with an [index.js]
    registers the array index [42], which [Object.keys] lists before
    [ember], although [ember] was there first. *)
Example whitelist_index_name_first :
  JsObject.keys
    (importWhitelist
       (snd (compilePass KeyOrderExample.world 2
                         [(KeyOrderExample.named "42", UnwatchedTree "/lib/a/addon")]
                         Examples.theApp)))
  = ["42"; "ember"; "42/index"].
Proof. vm_compute. reflexivity. Qed.

(** An addon named [__proto__] with an [index.js] gets no alias: the
    write to [__proto__] creates no property. *)
Example includedModules_proto_name_no_alias :
  fst (includedModules KeyOrderExample.world
         {| self := KeyOrderExample.named "__proto__"; owner := None |})
  = inr [("__proto__/index", ["default"])].
Proof. vm_compute. reflexivity. Qed.

(** ** [Addon.resolvePath] *)

(** C4 (as the code has it): [resolvePath] takes the legacy
    [ember-addon-main] field whenever it is set, printing the deprecation
    notice, which starts with the package name; else the current
    [ember-addon.main] field; else [index.js].  It appends [.js] exactly
    when the chosen entry has no extension and resolves the entry against
    the addon's directory, which gives an absolute path when the working
    directory is absolute.  With only a legacy field (a plain name) the
    result is [<dir>/<legacyMain>.js] with the notice, and with no field
    it is [<dir>/index.js]. *)
Theorem resolvePath_prefers_legacy_field :
  forall (w : World) (addon : AddonRef) (ea : EmberAddonField),
    emberAddon (pkg addon) = Some ea ->
    let p := pkg addon in
    let legacy := emberAddonMain p in
    let chosen :=
      if truthy legacy then toString legacy
      else if truthy (main ea) then toString (main ea)
      else "index.js" in
    resolvePath w addon
    = (if truthy legacy then [deprecationMessage p] else [],
       inr (Path.resolve (cwd w) (addonPath addon)
                         (if JsString.nonEmpty (Path.extname chosen) then chosen
                          else chosen ++ ".js")))
    /\ (exists rest, deprecationMessage p = pkgName p ++ rest)
    /\ (JsString.startsWithSlash (cwd w) = true ->
        exists r, snd (resolvePath w addon) = inr r
                  /\ JsString.startsWithSlash r = true)
    /\ (forall segs m,
           segs <> [] ->
           forallb normalSegment segs = true ->
           plainName m = true ->
           addonPath addon = "/" ++ JsString.joinSlash segs ->
           legacy = Some m ->
           resolvePath w addon
           = ([deprecationMessage p], inr (addonPath addon ++ "/" ++ m ++ ".js")))
    /\ (forall segs,
           segs <> [] ->
           forallb normalSegment segs = true ->
           addonPath addon = "/" ++ JsString.joinSlash segs ->
           truthy legacy = false ->
           truthy (main ea) = false ->
           resolvePath w addon = ([], inr (addonPath addon ++ "/index.js"))).
Proof.
  intros w addon ea Hea p legacy chosen.
  assert (Hrun : resolvePath w addon
                 = (if truthy legacy then [deprecationMessage p] else [],
                    inr (Path.resolve (cwd w) (addonPath addon)
                                      (if JsString.nonEmpty (Path.extname chosen) then chosen
                                       else chosen ++ ".js")))).
  { unfold resolvePath, chooseMain, deprecate, withExtension, chosen, legacy, p.
    rewrite Hea.
    destruct (truthy (emberAddonMain (pkg addon))); [reflexivity|].
    destruct (truthy (main ea)); reflexivity. }
  split; [exact Hrun|]. split; [|split; [|split]].
  - unfold deprecationMessage. eexists. reflexivity.
  - intros Hcwd. rewrite Hrun. simpl. eexists. split; [reflexivity|].
    now apply PathFacts.resolve_absolute.
  - intros segs m Hne Hsegs Hm Hdir Hlegacy. rewrite Hrun.
    assert (Hc : chosen = m).
    { unfold chosen. rewrite Hlegacy. unfold plainName in Hm.
      destruct m; [discriminate | reflexivity]. }
    rewrite Hc, (PathFacts.extname_plain _ Hm). simpl JsString.nonEmpty. cbv iota.
    replace (truthy legacy) with true.
    2:{ rewrite Hlegacy. destruct m; [discriminate | reflexivity]. }
    rewrite Hdir.
    rewrite PathFacts.resolve_in_directory
      by (auto using PathFacts.normalSegment_with_suffix).
    rewrite PathFacts.joinSlash_snoc by exact Hne.
    rewrite StringFacts.append_assoc. reflexivity.
  - intros segs Hne Hsegs Hdir Hlegacy Hmain. rewrite Hrun.
    unfold chosen. rewrite Hlegacy, Hmain.
    change (Path.extname "index.js") with ".js". simpl JsString.nonEmpty. cbv iota.
    rewrite Hdir.
    rewrite PathFacts.resolve_in_directory by (auto; reflexivity).
    rewrite PathFacts.joinSlash_snoc by exact Hne.
    rewrite StringFacts.append_assoc. reflexivity.
Qed.

Lemma resolvePath_prefers_legacy_field_witness :
  resolvePath Examples.world ResolveExample.legacyOnly
  = (["ember-foo is using the deprecated ember-addon-main definition. It should be updated to {'ember-addon': {'main': 'main'}}"],
     inr "/work/app/node_modules/ember-foo/main.js").
Proof.
  pose proof (@resolvePath_prefers_legacy_field
                Examples.world ResolveExample.legacyOnly {| main := None |} eq_refl)
    as (_ & _ & _ & H & _).
  apply (H ["work"; "app"; "node_modules"; "ember-foo"] "main");
    first [reflexivity | discriminate].
Defined.

(** C4 as stated fails: with both fields set, the path resolved is the
    legacy one, not the current one, and the notice is printed. *)
Lemma resolvePath_current_field_not_preferred :
  resolvePath Examples.world ResolveExample.bothFields
  = (["ember-foo is using the deprecated ember-addon-main definition. It should be updated to {'ember-addon': {'main': 'old-main.js'}}"],
     inr "/work/app/node_modules/ember-foo/old-main.js")
  /\ snd (resolvePath Examples.world ResolveExample.bothFields)
     <> inr "/work/app/node_modules/ember-foo/new-main.js".
Proof.
  split; [reflexivity | vm_compute; discriminate].
Qed.

(** ** [includedModules] on concrete addons *)

(** C2, the example of the specification: for [foo.js], [bar/baz.js] and
    [index.js] under module name [x], [includedModules()] is exactly
    [x/bar/baz], [x/foo], [x/index] and the alias [x], each exporting
    [default] (listed in the order [glob] reports the files). *)
Lemma includedModules_example_x :
  fst (moduleName Examples.heapX) = inr "x"
  /\ fst (includedModules Examples.world Examples.heapX)
     = inr [ ("x/bar/baz", ["default"]); ("x/foo", ["default"]);
             ("x/index", ["default"]); ("x", ["default"]) ]
  /\ forall k,
      JsObject.get k [ ("x/bar/baz", ["default"]); ("x/foo", ["default"]);
                       ("x/index", ["default"]); ("x", ["default"]) ]
      = JsObject.get k [ ("x/foo", ["default"]); ("x/bar/baz", ["default"]);
                         ("x/index", ["default"]); ("x", ["default"]) ].
Proof.
  split; [reflexivity|]. split; [reflexivity|].
  intros k. simpl.
  destruct (String.eqb_spec k "x/bar/baz") as [->|]; [reflexivity|].
  destruct (String.eqb_spec k "x/foo"); reflexivity.
Qed.

(** C2 at a name containing [$$]: the module name is [ca$$h], but
    [String.prototype.replace] reads [$$] in its replacement text as one
    dollar sign, so the files are registered under [ca$h/...]; the module
    [ca$$h/index] the alias test looks for is then missing and no alias
    is added. *)
Theorem includedModules_dollar_in_name :
  fst (moduleName DollarExample.heap) = inr "ca$$h"
  /\ fst (includedModules DollarExample.world DollarExample.heap)
     = inr [ ("ca$h/foo", ["default"]); ("ca$h/index", ["default"]) ]
  /\ (forall m, fst (includedModules DollarExample.world DollarExample.heap) = inr m ->
                JsObject.get "ca$$h/foo" m = None
                /\ JsObject.get "ca$$h/index" m = None
                /\ JsObject.get "ca$$h" m = None).
Proof.
  split; [reflexivity|]. split; [reflexivity|].
  intros m H. vm_compute in H. injection H as <-. repeat split.
Qed.

(** ** [includedModules] in general, for module names without [$] *)
Module GlobFacts.
Import JsString Path StringFacts Glob.
Local Arguments Ascii.eqb : simpl never.

Lemma last_append :
  forall (l1 l2 : list string) d, l2 <> [] -> last (l1 ++ l2) d = last l2 d.
Proof.
  induction l1 as [|x l1 IH]; intros l2 d H; [reflexivity|].
  simpl. rewrite IH by exact H.
  destruct (l1 ++ l2)%list eqn:E; [|reflexivity].
  apply app_eq_nil in E. destruct E. contradiction.
Qed.

Lemma basename_append :
  forall a b, segments b <> [] -> basename (a ++ String "/" b) = basename b.
Proof.
  intros a b H. unfold basename.
  rewrite PathFacts.segments_append. now apply last_append.
Qed.

Lemma splitSlash_single : forall s h, splitSlash s = [h] -> s = h.
Proof.
induction s as [|d s IH]; simpl; intros h E.
- now injection E.
- destruct (Ascii.eqb d "/").
  + injection E as _ E. now apply splitSlash_nonnil in E.
  + destruct (splitSlash s) as [|h1 t1] eqn:E1; [now apply splitSlash_nonnil in E1|].
    injection E as <- ->. now rewrite (IH h1 eq_refl).
Qed.

(** Every string ends with the last piece of its split. *)
Lemma ends_with_last_piece :
forall s, exists pre, s = pre ++ last (splitSlash s) "".
Proof.
induction s as [|c s (pre & IH)].
- exists "". reflexivity.
- destruct (splitSlash s) as [|h t] eqn:E; [now apply splitSlash_nonnil in E|].
  simpl splitSlash. rewrite E. destruct (Ascii.eqb c "/").
  + exists (String c pre). simpl. now rewrite IH at 1.
  + destruct t as [|h' t'].
    * exists "". rewrite (splitSlash_single _ E). reflexivity.
    * exists (String c pre). simpl. simpl in IH. now rewrite IH at 1.
Qed.

Lemma filter_all :
  forall (f : string -> bool) l, forallb f l = true -> filter f l = l.
Proof.
  induction l as [|x l IH]; simpl; intros H; [reflexivity|].
  apply andb_true_iff in H. destruct H as [Hx Hl]. now rewrite Hx, IH.
Qed.

Lemma forallb_weaken :
  forall (f g : string -> bool) l,
    (forall x, f x = true -> g x = true) -> forallb f l = true -> forallb g l = true.
Proof.
  induction l as [|x l IH]; simpl; intros Hfg H; [reflexivity|].
  apply andb_true_iff in H. destruct H as [Hx Hl]. now rewrite (Hfg _ Hx), IH.
Qed.

Lemma forallb_last :
  forall (f : string -> bool) l d, l <> [] -> forallb f l = true -> f (last l d) = true.
Proof.
  induction l as [|x l IH]; intros d Hne H; [contradiction|].
  simpl in H. apply andb_true_iff in H. destruct H as [Hx Hl].
  destruct l as [|y l]; [exact Hx|].
  change (last (x :: y :: l) d) with (last (y :: l) d). apply IH; [discriminate | exact Hl].
Qed.

Lemma matchesStarDotExt_has_dot :
  forall exts b, matchesStarDotExt exts b = true -> contains "." b = true.
Proof.
  induction b as [|c b IH]; simpl; intros H; [discriminate|].
  apply orb_true_iff in H. destruct H as [H|H].
  - apply andb_true_iff in H. destruct H as [Hc _].
    rewrite Ascii.eqb_sym in Hc. now rewrite Hc.
  - rewrite (IH H). apply orb_true_r.
Qed.

Lemma fromLastDot_some :
  forall s, contains "." s = true ->
            exists pre e, fromLastDot s = Some e /\ s = pre ++ e /\ e <> "".
Proof.
  induction s as [|c s IH]; simpl; intros H; [discriminate|].
  destruct (contains "." s) eqn:Hs.
  - destruct (IH eq_refl) as (pre & e & -> & Hpe & Hne).
    exists (String c pre), e. simpl. now rewrite Hpe at 1.
  - rewrite (PathFacts.fromLastDot_none _ Hs).
    rewrite orb_false_r in H. rewrite Ascii.eqb_sym in H. rewrite H.
    exists "", (String c s). repeat split. discriminate.
Qed.

(** A relative path the glob matches has an extension, and is its stem
    followed by that extension. *)
Lemma matched_has_extension :
  forall exts f,
    matchesJsFileGlob exts f = true ->
    segments f <> []
    /\ Path.extname f <> ""
    /\ exists stem, f = stem ++ Path.extname f.
Proof.
  intros exts f H. unfold matchesJsFileGlob in H.
  apply andb_true_iff in H. destruct H as [Hsegs Hbase].
  assert (Hseg : segments f = splitSlash f).
  { unfold segments. apply filter_all.
    eapply forallb_weaken; [|exact Hsegs].
    intros x Hx. apply andb_true_iff in Hx. tauto. }
  assert (Hlast : nonEmpty (last (splitSlash f) "") && negb (hidden (last (splitSlash f) ""))
                  = true).
  { apply (forallb_last (fun seg => nonEmpty seg && negb (hidden seg)));
      [apply splitSlash_nonnil | exact Hsegs]. }
  apply andb_true_iff in Hlast. destruct Hlast as [Hne Hhid].
  apply negb_true_iff in Hhid.
  destruct (ends_with_last_piece f) as (pre & Hf).
  split; [rewrite Hseg; apply splitSlash_nonnil|].
  unfold Path.extname, basename. rewrite Hseg.
  destruct (last (splitSlash f) "") as [|c r] eqn:Hb; [discriminate|].
  simpl in Hhid.
  assert (Hdots : (String c r =? "..") = false).
  { apply String.eqb_neq. intros E. injection E as -> _. discriminate. }
  rewrite Hdots.
  apply matchesStarDotExt_has_dot in Hbase. simpl in Hbase.
  rewrite Ascii.eqb_sym, Hhid in Hbase. simpl in Hbase.
  destruct (fromLastDot_some _ Hbase) as (r1 & e & -> & Hr & He).
  split; [exact He|].
  exists (pre ++ String c r1). rewrite Hf at 1. rewrite Hr.
  rewrite append_assoc. reflexivity.
Qed.
End GlobFacts.

Lemma extname_append :
  forall a b, Path.segments b <> [] -> Path.extname (a ++ String "/" b) = Path.extname b.
Proof.
  intros a b H. unfold Path.extname. now rewrite GlobFacts.basename_append.
Qed.

(** The key of a matched file, for a module name without [$]: the module
    name, a slash, and the relative path without its extension. *)
Lemma moduleKey_matched :
  forall exts treePath mn f,
    JsString.contains "$" mn = false ->
    Glob.matchesJsFileGlob exts f = true ->
    exists stem,
      f = stem ++ Path.extname f
      /\ Path.extname f <> ""
      /\ moduleKey treePath mn (treePath ++ "/" ++ f) = mn ++ "/" ++ stem.
Proof.
  intros exts treePath mn f Hmn Hf.
  destruct (GlobFacts.matched_has_extension _ _ Hf) as (Hseg & Hext & stem & Hstem).
  exists stem. split; [exact Hstem|]. split; [exact Hext|].
  unfold moduleKey. rewrite StringFacts.replace_prefix by exact Hmn.
  change (mn ++ "/" ++ f) with (mn ++ String "/" f).
  rewrite extname_append by exact Hseg.
  rewrite Hstem at 1.
  change (mn ++ String "/" (stem ++ Path.extname f))
    with (mn ++ ("/" ++ stem) ++ Path.extname f).
  rewrite <- StringFacts.append_assoc.
  now rewrite StringFacts.sliceDropLast_append.
Qed.

Lemma collectOf_keys :
  forall treePath mn filePaths acc k,
    (forall f, In f filePaths -> moduleKey treePath mn f <> "__proto__") ->
    In k (JsObject.keys (collectOf treePath mn filePaths acc))
    <-> In k (JsObject.keys acc)
        \/ exists f, In f filePaths /\ k = moduleKey treePath mn f.
Proof.
  intros treePath mn. unfold collectOf.
  induction filePaths as [|f rest IH]; simpl; intros acc k Hown.
  - split; [auto | intros [H | (f & [] & _)]; exact H].
  - rewrite IH by auto. rewrite JsObjectFacts.in_keys_set by auto. split.
    + intros [[H | ->] | (f' & Hin & ->)]; eauto.
    + intros [H | (f' & [<- | Hin] & ->)]; eauto.
Qed.

Lemma slash_name_own : forall mn rest, mn ++ String "/" rest <> "__proto__".
Proof.
  intros mn rest E. apply (f_equal (JsString.contains "/")) in E.
  rewrite StringFacts.contains_append in E. simpl in E.
  rewrite orb_true_r in E. discriminate.
Qed.

Lemma get_in_entries :
  forall (o : JsObject.t (list string)) k v, JsObject.get k o = Some v -> In (k, v) o.
Proof.
  induction o as [|[k' v'] o IH]; simpl; intros k v H; [discriminate|].
  destruct (String.eqb_spec k k') as [->|]; [left; congruence | right; auto].
Qed.

Lemma includedModulesOf_get :
  forall w a r rel k,
    In k (JsObject.keys (includedModulesOf w a r rel)) ->
    JsObject.get k (includedModulesOf w a r rel) = Some ["default"].
Proof.
  intros w a r rel k H.
  destruct (JsObjectFacts.in_keys_get _ _ H) as (v & Hv).
  rewrite Hv. f_equal.
  eapply includedModulesOf_values. apply get_in_entries. exact Hv.
Qed.

Lemma append_slash_neq : forall mn rest, mn ++ String "/" rest <> mn.
Proof.
  intros mn rest E. apply (f_equal String.length) in E.
  rewrite StringFacts.length_append in E. simpl in E. lia.
Qed.

(** [includedModules()] for a module name without [$], when the globbed
    directory is spelt as the source's [treePath]: every matched file
    [<stem><ext>] is listed as [<moduleName>/<stem>] exporting [default];
    the bare [<moduleName>] is listed exactly when [<moduleName>/index] is;
    and nothing else is listed. *)
Lemma includedModulesOf_canonical :
  forall w a r,
    let mn := moduleNameOf a in
    let treePath := addonTreePath r "addon" in
    let exts := extensionsForJs (registry a) in
    let m := includedModulesOf w a r "addon" in
    JsString.contains "$" mn = false ->
    mn <> "__proto__" ->
    Path.dirname (Path.dirname (Path.join treePath (jsFileGlobOf (registry a)))) = treePath ->
    JsString.endsWithSlash treePath = false ->
    (forall f,
        In f (filesBelow w treePath) ->
        Glob.matchesJsFileGlob exts f = true ->
        exists stem,
          f = stem ++ Path.extname f
          /\ Path.extname f <> ""
          /\ JsObject.get (mn ++ "/" ++ stem) m = Some ["default"])
    /\ (JsObject.get mn m = Some ["default"] <-> In (mn ++ "/index") (JsObject.keys m))
    /\ (forall k,
           In k (JsObject.keys m) ->
           k = mn
           \/ exists f stem,
               In f (filesBelow w treePath)
               /\ Glob.matchesJsFileGlob exts f = true
               /\ f = stem ++ Path.extname f
               /\ k = mn ++ "/" ++ stem).
Proof.
  intros w a r mn treePath exts m Hmn Hown Hdir Hslash.
  set (found := globbedFiles w a r "addon").
  assert (Hfound : found = map (fun f => treePath ++ "/" ++ f)
                               (filter (Glob.matchesJsFileGlob exts) (filesBelow w treePath))).
  { unfold found, globbedFiles, Glob.sync. fold treePath. rewrite Hdir, Hslash. reflexivity. }
  set (m0 := collectOf treePath mn found JsObject.empty).
  assert (Hm : m = if JsObject.has (mn ++ "/index") m0
                   then JsObject.set mn ["default"] m0 else m0) by reflexivity.
  assert (Hkeys0 : forall k, In k (JsObject.keys m0) <->
                             exists f, In f (filesBelow w treePath)
                                       /\ Glob.matchesJsFileGlob exts f = true
                                       /\ k = moduleKey treePath mn (treePath ++ "/" ++ f)).
  { intros k. unfold m0. rewrite collectOf_keys.
    2:{ intros p Hin. rewrite Hfound in Hin. apply in_map_iff in Hin.
        destruct Hin as (f & <- & Hf). apply filter_In in Hf. destruct Hf as (_ & Hf).
        destruct (@moduleKey_matched exts treePath mn f Hmn Hf) as (stem & _ & _ & ->).
        apply slash_name_own. }
    rewrite Hfound. simpl. split.
    - intros [[] | (p & Hin & ->)]. apply in_map_iff in Hin.
      destruct Hin as (f & <- & Hf). apply filter_In in Hf. destruct Hf. eauto.
    - intros (f & Hin & Hf & ->). right. eexists. split; [|reflexivity].
      apply in_map_iff. exists f. split; [reflexivity|]. apply filter_In. auto. }
  assert (Hsub : forall k, In k (JsObject.keys m0) -> In k (JsObject.keys m)).
  { intros k Hk. rewrite Hm. destruct (JsObject.has _ m0); [|exact Hk].
    now apply JsObjectFacts.in_keys_set_old. }
  assert (Hnot : ~ In mn (JsObject.keys m0)).
  { intros Hin. apply Hkeys0 in Hin. destruct Hin as (f & _ & Hf & E).
    destruct (@moduleKey_matched exts treePath mn f Hmn Hf) as (stem & _ & _ & Hk).
    rewrite Hk in E. symmetry in E. now apply append_slash_neq in E. }
  split; [|split].
  - intros f Hin Hf.
    destruct (@moduleKey_matched exts treePath mn f Hmn Hf) as (stem & Hstem & Hext & Hk).
    exists stem. split; [exact Hstem|]. split; [exact Hext|].
    apply includedModulesOf_get. apply Hsub. apply Hkeys0.
    exists f. rewrite Hk. auto.
  - split.
    + intros Hget. apply JsObjectFacts.get_in_keys in Hget.
      rewrite Hm in Hget |- *. destruct (JsObject.has (mn ++ "/index") m0) eqn:Hhas.
      * apply JsObjectFacts.in_keys_set_old. now apply JsObjectFacts.has_true_iff.
      * contradiction.
    + intros Hin. apply includedModulesOf_get. fold m.
      rewrite Hm in Hin |- *. destruct (JsObject.has (mn ++ "/index") m0) eqn:Hhas.
      * apply JsObjectFacts.in_keys_set; auto.
      * apply JsObjectFacts.has_true_iff in Hin. congruence.
  - intros k Hk. rewrite Hm in Hk.
    assert (Hk' : In k (JsObject.keys m0) \/ k = mn).
    { destruct (JsObject.has _ m0); [|auto].
      apply JsObjectFacts.in_keys_set_inv in Hk. tauto. }
    destruct Hk' as [Hk' | ->]; [|auto]. right.
    apply Hkeys0 in Hk'. destruct Hk' as (f & Hin & Hf & ->).
    destruct (@moduleKey_matched exts treePath mn f Hmn Hf) as (stem & Hstem & _ & Hkey).
    exists f, stem. auto.
Qed.

(** ** The globbed directory of an addon with a normalised root *)
Module TreePathFacts.
Import JsString Path StringFacts PathFacts.
Local Arguments Ascii.eqb : simpl never.

Lemma endsWithSlash_append :
  forall a b, b <> "" -> endsWithSlash (a ++ b) = endsWithSlash b.
Proof.
  induction a as [|c a IH]; intros b Hb; [reflexivity|].
  simpl. rewrite IH by exact Hb.
  destruct (a ++ b) eqn:E; [|reflexivity].
  destruct a; simpl in E; [contradiction | discriminate].
Qed.

Lemma endsWithSlash_plain :
  forall s, contains "/" s = false -> endsWithSlash s = false.
Proof.
  induction s as [|c s IH]; simpl; intros H; [reflexivity|].
  apply orb_false_iff in H. destruct H as [Hc Hs].
  destruct s; [now rewrite Ascii.eqb_sym | now apply IH].
Qed.

Lemma normalSegment_plain :
  forall s, normalSegment s = true -> contains "/" s = false.
Proof.
  intros s H. unfold normalSegment in H.
  repeat (apply andb_true_iff in H; destruct H as [H ?]).
  now apply negb_true_iff.
Qed.

Lemma joinSlash_nonEmpty :
  forall x l, nonEmpty x = true -> nonEmpty (joinSlash (x :: l)) = true.
Proof.
  intros x l H. destruct x; [discriminate|]. destruct l; reflexivity.
Qed.

(** Joining a normalised absolute directory with normalised relative
    portions appends them. *)
Lemma join_in_directory :
  forall segs bs,
    forallb normalSegment segs = true ->
    forallb normalSegment bs = true ->
    bs <> [] ->
    Path.join ("/" ++ joinSlash segs) (joinSlash bs) = "/" ++ joinSlash (segs ++ bs).
Proof.
  intros segs bs Hsegs Hbs Hne. unfold Path.join.
  destruct bs as [|b bs]; [contradiction|].
  assert (Hb : normalSegment b = true).
  { simpl in Hbs. apply andb_true_iff in Hbs. tauto. }
  simpl filter. rewrite (joinSlash_nonEmpty b bs (normalSegment_nonEmpty _ Hb)).
  change (joinSlash [String "/" (joinSlash segs); joinSlash (b :: bs)])
    with (String "/" (joinSlash segs ++ String "/" (joinSlash (b :: bs)))).
  unfold normalize.
  assert (Hseg : segments (String "/" (joinSlash segs ++ String "/" (joinSlash (b :: bs))))
                 = (segs ++ b :: bs)%list).
  { change (String "/" (joinSlash segs ++ String "/" (joinSlash (b :: bs))))
      with ("" ++ String "/" (joinSlash segs ++ String "/" (joinSlash (b :: bs)))).
    rewrite segments_append, segments_append,
      (segments_joinSlash _ Hsegs), (segments_joinSlash _ Hbs).
    reflexivity. }
  rewrite Hseg. simpl startsWithSlash. cbv iota. simpl negb.
  unfold normalizeArray.
  rewrite normalizeScan_normal by (rewrite forallb_app, Hsegs, Hbs; reflexivity).
  rewrite andb_false_r.
  assert (Hend : endsWithSlash (String "/" (joinSlash segs ++ String "/" (joinSlash (b :: bs))))
                 = false).
  { replace (String "/" (joinSlash segs ++ String "/" (joinSlash (b :: bs))))
      with (("/" ++ joinSlash segs ++ "/") ++ joinSlash (b :: bs))
      by (simpl; now rewrite append_assoc).
    - rewrite endsWithSlash_append.
      + clear Hseg Hne. revert b Hb Hbs.
        induction bs as [|b' bs IH]; intros b Hb Hbs.
        * simpl. apply endsWithSlash_plain. now apply normalSegment_plain.
        * replace (joinSlash (b :: b' :: bs)) with ((b ++ "/") ++ joinSlash (b' :: bs))
            by (now rewrite append_assoc).
          simpl in Hbs. apply andb_true_iff in Hbs. destruct Hbs as [_ Hbs].
          assert (Hb' : normalSegment b' = true).
          { simpl in Hbs. apply andb_true_iff in Hbs. tauto. }
          rewrite endsWithSlash_append.
          -- apply IH; [exact Hb' | exact Hbs].
          -- intros E. pose proof (joinSlash_nonEmpty b' bs (normalSegment_nonEmpty _ Hb')) as N.
             rewrite E in N. discriminate.
      + intros E. pose proof (joinSlash_nonEmpty b bs (normalSegment_nonEmpty _ Hb)) as N.
        rewrite E in N. discriminate. }
  rewrite Hend, andb_false_r. reflexivity.
Qed.

Lemma dropTrailingSlashes_id :
  forall s, endsWithSlash s = false -> dropTrailingSlashes s = s.
Proof.
  induction s as [|c s IH]; simpl; intros H; [reflexivity|].
  destruct s as [|d s].
  - simpl. now rewrite H.
  - rewrite IH by exact H. reflexivity.
Qed.

Lemma uptoLastSlash_append :
  forall a x, contains "/" x = false -> uptoLastSlash (a ++ String "/" x) = a ++ "/".
Proof.
  induction a as [|c a IH]; intros x Hx.
  - simpl. now rewrite Hx.
  - simpl. rewrite contains_append. simpl. rewrite orb_true_r.
    now rewrite IH.
Qed.

(** The directory of a normalised absolute path with at least two
    portions is the path without its last portion. *)
Lemma dirname_in_directory :
  forall segs x,
    segs <> [] ->
    forallb normalSegment segs = true ->
    normalSegment x = true ->
    Path.dirname ("/" ++ joinSlash (segs ++ [x])) = "/" ++ joinSlash segs.
Proof.
  intros segs x Hne Hsegs Hx.
  rewrite joinSlash_snoc by exact Hne.
  unfold Path.dirname.
  assert (Hend : endsWithSlash ("/" ++ joinSlash segs ++ "/" ++ x) = false).
  { change ("/" ++ joinSlash segs ++ "/" ++ x) with ("/" ++ joinSlash segs ++ String "/" x).
    rewrite <- (append_assoc "/" (joinSlash segs) (String "/" x)).
    change (String "/" x) with ("/" ++ x). rewrite <- append_assoc.
    rewrite endsWithSlash_append.
    - apply endsWithSlash_plain. now apply normalSegment_plain.
    - intros ->. discriminate. }
  rewrite (dropTrailingSlashes_id _ Hend).
  change ("/" ++ joinSlash segs ++ "/" ++ x) with (("/" ++ joinSlash segs) ++ String "/" x).
  rewrite uptoLastSlash_append by (now apply normalSegment_plain).
  destruct segs as [|s segs]; [contradiction|].
  simpl in Hsegs. apply andb_true_iff in Hsegs. destruct Hsegs as [Hs _].
  pose proof (normalSegment_nonEmpty _ Hs) as Hsne.
  pose proof (normalSegment_noSlash _ Hs) as Hsns.
  assert (Hj : exists c r, joinSlash (s :: segs) = String c r /\ Ascii.eqb c "/" = false).
  { destruct s as [|c s]; [discriminate|]. simpl in Hsns. exists c.
    destruct segs as [|y l].
    - exists s. split; [reflexivity | exact Hsns].
    - exists (s ++ String "/" (joinSlash (y :: l))). split; [reflexivity | exact Hsns]. }
  destruct Hj as (c & r & Hj & Hc). rewrite Hj.
  assert (E1 : ((("/" ++ String c r) ++ "/") =? "") = false) by reflexivity.
  assert (E2 : ((("/" ++ String c r) ++ "/") =? "/") = false) by reflexivity.
  assert (E3 : ((("/" ++ String c r) ++ "/") =? "//") = false).
  { apply String.eqb_neq. intros E. simpl in E. injection E as E _.
    subst c. discriminate. }
  rewrite E1, E2, E3.
  change 1 with (String.length "/").
  apply sliceDropLast_append. discriminate.
Qed.

Lemma backslashesToSlashes_id :
  forall s, contains "\" s = false -> backslashesToSlashes s = s.
Proof.
  induction s as [|c s IH]; simpl; intros H; [reflexivity|].
  apply orb_false_iff in H. destruct H as [Hc Hs].
  rewrite Ascii.eqb_sym in Hc. now rewrite Hc, IH.
Qed.

(** The glob of a registry whose extensions have no slash is two
    normalised portions. *)
Lemma jsFileGlob_portions :
  forall reg,
    contains "/" (String.concat "|" (extensionsForJs reg)) = false ->
    exists g, jsFileGlobOf reg = joinSlash ["**"; g] /\ normalSegment g = true.
Proof.
  intros reg H. exists ("*.+(" ++ String.concat "|" (extensionsForJs reg) ++ ")").
  split; [reflexivity|].
  unfold normalSegment. simpl nonEmpty.
  rewrite contains_append, contains_append, H. reflexivity.
Qed.

(** For a normalised absolute root without backslashes, the source's
    [treePath] is [<root>/addon] and [glob] reports paths below exactly
    that spelling. *)
Lemma addonTreePath_normal :
  forall reg segs,
    segs <> [] ->
    forallb normalSegment segs = true ->
    contains "\" ("/" ++ joinSlash segs) = false ->
    contains "/" (String.concat "|" (extensionsForJs reg)) = false ->
    let treePath := addonTreePath ("/" ++ joinSlash segs) "addon" in
    treePath = "/" ++ joinSlash segs ++ "/addon"
    /\ Path.dirname (Path.dirname (Path.join treePath (jsFileGlobOf reg))) = treePath
    /\ endsWithSlash treePath = false.
Proof.
  intros reg segs Hne Hsegs Hback Hexts treePath.
  assert (Haddon : forallb normalSegment (segs ++ ["addon"]) = true).
  { rewrite forallb_app, Hsegs. reflexivity. }
  assert (Htp : treePath = "/" ++ joinSlash (segs ++ ["addon"])).
  { unfold treePath, addonTreePath.
    change "addon" with (joinSlash ["addon"]) at 1.
    rewrite join_in_directory by (try reflexivity; try discriminate; assumption).
    apply backslashesToSlashes_id.
    rewrite joinSlash_snoc by exact Hne.
    change ("/" ++ joinSlash segs ++ "/" ++ "addon")
      with ("/" ++ joinSlash segs ++ "/addon").
    rewrite <- append_assoc, contains_append, Hback. reflexivity. }
  split; [|split].
  - rewrite Htp, joinSlash_snoc by exact Hne. reflexivity.
  - destruct (jsFileGlob_portions reg Hexts) as (g & -> & Hg).
    rewrite Htp.
    rewrite join_in_directory; try assumption; try discriminate.
    2:{ simpl. now rewrite Hg. }
    change (((segs ++ ["addon"]) ++ ["**"; g])%list)
      with (((segs ++ ["addon"]) ++ ["**"] ++ [g])%list).
    rewrite app_assoc.
    rewrite dirname_in_directory.
    + rewrite dirname_in_directory; try assumption; try reflexivity.
      intros E. apply app_eq_nil in E. destruct E. discriminate.
    + intros E. apply app_eq_nil in E. destruct E. discriminate.
    + rewrite forallb_app, Haddon. reflexivity.
    + exact Hg.
  - rewrite Htp, joinSlash_snoc by exact Hne.
    change ("/" ++ joinSlash segs ++ "/" ++ "addon")
      with ("/" ++ joinSlash segs ++ "/addon").
    rewrite <- append_assoc. rewrite endsWithSlash_append; [reflexivity | discriminate].
Qed.
End TreePathFacts.

(** C2 for module names without [$] and other than [__proto__]: on a
    constructed instance whose root is a normalised absolute path (no
    backslash; extensions without a slash), the first [includedModules()]
    lists every file [<stem><ext>]
    that matches the JS glob below [<root>/addon] as [<moduleName>/<stem>]
    exporting [default], adds the bare [<moduleName>] exactly when
    [<moduleName>/index] is listed, and lists nothing else. *)
Lemma includedModules_canonical_names :
  forall (w : World) (a : Addon) (o : option App) (segs : list string),
    asConstructed a ->
    segs <> [] ->
    forallb normalSegment segs = true ->
    root a = Some ("/" ++ JsString.joinSlash segs) ->
    JsString.contains "\" ("/" ++ JsString.joinSlash segs) = false ->
    JsString.contains "/" (String.concat "|" (extensionsForJs (registry a))) = false ->
    JsString.contains "$" (moduleNameOf a) = false ->
    moduleNameOf a <> "__proto__" ->
    let mn := moduleNameOf a in
    let dir := "/" ++ JsString.joinSlash segs ++ "/addon" in
    let exts := extensionsForJs (registry a) in
    exists m,
      fst (includedModules w {| self := a; owner := o |}) = inr m
      /\ (forall f,
             In f (filesBelow w dir) ->
             Glob.matchesJsFileGlob exts f = true ->
             exists stem,
               f = stem ++ Path.extname f
               /\ Path.extname f <> ""
               /\ JsObject.get (mn ++ "/" ++ stem) m = Some ["default"])
      /\ (JsObject.get mn m = Some ["default"] <-> In (mn ++ "/index") (JsObject.keys m))
      /\ (forall k,
             In k (JsObject.keys m) ->
             k = mn
             \/ exists f stem,
                 In f (filesBelow w dir)
                 /\ Glob.matchesJsFileGlob exts f = true
                 /\ f = stem ++ Path.extname f
                 /\ k = mn ++ "/" ++ stem).
Proof.
  intros w a o segs (Htp & Htm & Hmemo) Hne Hsegs Hroot Hback Hexts Hdollar Hown mn dir exts.
  destruct (@TreePathFacts.addonTreePath_normal (registry a) segs Hne Hsegs Hback Hexts)
    as (Hdir & Hglob & Hslash).
  destruct (@includedModules_miss w {| self := a; owner := o |}
              ("/" ++ JsString.joinSlash segs) "addon" Hmemo Hroot)
    as (a' & Hrun & _).
  { simpl. rewrite Htp. reflexivity. }
  simpl in Hrun.
  exists (includedModulesOf w a ("/" ++ JsString.joinSlash segs) "addon").
  split; [rewrite Hrun; reflexivity|].
  pose proof (@includedModulesOf_canonical w a ("/" ++ JsString.joinSlash segs)
                Hdollar Hown Hglob Hslash) as H.
  cbv zeta in H. rewrite Hdir in H. exact H.
Qed.

(** The lemma applies to the addon [x] of the examples. *)
Lemma includedModules_canonical_names_x :
  exists m,
    fst (includedModules Examples.world Examples.heapX) = inr m
    /\ (JsObject.get "x" m = Some ["default"] <-> In "x/index" (JsObject.keys m)).
Proof.
  destruct (@includedModules_canonical_names
              Examples.world Examples.addonX (Some Examples.theApp) ["lib"; "x"])
    as (m & Hrun & _ & Halias & _).
  - repeat split.
  - discriminate.
  - vm_compute. reflexivity.
  - reflexivity.
  - vm_compute. reflexivity.
  - vm_compute. reflexivity.
  - vm_compute. reflexivity.
  - discriminate.
  - exists m. split; [exact Hrun | exact Halias].
Qed.

(** Right after construction from a definition without a module prefix
    the first [moduleName()] is the slug of the name. *)
Lemma moduleName_after_construct :
  forall w d p a o,
    construct w d p = inr a ->
    truthy (defModulePrefix d) = false ->
    fst (moduleName {| self := a; owner := o |}) = inr (slug (name a)).
Proof.
  intros w d p a o H Hd.
  destruct (construct_inversion _ _ _ H) as (c & n & _ & _ & _ & _ & _ & Hmp & _).
  rewrite moduleName_memo_miss by (simpl; now rewrite Hmp). reflexivity.
Qed.

(** * Further properties of the code *)

(** ** [moduleName]: the shape of the result *)

Lemma contains_mapChars :
  forall f c s, JsString.contains c (mapChars f s) = true -> exists d, c = f d.
Proof.
  intros f c. induction s as [|d s IH]; simpl; intros H; [discriminate|].
  apply orb_true_iff in H. destruct H as [H|H]; [|auto].
  exists d. now apply Ascii.eqb_eq.
Qed.

Lemma slugChar_clean :
  forall d, JsString.isWhitespace (slugChar d) = false
            /\ JsString.lowerChar (slugChar d) = slugChar d
            /\ slugChar (slugChar d) = slugChar d.
Proof.
  intros d. destruct d as [[] [] [] [] [] [] [] []]; repeat split.
Qed.

Lemma slug_idempotent : forall n, slug (slug n) = slug n.
Proof.
  intros n. rewrite !slug_charwise.
  induction n as [|c n IH]; simpl; [reflexivity|].
  rewrite IH. f_equal. apply slugChar_clean.
Qed.

(** X1: on an instance built from a definition that supplies no module
    prefix, the module name contains no whitespace character and no
    character that lowercasing would change, and normalising it again
    changes nothing. *)
Theorem moduleName_is_normalised :
  forall (w : World) (d : Definition_) (p : Project) (a : Addon) (o : option App),
    construct w d p = inr a ->
    truthy (defModulePrefix d) = false ->
    exists mn,
      fst (moduleName {| self := a; owner := o |}) = inr mn
      /\ (forall c, JsString.contains c mn = true ->
                    JsString.isWhitespace c = false /\ JsString.lowerChar c = c)
      /\ slug mn = mn.
Proof.
  intros w d p a o H Hd. exists (slug (name a)).
  split; [exact (@moduleName_after_construct w d p a o H Hd)|].
  split; [|apply slug_idempotent].
  intros c Hc. rewrite slug_charwise in Hc.
  destruct (contains_mapChars _ _ _ Hc) as (d0 & ->).
  split; apply slugChar_clean.
Qed.

Lemma moduleName_is_normalised_witness :
  exists mn,
    fst (moduleName LintExample.heap) = inr mn
    /\ JsString.contains " " mn = false
    /\ JsString.contains "M" mn = false.
Proof.
  destruct (@moduleName_is_normalised
              LintExample.world PrefixExample.plain
              Examples.theProject LintExample.myAddon (Some Examples.theApp)
              eq_refl eq_refl)
    as (mn & Hrun & Hclean & _).
  exists mn. split; [exact Hrun|]. split.
  - destruct (JsString.contains " " mn) eqn:E; [|reflexivity].
    destruct (Hclean " "%char E) as (Hws & _). discriminate.
  - destruct (JsString.contains "M" mn) eqn:E; [|reflexivity].
    destruct (Hclean "M"%char E) as (_ & Hlow). discriminate.
Defined.

(** ** [includedModules]: the memo *)

Lemma includedModules_memo_after :
  forall w h m,
    fst (includedModules w h) = inr m ->
    includedModulesMemo (self (snd (includedModules w h))) = Some m.
Proof.
  intros w h m H.
  destruct (includedModulesMemo (self h)) as [m0|] eqn:Hmemo.
  - rewrite (includedModules_hit w h Hmemo) in *. simpl in *. congruence.
  - destruct (root (self h)) as [r|] eqn:Hroot.
    + destruct (JsObject.get "addon" (treePaths (self h))) as [rel|] eqn:Hrel.
      * destruct (includedModules_miss w h Hmemo Hroot Hrel) as (a' & Hrun & _ & Hm).
        rewrite Hrun in *. simpl in *. congruence.
      * exfalso. revert H. unfold includedModules, bind, getSelf. simpl.
        rewrite Hmemo, Hroot, Hrel. discriminate.
    + exfalso. revert H. unfold includedModules, bind, getSelf. simpl.
      rewrite Hmemo, Hroot. discriminate.
Qed.

(** X2: once [includedModules()] has returned, every later call on the
    instance returns the same object and changes nothing, whatever the
    file system, the working directory or [this.app] have become. *)
Theorem includedModules_memoised :
  forall (w w' : World) (h : Heap) (m : JsObject.t (list string)) (o' : option App),
    fst (includedModules w h) = inr m ->
    let h1 := {| self := self (snd (includedModules w h)); owner := o' |} in
    includedModules w' h1 = (inr m, h1).
Proof.
  intros w w' h m o' H h1. apply includedModules_hit.
  exact (includedModules_memo_after w h H).
Qed.

Lemma includedModules_memoised_witness :
  fst (includedModules LintExample.world
         {| self := self (snd (includedModules Examples.world Examples.heapX));
            owner := None |})
  = inr [ ("x/bar/baz", ["default"]); ("x/foo", ["default"]);
          ("x/index", ["default"]); ("x", ["default"]) ].
Proof.
  rewrite (@includedModules_memoised Examples.world LintExample.world Examples.heapX
             [ ("x/bar/baz", ["default"]); ("x/foo", ["default"]);
               ("x/index", ["default"]); ("x", ["default"]) ] None eq_refl).
  reflexivity.
Defined.

(** ** The whitelist after a whole pass *)

Lemma assign_app :
  forall (t s1 s2 : JsObject.t (list string)),
    JsObject.assign t (s1 ++ s2)%list = JsObject.assign (JsObject.assign t s1) s2.
Proof. intros t s1 s2. unfold JsObject.assign. apply fold_left_app. Qed.

Lemma contribution_values :
  forall w a k v, In (k, v) (contribution w a) -> v = ["default"].
Proof.
  intros w a k v. unfold contribution. destruct (root a).
  - apply includedModulesOf_values.
  - intros [].
Qed.

(** What one call of [compileAddon] leaves in the whitelist. *)
Lemma compileAddon_whitelist_after :
  forall w d t a app,
    asConstructed a ->
    exists app',
      owner (snd (compileAddon w (S d) t {| self := a; owner := Some app |})) = Some app'
      /\ importWhitelist app'
         = JsObject.assign (importWhitelist app) (contribution w a).
Proof.
  intros w d t a app Hc. unfold contribution.
  destruct (root a) as [r|] eqn:Hroot.
  - destruct (@compileAddon_yields w d t a app r Hc Hroot) as (a' & o' & Hrun & _ & ->).
    rewrite Hrun. simpl. eexists. split; [reflexivity|].
    destruct (includedModulesOf w a r "addon") as [|kv m] eqn:Hm; reflexivity.
  - destruct (@compileAddon_no_root w d t a app Hc Hroot) as (a' & ->).
    exists app. split; reflexivity.
Qed.

Lemma compilePass_whitelist :
  forall w d addons app,
    Forall (fun at_ => asConstructed (fst at_)) addons ->
    importWhitelist (snd (compilePass w (S d) addons app))
    = JsObject.assign (importWhitelist app)
                      (flat_map (fun at_ => contribution w (fst at_)) addons).
Proof.
  intros w d addons app Hall. revert app.
  induction Hall as [|[a t] rest Ha _ IH]; intros app; [reflexivity|].
  simpl compilePass.
  destruct (@compileAddon_whitelist_after w d t a app Ha) as (app' & Ho & Hwl).
  destruct (compileAddon w (S d) t {| self := a; owner := Some app |}) as [res h'].
  simpl in Ho. rewrite Ho.
  specialize (IH app').
  destruct (compilePass w (S d) rest app') as [rs final]. simpl in *.
  rewrite IH, Hwl. symmetry. apply assign_app.
Qed.

Lemma flat_map_values :
  forall w (addons : list (Addon * tree)) k v,
    In (k, v) (flat_map (fun at_ => contribution w (fst at_)) addons) -> v = ["default"].
Proof.
  intros w addons k v H. apply in_flat_map in H. destruct H as (x & _ & H).
  eapply contribution_values. exact H.
Qed.

Lemma in_keys_flat_map :
  forall w (addons : list (Addon * tree)) k,
    In k (JsObject.keys (flat_map (fun at_ => contribution w (fst at_)) addons))
    <-> exists at_, In at_ addons /\ In k (JsObject.keys (contribution w (fst at_))).
Proof.
  intros w addons k. unfold JsObject.keys. rewrite in_map_iff. split.
  - intros ([k' v] & <- & H). apply in_flat_map in H. destruct H as (x & Hx & H).
    exists x. split; [exact Hx|]. apply in_map_iff. exists (k', v). auto.
  - intros (x & Hx & H). apply in_map_iff in H. destruct H as (kv & <- & H).
    exists kv. split; [reflexivity|]. apply in_flat_map. eauto.
Qed.

Lemma flat_map_no_proto :
  forall w (addons : list (Addon * tree)),
    ~ In "__proto__"
         (JsObject.keys (flat_map (fun at_ => contribution w (fst at_)) addons)).
Proof.
  intros w addons H. apply in_keys_flat_map in H. destruct H as (x & _ & H).
  unfold contribution in H. destruct (root (fst x)); [|exact H].
  now apply includedModulesOf_no_proto in H.
Qed.

Lemma flat_map_own_name :
  forall w (addons : list (Addon * tree)) k,
    In k (JsObject.keys (flat_map (fun at_ => contribution w (fst at_)) addons)) ->
    k <> "__proto__".
Proof.
  intros w addons k H ->. now apply (@flat_map_no_proto w addons).
Qed.

(** The value the final whitelist holds under a name. *)
Lemma compilePass_get :
  forall w d addons app k,
    Forall (fun at_ => asConstructed (fst at_)) addons ->
    JsObject.get k (importWhitelist (snd (compilePass w (S d) addons app)))
    = if in_dec string_dec k
           (JsObject.keys (flat_map (fun at_ => contribution w (fst at_)) addons))
      then Some ["default"]
      else JsObject.get k (importWhitelist app).
Proof.
  intros w d addons app k Hall. rewrite compilePass_whitelist by exact Hall.
  destruct (in_dec string_dec k _) as [Hin|Hout].
  - eapply JsObjectFacts.get_assign_const; [| |exact Hin].
    + apply flat_map_values.
    + eapply flat_map_own_name; exact Hin.
  - now apply JsObjectFacts.get_assign_other.
Qed.

(** X3: after a sequential pass over constructed addons the whitelist is
    the initial one with the modules of every addon of the pass assigned
    onto it, in pass order: a name is listed exactly when the application
    had it or some addon of the pass includes it, and every name an addon
    includes ends up exporting just [default]. *)
Theorem compilePass_whitelist_is_union :
  forall (w : World) (d : nat) (addons : list (Addon * tree)) (app : App),
    Forall (fun at_ => asConstructed (fst at_)) addons ->
    let final := importWhitelist (snd (compilePass w (S d) addons app)) in
    final = JsObject.assign (importWhitelist app)
                            (flat_map (fun at_ => contribution w (fst at_)) addons)
    /\ (forall k, In k (JsObject.keys final)
                  <-> In k (JsObject.keys (importWhitelist app))
                      \/ exists at_, In at_ addons
                                     /\ In k (JsObject.keys (contribution w (fst at_))))
    /\ (forall k at_, In at_ addons ->
                      In k (JsObject.keys (contribution w (fst at_))) ->
                      JsObject.get k final = Some ["default"]).
Proof.
  intros w d addons app Hall final.
  assert (Hfinal : final = JsObject.assign (importWhitelist app)
                             (flat_map (fun at_ => contribution w (fst at_)) addons))
    by (apply compilePass_whitelist; exact Hall).
  split; [exact Hfinal|]. split.
  - intros k. rewrite Hfinal.
    rewrite JsObjectFacts.in_keys_assign by apply flat_map_no_proto.
    rewrite in_keys_flat_map. reflexivity.
  - intros k at_ Hat Hk. rewrite Hfinal.
    assert (Hin : In k (JsObject.keys
                          (flat_map (fun at_ => contribution w (fst at_)) addons)))
      by (apply in_keys_flat_map; eauto).
    eapply JsObjectFacts.get_assign_const; [apply flat_map_values | | exact Hin].
    eapply flat_map_own_name; exact Hin.
Qed.

Lemma compilePass_whitelist_is_union_witness :
  importWhitelist
    (snd (compilePass PassExample.world 2 PassExample.icAjaxFirst WhitelistExample.app))
  = [ ("ember", ["default"]); ("ic-ajax", ["default"]); ("ic-ajax/index", ["default"]);
      ("x/bar/baz", ["default"]); ("x/foo", ["default"]); ("x/index", ["default"]);
      ("x", ["default"]) ].
Proof.
  pose proof (@compilePass_whitelist_is_union
                PassExample.world 1 PassExample.icAjaxFirst WhitelistExample.app) as H.
  destruct H as (H & _).
  - repeat constructor.
  - rewrite H. reflexivity.
Defined.

(** X4: which names the whitelist holds after a pass, and with which
    export lists, does not depend on the order in which the addons are
    compiled (only the order of the names does). *)
Theorem compilePass_content_order_independent :
  forall (w : World) (d : nat) (addons addons' : list (Addon * tree)) (app : App) (k : string),
    Forall (fun at_ => asConstructed (fst at_)) addons ->
    (forall at_, In at_ addons <-> In at_ addons') ->
    JsObject.get k (importWhitelist (snd (compilePass w (S d) addons app)))
    = JsObject.get k (importWhitelist (snd (compilePass w (S d) addons' app))).
Proof.
  intros w d addons addons' app k Hall Hsame.
  assert (Hall' : Forall (fun at_ => asConstructed (fst at_)) addons').
  { apply Forall_forall. intros x Hx. apply Hsame in Hx.
    exact (proj1 (Forall_forall _ _) Hall x Hx). }
  rewrite !compilePass_get by assumption.
  destruct (in_dec string_dec k _) as [H1|H1], (in_dec string_dec k _) as [H2|H2];
    try reflexivity; exfalso.
  - apply H2. apply in_keys_flat_map in H1. destruct H1 as (x & Hx & H1).
    apply in_keys_flat_map. exists x. split; [now apply Hsame | exact H1].
  - apply H1. apply in_keys_flat_map in H2. destruct H2 as (x & Hx & H2).
    apply in_keys_flat_map. exists x. split; [now apply Hsame | exact H2].
Qed.

Lemma compilePass_content_order_independent_witness :
  JsObject.get "ic-ajax"
    (importWhitelist
       (snd (compilePass PassExample.world 2 PassExample.xFirst WhitelistExample.app)))
  = JsObject.get "ic-ajax"
      (importWhitelist
         (snd (compilePass PassExample.world 2 PassExample.icAjaxFirst
                           WhitelistExample.app))).
Proof.
  apply (@compilePass_content_order_independent
           PassExample.world 1 PassExample.xFirst PassExample.icAjaxFirst
           WhitelistExample.app "ic-ajax").
  - repeat constructor.
  - intros at_. simpl. tauto.
Defined.

(** ** What a bundle leaves to earlier claimants *)

Lemma compilePass_app :
  forall w depth l1 l2 app,
    compilePass w depth (l1 ++ l2) app
    = ((fst (compilePass w depth l1 app)
        ++ fst (compilePass w depth l2 (snd (compilePass w depth l1 app))))%list,
       snd (compilePass w depth l2 (snd (compilePass w depth l1 app)))).
Proof.
  intros w depth. induction l1 as [|[a t] l1 IH]; intros l2 app.
  - simpl. now destruct (compilePass w depth l2 app).
  - simpl.
    destruct (compileAddon w depth t {| self := a; owner := Some app |}) as [res h'].
    rewrite IH.
    destruct (compilePass w depth l1 _) as [rs1 app1]. simpl.
    destruct (compilePass w depth l2 app1). reflexivity.
Qed.

Lemma compilePass_length :
  forall w depth l app, List.length (fst (compilePass w depth l app)) = List.length l.
Proof.
  intros w depth. induction l as [|[a t] l IH]; intros app; [reflexivity|].
  simpl.
  destruct (compileAddon w depth t {| self := a; owner := Some app |}) as [res h'].
  specialize (IH (match owner h' with Some x => x | None => app end)).
  destruct (compilePass w depth l _). simpl in *. now rewrite IH.
Qed.

(** X5: in a pass, the bundle of an addon that has modules is linked
    with [ignoredModules] equal to the names in the whitelist when its
    turn comes, followed by its own module name: so every name the
    application had, and every module an earlier addon of the pass
    includes, is left out of re-resolution. *)
Theorem later_bundle_ignores_earlier_modules :
  forall (w : World) (d : nat) (before after : list (Addon * tree))
         (a : Addon) (t : tree) (app : App) (r : string),
    Forall (fun at_ => asConstructed (fst at_)) (before ++ (a, t) :: after) ->
    root a = Some r ->
    JsObject.keys (includedModulesOf w a r "addon") <> [] ->
    exists merged o,
      nth_error (fst (compilePass w (S d) (before ++ (a, t) :: after) app))
                (List.length before)
      = Some (inr (Some (CompileES6 merged o)))
      /\ ignoredModules o
         = (JsObject.keys
              (JsObject.assign (importWhitelist app)
                               (flat_map (fun at_ => contribution w (fst at_)) before))
            ++ [moduleNameOf a])%list
      /\ (forall k, In k (JsObject.keys (importWhitelist app)) -> In k (ignoredModules o))
      /\ (forall b k, In b before ->
                      In k (JsObject.keys (contribution w (fst b))) ->
                      In k (ignoredModules o)).
Proof.
  intros w d before after a t app r Hall Hroot Hkeys.
  apply Forall_app in Hall. destruct Hall as [Hbefore Hrest].
  inversion Hrest as [|x l Ha Hafter]; subst. simpl in Ha.
  rewrite compilePass_app. cbn [fst].
  rewrite nth_error_app2 by (rewrite compilePass_length; lia).
  rewrite compilePass_length, Nat.sub_diag.
  pose proof (@compilePass_whitelist w d before app Hbefore) as Hwl.
  set (app1 := snd (compilePass w (S d) before app)) in *.
  destruct (@compileAddon_yields w d t a app1 r Ha Hroot) as (a' & o' & Hrun & _).
  simpl compilePass. rewrite Hrun.
  destruct (JsObject.keys (includedModulesOf w a r "addon")) eqn:E; [contradiction|].
  destruct (compilePass w (S d) after _) as [rs final]. simpl.
  eexists _, _. split; [reflexivity|]. simpl. rewrite Hwl.
  split; [reflexivity|]. split.
  - intros k Hk. apply in_or_app. left. now apply JsObjectFacts.in_keys_assign_old.
  - intros b k Hb Hk. apply in_or_app. left.
    apply JsObjectFacts.in_keys_assign; [apply flat_map_no_proto|].
    right. apply in_keys_flat_map. eauto.
Qed.

Lemma later_bundle_ignores_earlier_modules_witness :
  exists merged o,
    nth_error (fst (compilePass PassExample.world 2 PassExample.icAjaxFirst
                                Examples.theApp)) 1
    = Some (inr (Some (CompileES6 merged o)))
    /\ In "ember" (ignoredModules o)
    /\ In "ic-ajax/index" (ignoredModules o).
Proof.
  destruct (@later_bundle_ignores_earlier_modules
              PassExample.world 1
              [(WhitelistExample.icAjax, WhitelistExample.addonTree)] []
              Examples.addonX (UnwatchedTree "/lib/x/addon") Examples.theApp "/lib/x")
    as (merged & o & Hnth & _ & Happ & Hearlier).
  - repeat constructor.
  - reflexivity.
  - vm_compute. discriminate.
  - exists merged, o. split; [exact Hnth|]. split.
    + apply Happ. vm_compute. auto.
    + apply (Hearlier (WhitelistExample.icAjax, WhitelistExample.addonTree)).
      * now left.
      * vm_compute. auto.
Defined.

(** ** The resolver: errors, and what [lookup] hands to the constructor *)

(** X6: a manifest with neither a legacy [ember-addon-main] nor an
    [ember-addon] object makes [resolvePath] raise a [TypeError] (it reads
    [.main] of [undefined]) without printing a notice, and [lookup] raises
    the same error before touching the file system or loading anything. *)
Theorem resolvePath_without_manifest_object_raises :
  forall (w : World) (addon : AddonRef),
    truthy (emberAddonMain (pkg addon)) = false ->
    emberAddon (pkg addon) = None ->
    resolvePath w addon = ([], inl (TypeError "Cannot read property 'main' of undefined"))
    /\ lookup w addon = ([], inl (TypeError "Cannot read property 'main' of undefined")).
Proof.
  intros w addon Hlegacy Hea.
  assert (H : resolvePath w addon
              = ([], inl (TypeError "Cannot read property 'main' of undefined"))).
  { unfold resolvePath, chooseMain, deprecate. now rewrite Hlegacy, Hea. }
  split; [exact H|]. unfold lookup. now rewrite H.
Qed.

Lemma resolvePath_without_manifest_object_raises_witness :
  lookup Examples.world
         {| addonPath := "/work/app/node_modules/bare";
            pkg := {| pkgName := "bare"; emberAddonMain := None; emberAddon := None |} |}
  = ([], inl (TypeError "Cannot read property 'main' of undefined")).
Proof.
  apply (@resolvePath_without_manifest_object_raises
           Examples.world
           {| addonPath := "/work/app/node_modules/bare";
              pkg := {| pkgName := "bare"; emberAddonMain := None; emberAddon := None |} |});
    reflexivity.
Defined.

(** X7: the constructor [lookup] synthesises for a missing entry file can
    always be instantiated: construction does not raise, and the instance
    is named ["(generated <package name> addon)"], is rooted at the
    directory of the resolved entry path, and has the constructor's fixed
    tables and empty memos. *)
Theorem lookup_generated_constructs :
  forall (w : World) (addon : AddonRef) (p : string) (proj : Project),
    snd (resolvePath w addon) = inr p ->
    existsSync w p = false ->
    exists d a,
      snd (lookup w addon) = inr (VFunction d true)
      /\ construct w d proj = inr a
      /\ name a = "(generated " ++ pkgName (pkg addon) ++ " addon)"
      /\ root a = Some (Path.dirname p)
      /\ asConstructed a
      /\ modulePrefix a = None
      /\ customMethods a = [].
Proof.
  intros w addon p proj Hres Hmiss. unfold lookup.
  destruct (resolvePath w addon) as [notices [e|p']]; simpl in Hres; try discriminate.
  injection Hres as ->. rewrite Hmiss.
  eexists _, _. split; [reflexivity|]. simpl. repeat split.
Qed.

Lemma lookup_generated_constructs_witness :
  exists d a,
    snd (lookup Examples.world LookupExample.manifestOnly) = inr (VFunction d true)
    /\ construct Examples.world d Examples.theProject = inr a
    /\ name a = "(generated ember-foo addon)".
Proof.
  destruct (@lookup_generated_constructs
              Examples.world LookupExample.manifestOnly
              "/work/app/node_modules/ember-foo/index.js" Examples.theProject
              eq_refl eq_refl)
    as (d & a & H1 & H2 & H3 & _).
  exists d, a. auto.
Defined.

(** X8: when the entry file exists and loads, [lookup] never checks the
    module's name.  It returns a function that carries the module's
    [name], [modulePrefix] and methods unchanged: for an exported object
    a class made by [Addon.extend], with the object's own root when it
    has one (even an empty one) and the entry file's directory otherwise;
    for an exported function that function itself, its prototype's root
    replaced by the entry file's directory when it had none or an empty
    one.  When what is returned is a class made by [Addon.extend] (always
    so for an exported object), instantiating it raises the configuration
    error exactly when the module gave no, or an empty, name; what [new]
    does with any other exported function is not decided here. *)
Theorem lookup_passes_module_definition :
  forall (w : World) (addon : AddonRef) (p : string) (v : value) (proj : Project),
    snd (resolvePath w addon) = inr p ->
    existsSync w p = true ->
    requireModule w p = inr v ->
    let given := match v with VFunction d _ => d | VObject d => d end in
    let derived := match v with VFunction _ b => b | VObject _ => true end in
    exists d,
      snd (lookup w addon) = inr (VFunction d derived)
      /\ defName d = defName given
      /\ defModulePrefix d = defModulePrefix given
      /\ defMethods d = defMethods given
      /\ defRoot d
         = match v, defRoot given with
           | VFunction _ _, Some (String c r) => Some (String c r)
           | VObject _, Some r => Some r
           | _, _ => Some (Path.dirname p)
           end
      /\ (derived = true ->
          truthy (defName given) = false ->
          instantiate w (VFunction d derived) proj
          = Some (inl (SilentError "An addon must define a `name` property.")))
      /\ (derived = true ->
          truthy (defName given) = true ->
          exists a, instantiate w (VFunction d derived) proj = Some (inr a)
                    /\ defName given = Some (name a)
                    /\ root a = defRoot d
                    /\ modulePrefix a = defModulePrefix given)
      /\ (derived = false -> instantiate w (VFunction d derived) proj = None).
Proof.
  intros w addon p v proj Hres Hex Hreq given derived. unfold lookup.
  destruct (resolvePath w addon) as [notices [e|p']]; simpl in Hres; try discriminate.
  injection Hres as ->. rewrite Hex, Hreq.
  destruct v as [d0 b|d0]; simpl in given, derived; subst given derived.
  - eexists. split; [reflexivity|].
    split; [reflexivity|]. split; [reflexivity|]. split; [reflexivity|].
    split; [|split; [|split]].
    + simpl. destruct (defRoot d0) as [[|c r]|]; reflexivity.
    + intros -> Hn. unfold instantiate, construct. simpl.
      destruct (defName d0) as [[|c n]|]; try reflexivity. discriminate.
    + intros -> Hn. unfold instantiate, construct. simpl.
      destruct (defName d0) as [[|c n]|]; try discriminate.
      eexists. split; [reflexivity|]. repeat split.
    + intros ->. reflexivity.
  - eexists. split; [reflexivity|].
    split; [reflexivity|]. split; [reflexivity|]. split; [reflexivity|].
    split; [|split; [|split]].
    + simpl. destruct (defRoot d0); reflexivity.
    + intros _ Hn. unfold instantiate, construct. simpl.
      destruct (defName d0) as [[|c n]|]; try reflexivity. discriminate.
    + intros _ Hn. unfold instantiate, construct. simpl.
      destruct (defName d0) as [[|c n]|]; try discriminate.
      eexists. split; [reflexivity|]. repeat split.
    + discriminate.
Qed.

Lemma lookup_passes_module_definition_witness :
  exists d,
    snd (lookup LoadExample.world LookupExample.manifestOnly) = inr (VFunction d true)
    /\ defRoot d = Some "/work/app/node_modules/ember-foo"
    /\ instantiate LoadExample.world (VFunction d true) Examples.theProject
       = Some (inl (SilentError "An addon must define a `name` property.")).
Proof.
  destruct (@lookup_passes_module_definition
              LoadExample.world LookupExample.manifestOnly
              "/work/app/node_modules/ember-foo/index.js"
              (VObject {| defName := None; defRoot := None; defModulePrefix := None;
                          defMethods := [] |})
              Examples.theProject eq_refl eq_refl eq_refl)
    as (d & H1 & _ & _ & _ & H4 & H5 & _).
  exists d. split; [exact H1|]. split; [exact H4|]. exact (H5 eq_refl eq_refl).
Defined.

(** ** [treeFor] on the categories without effects *)

Lemma returns_treeForPublic :
  forall t h,
    returns (treeForPublic t) h
            (Some (PickFiles t {| srcDir := "/"; files := None;
                                  destDir := "/" ++ moduleNameOf (self h);
                                  allowEmpty := None |})).
Proof.
  intros t h. unfold treeForPublic.
  eapply returns_bind; [apply returns_requireBuildPackages|]. intros a1 S1 _.
  eapply returns_bind; [apply returns_moduleName|]. intros a2 S2 _.
  config S1. config S2. to_self. apply returns_ret.
Qed.

(** [_treeFor] for a category whose method is not the built-in
    [treeForAddon]. *)
Lemma returns_treeFor_branch :
  forall w d nm rel r h,
    root (self h) = Some r ->
    JsObject.get nm (treePaths (self h)) = Some rel ->
    plainMethod (self h) (JsObject.get nm (treeForMethods (self h))) ->
    returns (_treeFor w (S d) nm) h
            (if existsSync w (Path.join r rel)
             then branchOf (self h) (JsObject.get nm (treeForMethods (self h)))
                           (treeGenerator w (Path.join r rel))
             else None).
Proof.
  intros w d nm rel r h Hroot Hrel Hnb. simpl. unfold _treeForWith.
  eapply returns_bind; [apply returns_getSelf|]. intros a1 S1 _.
  rewrite Hroot, Hrel. unfold pathJoin.
  eapply returns_bind; [apply returns_ret|]. intros a2 S2 _.
  destruct (existsSync w (Path.join r rel)); [|apply returns_ret].
  eapply returns_bind; [apply returns_getSelf|]. intros a3 S3 _.
  config S1. config S2. config S3.
  unfold lookupMethod, branchOf.
  destruct (JsObject.get nm (treeForMethods (self h))) as [m|]; [|apply returns_ret].
  simpl in Hnb. destruct Hnb as (Hf & Hna). rewrite Hcm0, Hcm, Hf.
  destruct (String.eqb_spec m "treeForPublic").
  - rewrite <- Hmn, <- Hmn0, <- Hmn1. apply returns_treeForPublic.
  - destruct (String.eqb_spec m "treeForAddon") as [->|]; [contradiction | apply returns_ret].
Qed.

(** [treeFor] outside development mode. *)
Lemma returns_treeFor_plain :
  forall w d nm rel r h,
    addonEnvDevelopment w = false ->
    root (self h) = Some r ->
    JsObject.get nm (treePaths (self h)) = Some rel ->
    plainMethod (self h) (JsObject.get nm (treeForMethods (self h))) ->
    returns (treeFor w (S d) nm) h
            (mergedOf [if existsSync w (Path.join r rel)
                       then branchOf (self h) (JsObject.get nm (treeForMethods (self h)))
                                     (treeGenerator w (Path.join r rel))
                       else None]).
Proof.
  intros w d nm rel r h Hdev Hroot Hrel Hnb. unfold treeFor.
  eapply returns_bind; [apply returns_requireBuildPackages|]. intros a1 S1 _.
  config S1.
  eapply returns_bind.
  { apply returns_treeFor_branch with (r := r) (rel := rel); simpl.
    - congruence.
    - now rewrite Htp.
    - unfold plainMethod in *. rewrite Htm.
      destruct (JsObject.get nm (treeForMethods (self h))); [now rewrite Hcm | exact I]. }
  intros a2 S2 _. simpl. rewrite Htm.
  replace (branchOf a1) with (branchOf (self h)).
  2:{ unfold branchOf. now rewrite Hmn. }
  unfold isDevelopingAddon. rewrite Hdev.
  eapply returns_bind; [apply returns_ret|]. intros a3 S3 _.
  unfold mergedOf.
  destruct (if existsSync w (Path.join r rel) then _ else None); apply returns_ret.
Qed.

(** [treeFor] in development mode, with [this.app] set. *)
Lemma returns_treeFor_dev :
  forall w d nm rel r h app addonPath,
    addonEnvDevelopment w = true ->
    owner h = Some app ->
    root (self h) = Some r ->
    JsObject.get nm (treePaths (self h)) = Some rel ->
    JsObject.get "addon" (treePaths (self h)) = Some addonPath ->
    plainMethod (self h) (JsObject.get nm (treeForMethods (self h))) ->
    returns (treeFor w (S d) nm) h
            (mergedOf ((if existsSync w (Path.join r rel)
                        then branchOf (self h) (JsObject.get nm (treeForMethods (self h)))
                                      (treeGenerator w (Path.join r rel))
                        else None)
                       :: (if hinting app && (nm =? "app")
                           then [if existsSync w addonPath
                                 then Some (lintTreeOf (self h) app addonPath) else None]
                           else []))).
Proof.
  intros w d nm rel r h app addonPath Hdev Happ Hroot Hrel Haddon Hnb. unfold treeFor.
  eapply returns_bind; [apply returns_requireBuildPackages|]. intros a1 S1 _.
  config S1.
  eapply returns_bind.
  { apply returns_treeFor_branch with (r := r) (rel := rel); simpl.
    - congruence.
    - now rewrite Htp.
    - unfold plainMethod in *. rewrite Htm.
      destruct (JsObject.get nm (treeForMethods (self h))); [now rewrite Hcm | exact I]. }
  intros a2 S2 _. simpl. rewrite Htm.
  replace (branchOf a1) with (branchOf (self h)).
  2:{ unfold branchOf. now rewrite Hmn. }
  unfold isDevelopingAddon. rewrite Hdev. config S2.
  set (branch := if existsSync w (Path.join r rel) then _ else None).
  eapply returns_bind
    with (v := ((match branch with Some t' => [Some t'] | None => [] end)
                ++ (if hinting app && (nm =? "app")
                    then [if existsSync w addonPath
                          then Some (lintTreeOf (self h) app addonPath) else None]
                    else []))%list).
  { eapply returns_bind; [apply returns_getApp; exact Happ|]. intros a3 S3 _.
    destruct (hinting app && (nm =? "app")).
    - config S3.
      eapply returns_bind.
      { apply returns_jshintAddonTree with (app := app) (addonPath := addonPath).
        - exact Happ.
        - simpl. congruence. }
      intros a4 S4 _. simpl.
      replace (lintTreeOf a3 app addonPath) with (lintTreeOf (self h) app addonPath).
      2:{ unfold lintTreeOf, addonJsFilesOf.
          replace (registry a3) with (registry (self h)) by congruence.
          replace (name a3) with (name (self h)) by congruence.
          replace (moduleNameOf a3) with (moduleNameOf (self h)) by congruence.
          reflexivity. }
      apply returns_ret.
    - rewrite app_nil_r. apply returns_ret. }
  intros a5 S5 _. unfold mergedOf.
  destruct branch, (hinting app && (nm =? "app")); apply returns_ret.
Qed.




Lemma returns_treeFor_absent :
  forall w d nm rel r h,
    root (self h) = Some r ->
    JsObject.get nm (treePaths (self h)) = Some rel ->
    existsSync w (Path.join r rel) = false ->
    returns (_treeFor w (S d) nm) h None.
Proof.
  intros w d nm rel r h Hroot Hrel Hex. simpl. unfold _treeForWith.
  eapply returns_bind; [apply returns_getSelf|]. intros a1 S1 _.
  rewrite Hroot, Hrel. unfold pathJoin.
  eapply returns_bind; [apply returns_ret|]. intros a2 S2 _.
  rewrite Hex. apply returns_ret.
Qed.

(** X9: a category whose directory is absent contributes nothing:
    [treeFor] returns the empty merge and leaves the application alone,
    whatever method the category has. This holds outside development mode,
    and in development mode for every category but [app] once the addon
    is bound to an application. *)
Theorem treeFor_absent_directory_no_branch :
  forall (w : World) (d : nat) (nm rel r : string) (h : Heap),
    root (self h) = Some r ->
    JsObject.get nm (treePaths (self h)) = Some rel ->
    existsSync w (Path.join r rel) = false ->
    addonEnvDevelopment w = false \/ (nm <> "app" /\ owner h <> None) ->
    fst (treeFor w (S d) nm h) = inr (MergeTrees [])
    /\ owner (snd (treeFor w (S d) nm h)) = owner h.
Proof.
  intros w d nm rel r h Hroot Hrel Hex Hmode.
  assert (returns (treeFor w (S d) nm) h (MergeTrees [])) as (a' & Hrun & _ & _).
  { unfold treeFor.
    eapply returns_bind; [apply returns_requireBuildPackages|]. intros a1 S1 _.
    eapply returns_bind.
    { apply returns_treeFor_absent with (r := r) (rel := rel); simpl.
      - config S1. congruence.
      - config S1. congruence.
      - exact Hex. }
    intros a2 S2 _. cbn [self owner] in *. unfold isDevelopingAddon.
    destruct (addonEnvDevelopment w).
    - destruct Hmode as [Hd | (Hnm & Hown)]; [discriminate|].
      destruct (owner h) as [app|] eqn:Ho; [|contradiction].
      eapply returns_bind with (v := @nil (option tree)).
      + eapply returns_bind; [apply returns_getApp; reflexivity|]. intros a3 S3 _.
        apply String.eqb_neq in Hnm. rewrite Hnm, andb_false_r. apply returns_ret.
      + intros a3 S3 _. apply returns_ret.
    - eapply returns_bind; [apply returns_ret|]. intros a3 S3 _. apply returns_ret. }
  rewrite Hrun. split; reflexivity.
Qed.

Lemma treeFor_absent_directory_no_branch_witness :
  fst (treeFor TreeExample.devWorld 3 "test-support" Examples.heapX) = inr (MergeTrees [])
  /\ owner (snd (treeFor TreeExample.devWorld 3 "test-support" Examples.heapX))
     = owner Examples.heapX.
Proof.
  apply (@treeFor_absent_directory_no_branch
           TreeExample.devWorld 2 "test-support" "test-support" "/lib/x" Examples.heapX).
  - reflexivity.
  - reflexivity.
  - reflexivity.
  - right. split; discriminate.
Defined.



(** [_treeFor] for a category whose directory exists and whose method
    the definition supplies: the call of that method, and nothing else. *)
Lemma treeForCategory_hook_run :
  forall w d nm rel r m h f,
    root (self h) = Some r ->
    JsObject.get nm (treePaths (self h)) = Some rel ->
    JsObject.get nm (treeForMethods (self h)) = Some m ->
    JsObject.get m (customMethods (self h)) = Some f ->
    existsSync w (Path.join r rel) = true ->
    _treeFor w (S d) nm h = runHook f (treeGenerator w (Path.join r rel)) h.
Proof.
  intros w d nm rel r m [a o] f Hroot Hrel Hm Hf Hex. simpl in *.
  unfold _treeForWith, bind, getSelf, pathJoin, ret. cbn [self owner].
  rewrite Hroot, Hrel, Hex, Hm. unfold lookupMethod. cbn [self]. rewrite Hf. reflexivity.
Qed.

(** X11: outside development mode, a method the definition supplies
    for a category decides the branch (and shadows the built-in method of
    that name): [treeFor] returns the merge of the tree the method returns
    for the unwatched directory, the empty merge when the method returns
    nothing, and raises what the method raises; [this.app] is afterwards
    what the method left. *)
Theorem treeFor_definition_method_decides :
  forall (w : World) (d : nat) (nm rel r m : string) (h : Heap) (f : Hook),
    addonEnvDevelopment w = false ->
    root (self h) = Some r ->
    JsObject.get nm (treePaths (self h)) = Some rel ->
    JsObject.get nm (treeForMethods (self h)) = Some m ->
    JsObject.get m (customMethods (self h)) = Some f ->
    existsSync w (Path.join r rel) = true ->
    let out := f (UnwatchedTree (Path.join r rel)) (owner h) in
    fst (treeFor w (S d) nm h)
    = match fst out with
      | inr (Some t) => inr (MergeTrees [t])
      | inr None => inr (MergeTrees [])
      | inl e => inl e
      end
    /\ owner (snd (treeFor w (S d) nm h)) = snd out.
Proof.
  intros w d nm rel r m h f Hdev Hroot Hrel Hm Hf Hex out.
  unfold treeFor.
  match goal with
  | |- context [bind _requireBuildPackages ?k] =>
      destruct (bind_returns k (returns_requireBuildPackages h)) as (a1 & Hb & S1 & _)
  end.
  rewrite Hb. clear Hb. config S1.
  unfold isDevelopingAddon. rewrite Hdev. unfold bind, ret.
  rewrite (@treeForCategory_hook_run w d nm rel r m {| self := a1; owner := owner h |} f)
    by (simpl; congruence).
  unfold runHook, treeGenerator, isDevelopingAddon, _unwatchedTreeGenerator.
  rewrite Hdev. cbn [self owner]. fold out.
  destruct out as [[e | [t|]] o']; split; reflexivity.
Qed.

Lemma treeFor_definition_method_decides_witness :
  fst (treeFor TreeExample.world 3 "vendor"
               {| self := TreeExample.dropping; owner := None |})
  = inr (MergeTrees [])
  /\ owner (snd (treeFor TreeExample.world 3 "vendor"
                         {| self := TreeExample.dropping; owner := None |}))
     = None.
Proof.
  apply (@treeFor_definition_method_decides
           TreeExample.world 2 "vendor" "vendor" "/lib/x" "treeForVendor"
           {| self := TreeExample.dropping; owner := None |}
           (fun _ o => (inr None, o)));
    reflexivity.
Defined.

(** X12: [treeFor('public')] on an instance whose definition has no
    [treeForPublic] of its own moves the existing public directory below
    [/<moduleName>]: the result is the merge of that one picked tree. *)
Theorem treeFor_public_below_moduleName :
  forall (w : World) (d : nat) (rel r : string) (h : Heap),
    addonEnvDevelopment w = false ->
    root (self h) = Some r ->
    JsObject.get "public" (treePaths (self h)) = Some rel ->
    JsObject.get "public" (treeForMethods (self h)) = Some "treeForPublic" ->
    JsObject.get "treeForPublic" (customMethods (self h)) = None ->
    existsSync w (Path.join r rel) = true ->
    fst (treeFor w (S d) "public" h)
    = inr (MergeTrees
             [PickFiles (UnwatchedTree (Path.join r rel))
                        {| srcDir := "/"; files := None;
                           destDir := "/" ++ moduleNameOf (self h);
                           allowEmpty := None |}]).
Proof.
  intros w d rel r h Hdev Hroot Hrel Hm Hf Hex.
  destruct (@returns_treeFor_plain w d "public" rel r h Hdev Hroot Hrel) as (a' & Hrun & _).
  { rewrite Hm. simpl. split; [exact Hf | discriminate]. }
  rewrite Hrun. simpl. rewrite Hex, Hm. unfold branchOf.
  unfold treeGenerator, isDevelopingAddon. rewrite Hdev. reflexivity.
Qed.

Lemma treeFor_public_below_moduleName_witness :
  fst (treeFor TreeExample.world 3 "public"
               {| self := Examples.addonX; owner := None |})
  = inr (MergeTrees
           [PickFiles (UnwatchedTree "/lib/x/public")
                      {| srcDir := "/"; files := None; destDir := "/x";
                         allowEmpty := None |}]).
Proof.
  apply (@treeFor_public_below_moduleName
           TreeExample.world 2 "public" "/lib/x"
           {| self := Examples.addonX; owner := None |});
    reflexivity.
Defined.



(** [treeFor] in development mode before [included] has run: the read of
    [this.app.hinting] raises. *)
Lemma treeFor_dev_unbound_run :
  forall w d nm rel r h,
    addonEnvDevelopment w = true ->
    owner h = None ->
    root (self h) = Some r ->
    JsObject.get nm (treePaths (self h)) = Some rel ->
    plainMethod (self h) (JsObject.get nm (treeForMethods (self h))) ->
    exists a',
      treeFor w (S d) nm h
      = (inl (TypeError "Cannot read property of undefined"),
         {| self := a'; owner := owner h |}).
Proof.
  intros w d nm rel r h Hdev Happ Hroot Hrel Hnb. unfold treeFor.
  destruct (bind_returns
              (fun _ : unit =>
                 t <- _treeFor w (S d) nm ;;
                 trees' <- (if isDevelopingAddon w
                            then app <- getApp ;;
                                 if hinting app && (nm =? "app")
                                 then j <- jshintAddonTree w ;;
                                      ret ((match t with Some t' => [Some t'] | None => [] end)
                                           ++ [j])%list
                                 else ret (match t with Some t' => [Some t'] | None => [] end)
                            else ret (match t with Some t' => [Some t'] | None => [] end)) ;;
                 ret (MergeTrees (filterBoolean trees')))
              (returns_requireBuildPackages h)) as (a1 & Hb & S1 & _).
  rewrite Hb. clear Hb. config S1.
  assert (Hr : returns (_treeFor w (S d) nm) {| self := a1; owner := owner h |}
                       (if existsSync w (Path.join r rel)
                        then branchOf a1 (JsObject.get nm (treeForMethods a1))
                                      (treeGenerator w (Path.join r rel))
                        else None)).
  { apply returns_treeFor_branch with (r := r) (rel := rel); simpl.
    - congruence.
    - now rewrite Htp.
    - unfold plainMethod in *. rewrite Htm.
      destruct (JsObject.get nm (treeForMethods (self h))); [now rewrite Hcm | exact I]. }
  destruct Hr as (a2 & Hrun & _). cbn [self owner] in Hrun.
  exists a2. unfold bind at 1. rewrite Hrun.
  unfold isDevelopingAddon. rewrite Hdev.
  unfold bind, getApp. simpl. rewrite Happ. reflexivity.
Qed.

Lemma fixed_method_plain :
  forall a nm,
    treeForMethods a = fixedTreeForMethods ->
    nm <> "addon" ->
    noHook a (JsObject.get nm (treeForMethods a)) ->
    plainMethod a (JsObject.get nm (treeForMethods a)).
Proof.
  intros a nm Htm Hnm Hhook. rewrite Htm in *.
  destruct (JsObject.get nm fixedTreeForMethods) as [m|] eqn:E; [|exact I].
  simpl in *. split; [exact Hhook|]. intros ->.
  change fixedTreeForMethods
    with [ ("app", "treeForApp"); ("styles", "treeForStyles");
           ("templates", "treeForTemplates"); ("addon", "treeForAddon");
           ("vendor", "treeForVendor"); ("test-support", "treeForTestSupport");
           ("public", "treeForPublic") ] in E.
  cbn [JsObject.get] in E.
  repeat match type of E with
         | context [String.eqb nm ?s] =>
             destruct (String.eqb_spec nm s); [try contradiction; try discriminate|]
         end.
  discriminate.
Qed.

Lemma stops_runs_bind :
  forall A B (m : M A) (k : A -> M B) h v memo,
    runs m h v memo ->
    (forall a', sameConfig (self h) a' ->
                includedModulesMemo a' = memo ->
                stops (k v) {| self := a'; owner := owner h |}) ->
    stops (bind m k) h.
Proof.
  intros A B m k h v memo (a' & Hrun & Hs & Hi) Hk.
  destruct (Hk a' Hs Hi) as [(b & Hb & Sb) | (u & memo' & (b & Hb & Sb & Mb))];
    simpl in *.
  - left. exists b. unfold bind. rewrite Hrun.
    split; [exact Hb | eapply sameConfig_trans; eauto].
  - right. exists u, memo', b. unfold bind. rewrite Hrun.
    split; [exact Hb|]. split; [eapply sameConfig_trans; eauto | exact Mb].
Qed.

Lemma stops_bind_fails :
  forall A B (m : M A) (k : A -> M B) h,
    stops m h ->
    (forall v a', sameConfig (self h) a' ->
                  fails (k v) {| self := a'; owner := owner h |}
                        (TypeError "Cannot read property of undefined")) ->
    fails (bind m k) h (TypeError "Cannot read property of undefined").
Proof.
  intros A B m k h [Hf | (v & memo & Hr)] Hk.
  - now apply fails_bind_now.
  - eapply runs_bind_fails; [exact Hr|]. intros a' Hs _. now apply Hk.
Qed.

Lemma fails_compileStyles :
  forall t h,
    owner h = None ->
    fails (compileStyles (Some t)) h (TypeError "Cannot read property of undefined").
Proof.
  intros t h Hown. unfold compileStyles.
  eapply runs_bind_fails; [apply returns_requireBuildPackages|]. intros a1 S1 _.
  eapply runs_bind_fails; [apply returns_getSelf|]. intros a2 S2 _.
  apply fails_bind_now. apply fails_getApp. exact Hown.
Qed.

Lemma returns_compileStyles_none : forall h, returns (compileStyles None) h None.
Proof.
  intros h. unfold compileStyles.
  eapply returns_bind; [apply returns_requireBuildPackages|]. intros a1 S1 _.
  apply returns_ret.
Qed.

(** The built-in [treeForAddon] before [included(app)] has run: it
    raises at the first read of [this.app], in [compileAddon] or in
    [compileStyles], and returns only when there are neither modules nor
    styles. *)
Lemma treeForAddon_unbound :
  forall w d t a r,
    fixedTables a ->
    root a = Some r ->
    stops (treeForAddon w (S d) t) {| self := a; owner := None |}.
Proof.
  intros w d t a r (Htp & Htm) Hroot.
  unfold treeForAddon, treeForAddonWith.
  change (compileAddonWith w (_treeFor w (S d)) t) with (compileAddon w (S d) t).
  eapply stops_runs_bind; [apply returns_requireBuildPackages|]. intros a1 S1 M1.
  cbn [self owner] in *.
  assert (exists m, (includedModulesMemo a1 = None /\ m = includedModulesOf w a1 r "addon")
                    \/ includedModulesMemo a1 = Some m) as (m & Hmemo).
  { destruct (includedModulesMemo a1) as [m|]; eauto. }
  pose proof (@compileAddon_unbound w d t a1 r m) as Hcomp.
  destruct (JsObject.keys m).
  2:{ left. apply fails_bind_now. apply Hcomp; [| | exact Hmemo].
      - config S1. split; congruence.
      - config S1. congruence. }
  eapply stops_runs_bind.
  { apply Hcomp; [| | exact Hmemo].
    - config S1. split; congruence.
    - config S1. congruence. }
  intros a2 S2 M2. cbn [self owner] in *.
  eapply stops_runs_bind.
  { eapply returns_treeFor_leaf with (r := r) (rel := "addon/styles"); simpl.
    - config S1. config S2. congruence.
    - config S1. config S2. rewrite Htp1, Htp0, Htp. reflexivity.
    - config S1. config S2. rewrite Htm1, Htm0, Htm. reflexivity. }
  intros a3 S3 M3. cbn [self owner] in *.
  destruct (existsSync w (Path.join r "addon/styles")).
  - left. apply fails_bind_now. apply fails_compileStyles. reflexivity.
  - eapply stops_runs_bind; [apply returns_compileStyles_none|]. intros a4 S4 M4.
    eapply stops_runs_bind; [apply returns_getSelf|]. intros a5 S5 M5.
    right. eexists _, _. apply returns_ret.
Qed.

(** [_treeFor('addon')] with the built-in [treeForAddon], before
    [included(app)] has run. *)
Lemma treeFor_addon_unbound :
  forall w d a r,
    fixedTables a ->
    root a = Some r ->
    JsObject.get "treeForAddon" (customMethods a) = None ->
    stops (_treeFor w (S (S d)) "addon") {| self := a; owner := None |}.
Proof.
  intros w d a r (Htp & Htm) Hroot Hcustom.
  change (_treeFor w (S (S d)) "addon") with (_treeForWith w (_treeFor w (S d)) "addon").
  unfold _treeForWith.
  eapply stops_runs_bind; [apply returns_getSelf|]. intros a2 S2 M2.
  cbn [self owner] in *. rewrite Hroot, Htp, Htm.
  change (JsObject.get "addon" fixedTreePaths) with (Some "addon").
  change (JsObject.get "addon" fixedTreeForMethods) with (Some "treeForAddon").
  unfold pathJoin.
  eapply stops_runs_bind; [apply returns_ret|]. intros a3 S3 M3.
  cbn [self owner] in *.
  destruct (existsSync w (Path.join r "addon")).
  2:{ right. eexists _, _. apply returns_ret. }
  eapply stops_runs_bind; [apply returns_getSelf|]. intros a4 S4 M4.
  cbn [self owner] in *.
  unfold lookupMethod.
  replace (JsObject.get "treeForAddon" (customMethods a3)) with (@None Hook)
    by (config S2; config S3; congruence).
  change ("treeForAddon" =? "treeForPublic") with false.
  change ("treeForAddon" =? "treeForAddon") with true. cbv iota.
  change (treeForAddonWith w (_treeFor w (S d))) with (treeForAddon w (S d)).
  apply treeForAddon_unbound with (r := r).
  - config S2. config S3. config S4. split; congruence.
  - config S2. config S3. config S4. congruence.
Qed.

(** X14: in development mode [treeFor] reads [this.app.hinting] for
    every category, so on an instance with the constructor's tables and a
    root whose [included(app)] has not run it raises a [TypeError] for
    every category for which the definition supplies no method: for the
    categories that are never linted too, and for [addon], whose built-in
    method reads [this.app] itself. *)
Theorem treeFor_development_needs_app :
  forall (w : World) (d : nat) (nm rel r : string) (h : Heap),
    addonEnvDevelopment w = true ->
    owner h = None ->
    fixedTables (self h) ->
    root (self h) = Some r ->
    JsObject.get nm fixedTreePaths = Some rel ->
    noHook (self h) (JsObject.get nm fixedTreeForMethods) ->
    fst (treeFor w (S (S d)) nm h) = inl (TypeError "Cannot read property of undefined").
Proof.
  intros w d nm rel r [a o] Hdev Happ (Htp & Htm) Hroot Hrel Hhook.
  cbn [self owner] in *. subst o.
  destruct (String.eqb_spec nm "addon") as [-> | Hnm].
  - assert (fails (treeFor w (S (S d)) "addon") {| self := a; owner := None |}
                  (TypeError "Cannot read property of undefined")) as (a' & Hrun & _).
    { unfold treeFor.
      eapply runs_bind_fails; [apply returns_requireBuildPackages|]. intros a1 S1 M1.
      cbn [self owner] in *.
      apply stops_bind_fails.
      - apply treeFor_addon_unbound with (r := r).
        + config S1. split; congruence.
        + config S1. congruence.
        + config S1. rewrite Hcm. exact Hhook.
      - intros v a2 S2. cbn [self owner] in *.
        unfold isDevelopingAddon. rewrite Hdev.
        apply fails_bind_now, fails_bind_now, fails_getApp. reflexivity. }
    rewrite Hrun. reflexivity.
  - destruct (@treeFor_dev_unbound_run w (S d) nm rel r {| self := a; owner := None |}
                Hdev eq_refl Hroot) as (a' & ->).
    + simpl. now rewrite Htp.
    + simpl. apply fixed_method_plain; [exact Htm | exact Hnm | rewrite Htm; exact Hhook].
    + reflexivity.
Qed.

Lemma treeFor_development_needs_app_witness :
  fst (treeFor TreeExample.devWorld 3 "vendor"
               {| self := Examples.addonX; owner := None |})
  = inl (TypeError "Cannot read property of undefined")
  /\ fst (treeFor TreeExample.devWorld 3 "addon"
                  {| self := Examples.addonX; owner := None |})
     = inl (TypeError "Cannot read property of undefined").
Proof.
  split.
  - apply (@treeFor_development_needs_app
             TreeExample.devWorld 1 "vendor" "vendor" "/lib/x"
             {| self := Examples.addonX; owner := None |}); try reflexivity.
    split; reflexivity.
  - apply (@treeFor_development_needs_app
             TreeExample.devWorld 1 "addon" "addon" "/lib/x"
             {| self := Examples.addonX; owner := None |}); try reflexivity.
    split; reflexivity.
Defined.

(** X15: apart from [treeFor('addon')], the class's own code for
    [treeFor] never writes to the owning application: for an instance
    with the constructor's tables and any other category name for which
    the definition supplies no method, [this.app] (and with it the import
    whitelist) is after the call what it was before, whether the call
    returns or raises. *)
Theorem treeFor_other_categories_keep_app :
  forall (w : World) (d : nat) (nm : string) (h : Heap),
    fixedTables (self h) ->
    nm <> "addon" ->
    noHook (self h) (JsObject.get nm (treeForMethods (self h))) ->
    owner (snd (treeFor w (S d) nm h)) = owner h.
Proof.
  intros w d nm h (Htp & Htm) Hnm Hhook.
  pose proof (fixed_method_plain (self h) Htm Hnm Hhook) as Hnb.
  destruct (root (self h)) as [r|] eqn:Hroot;
    [destruct (JsObject.get nm (treePaths (self h))) as [rel|] eqn:Hrel|].
  - destruct (addonEnvDevelopment w) eqn:Hdev.
    + destruct (owner h) as [app|] eqn:Happ.
      * destruct (@returns_treeFor_dev w d nm rel r h app "addon" Hdev Happ Hroot Hrel)
          as (a' & Hrun & _); [now rewrite Htp | exact Hnb |].
        rewrite Hrun. simpl. now rewrite Happ.
      * destruct (@treeFor_dev_unbound_run w d nm rel r h Hdev Happ Hroot Hrel Hnb)
          as (a' & ->). simpl. now rewrite Happ.
    + destruct (@returns_treeFor_plain w d nm rel r h Hdev Hroot Hrel Hnb)
        as (a' & Hrun & _).
      rewrite Hrun. reflexivity.
  - destruct (returns_requireBuildPackages h) as (a1 & Hreq & S1 & _). config S1.
    unfold treeFor, bind at 1. rewrite Hreq.
    unfold bind at 1. simpl (_treeFor w (S d) nm).
    unfold _treeForWith, bind at 1. unfold getSelf at 1. cbn [self].
    unfold bind at 1. rewrite Htp0, Hrel, Hroot0, Hroot. reflexivity.
  - destruct (returns_requireBuildPackages h) as (a1 & Hreq & S1 & _). config S1.
    unfold treeFor, bind at 1. rewrite Hreq.
    unfold bind at 1. simpl (_treeFor w (S d) nm).
    unfold _treeForWith, bind at 1. unfold getSelf at 1. cbn [self].
    unfold bind at 1. rewrite Hroot0, Hroot. reflexivity.
Qed.

Lemma treeFor_other_categories_keep_app_witness :
  owner (snd (treeFor TreeExample.devWorld 3 "app"
                      {| self := Examples.addonX; owner := Some Examples.theApp |}))
  = Some Examples.theApp.
Proof.
  apply (@treeFor_other_categories_keep_app
           TreeExample.devWorld 2 "app"
           {| self := Examples.addonX; owner := Some Examples.theApp |}).
  - split; reflexivity.
  - discriminate.
  - reflexivity.
Defined.

(** ** [compileAddon] and [treeFor('addon')], with their effect *)

(** Assigning entries the target already has, [__proto__] apart (which
    is never written), changes nothing. *)
Lemma assign_noop :
  forall (s o : JsObject.t (list string)),
    (forall k v, In (k, v) s -> k <> "__proto__" -> JsObject.get k o = Some v) ->
    JsObject.assign o s = o.
Proof.
  unfold JsObject.assign. induction s as [|[k v] s IH]; intros o H; [reflexivity|].
  simpl.
  assert (Hset : JsObject.set k v o = o).
  { destruct (String.eqb_spec k "__proto__") as [->|Hk]; [reflexivity|].
    apply JsObjectFacts.set_same_value. apply H; [now left | exact Hk]. }
  rewrite Hset. apply IH. intros k' v' Hin. apply H. now right.
Qed.

(** Assigning a source whose values are all equal a second time changes
    nothing. *)
Lemma assign_twice :
  forall d (s t : JsObject.t (list string)),
    (forall k v, In (k, v) s -> v = d) ->
    JsObject.assign (JsObject.assign t s) s = JsObject.assign t s.
Proof.
  intros d s t Hd. apply assign_noop. intros k v Hin Hk.
  rewrite (Hd _ _ Hin). eapply JsObjectFacts.get_assign_const; [exact Hd | exact Hk |].
  unfold JsObject.keys. apply in_map_iff. exists (k, v). auto.
Qed.

Lemma ends_bind :
  forall A B (m : M A) (k : A -> M B) h v u o1 memo1 o2 memo2,
    ends m h v o1 memo1 ->
    (forall a1, sameConfig (self h) a1 ->
                includedModulesMemo a1 = memo1 ->
                ends (k v) {| self := a1; owner := o1 |} u o2 memo2) ->
    ends (bind m k) h u o2 memo2.
Proof.
  intros A B m k h v u o1 memo1 o2 memo2 (a1 & Hm & S1 & M1) Hk.
  destruct (Hk a1 S1 M1) as (a2 & Hk' & S2 & M2). simpl in *.
  exists a2. unfold bind. rewrite Hm, Hk'.
  repeat split; try (eapply sameConfig_trans; eauto). exact M2.
Qed.

Lemma returns_ends :
  forall A (m : M A) h v,
    returns m h v -> ends m h v (owner h) (includedModulesMemo (self h)).
Proof. intros A m h v H. exact H. Qed.

Lemma includedModulesOf_sameConfig :
  forall w a a' r rel,
    sameConfig a a' -> includedModulesOf w a' r rel = includedModulesOf w a r rel.
Proof.
  intros w a a' r rel S. config S.
  unfold includedModulesOf, globbedFiles. now rewrite Hmn, Hreg.
Qed.

Lemma bundleOf_sameConfig :
  forall w a a' app r t, sameConfig a a' -> bundleOf w a' app r t = bundleOf w a app r t.
Proof.
  intros w a a' app r t S. config S.
  unfold bundleOf, addonJsFilesOf, compileTemplatesOf. now rewrite Hmn, Hreg, Hname.
Qed.

(** [compileAddon] on an instance with the constructor's tables and a
    root, whose first [includedModules()] gives (or has given) [m]. *)
Lemma compileAddon_ends :
  forall w d t a app r m,
    fixedTables a ->
    root a = Some r ->
    (includedModulesMemo a = None /\ m = includedModulesOf w a r "addon")
    \/ includedModulesMemo a = Some m ->
    ends (compileAddon w (S d) t) {| self := a; owner := Some app |}
         (match JsObject.keys m with
          | [] => None
          | _ :: _ => Some (bundleOf w a app r t)
          end)
         (Some (appAfter app m)) (Some m).
Proof.
  intros w d t a app r m (Htp & Htm) Hroot Hmemo.
  unfold compileAddon, compileAddonWith.
  eapply ends_bind; [apply returns_ends, returns_requireBuildPackages|]. intros a1 S1 M1.
  cbn [self owner] in *.
  eapply ends_bind with (v := m) (o1 := Some app) (memo1 := Some m).
  { destruct Hmemo as [(Hnone & ->) | Hsome].
    - rewrite <- (includedModulesOf_sameConfig w r "addon" S1).
      apply (@includedModules_miss w {| self := a1; owner := Some app |} r "addon").
      + simpl. congruence.
      + simpl. config S1. congruence.
      + simpl. config S1. rewrite Htp0, Htp. reflexivity.
    - pose proof (@returns_includedModules_hit w {| self := a1; owner := Some app |} m) as H.
      unfold returns in H. simpl in H. rewrite M1, Hsome in H. apply H. reflexivity. }
  intros a2 S2 M2. cbn [self owner] in *. unfold appAfter.
  destruct (JsObject.keys m) eqn:Hkeys.
  { exists a2. split; [reflexivity|]. split; [apply sameConfig_refl | exact M2]. }
  eapply ends_bind; [apply returns_ends, returns_addonJsFiles|]. intros a3 S3 M3.
  cbn [self owner] in *.
  eapply ends_bind.
  { apply returns_ends.
    eapply returns_treeFor_leaf with (r := r) (rel := "addon/templates"); simpl.
    - config S1. config S2. config S3. congruence.
    - config S1. config S2. config S3. rewrite Htp2, Htp1, Htp0, Htp. reflexivity.
    - config S1. config S2. config S3. rewrite Htm2, Htm1, Htm0, Htm. reflexivity. }
  intros a4 S4 M4. cbn [self owner] in *.
  eapply ends_bind; [apply returns_ends, returns_compileTemplates|]. intros a5 S5 M5.
  eapply ends_bind; [apply returns_ends, returns_getSelf|]. intros a6 S6 M6.
  eapply ends_bind; [apply returns_ends, returns_getApp; reflexivity|]. intros a7 S7 M7.
  eapply ends_bind; [apply returns_ends, returns_moduleName|]. intros a8 S8 M8.
  eapply ends_bind; [apply returns_ends, returns_getSelf|]. intros a9 S9 M9.
  eapply ends_bind; [apply returns_ends, returns_getApp; reflexivity|]. intros a10 S10 M10.
  eapply ends_bind; [apply returns_ends, returns_getApp; reflexivity|]. intros a11 S11 M11.
  cbn [self owner] in *.
  eapply ends_bind.
  { apply returns_ends. apply returns_includedModules_hit with (m := m).
    simpl. congruence. }
  intros a12 S12 M12. cbn [self owner] in *.
  exists a12. split; [|split; [apply sameConfig_refl | congruence]].
  unfold bind, putApp, ret. simpl.
  config S1. config S2. config S3. config S4. config S5. config S6. config S7.
  config S8. config S9. config S10. config S11.
  unfold bundleOf, addonJsFilesOf, compileTemplatesOf. to_self.
  destruct (existsSync w (Path.join r "addon/templates")); reflexivity.
Qed.

(** X16: compiling an addon again changes nothing in the whitelist: a
    second [compileAddon] on the instance (with any tree, at any later
    state of the file system) leaves [this.app] exactly as the first call
    left it. *)
Theorem compileAddon_again_keeps_whitelist :
  forall (w w' : World) (d d' : nat) (t t' : tree) (a : Addon) (app : App) (r : string),
    asConstructed a ->
    root a = Some r ->
    let h1 := snd (compileAddon w (S d) t {| self := a; owner := Some app |}) in
    owner (snd (compileAddon w' (S d') t' h1)) = owner h1.
Proof.
  intros w w' d d' t t' a app r (Htp & Htm & Hmemo) Hroot h1.
  set (m := includedModulesOf w a r "addon").
  destruct (@compileAddon_ends w d t a app r m (conj Htp Htm) Hroot)
    as (a1 & Hrun1 & S1 & M1); [left; auto|].
  unfold h1. rewrite Hrun1. cbn [snd owner self] in *.
  destruct (@compileAddon_ends w' d' t' a1 (appAfter app m) r m)
    as (a2 & Hrun2 & _ & _).
  - config S1. split; congruence.
  - config S1. congruence.
  - right. exact M1.
  - rewrite Hrun2. cbn [snd owner]. f_equal.
    unfold appAfter. destruct (JsObject.keys m) eqn:Hkeys; [reflexivity|].
    cbn [JsObject.keys importWhitelist setImportWhitelist]. unfold setImportWhitelist.
    cbn [appName hinting importWhitelist optionsWrapInEval optionsJshintrcApp].
    rewrite (assign_twice (d := ["default"])); [reflexivity|].
    apply includedModulesOf_values.
Qed.

Lemma compileAddon_again_keeps_whitelist_witness :
  owner (snd (compileAddon LintExample.world 2 (DirTree "elsewhere")
                (snd (compileAddon Examples.world 2 (UnwatchedTree "/lib/x/addon")
                                   Examples.heapX))))
  = owner (snd (compileAddon Examples.world 2 (UnwatchedTree "/lib/x/addon")
                             Examples.heapX)).
Proof.
  apply (@compileAddon_again_keeps_whitelist
           Examples.world LintExample.world 1 1
           (UnwatchedTree "/lib/x/addon") (DirTree "elsewhere")
           Examples.addonX Examples.theApp "/lib/x").
  - repeat split.
  - reflexivity.
Defined.

Lemma returns_compileStyles :
  forall s h app,
    owner h = Some app ->
    returns (compileStyles s) h
            (match s with
             | Some s' =>
                 Some (FileMover (PreprocessCss s' "/" "/" (registry (self h)))
                                 ("/" ++ appName app ++ ".css")
                                 ("/" ++ name (self h) ++ ".css"))
             | None => None
             end).
Proof.
  intros s h app Hown. unfold compileStyles.
  eapply returns_bind; [apply returns_requireBuildPackages|]. intros a1 S1 _.
  destruct s as [s'|]; [|apply returns_ret].
  eapply returns_bind; [apply returns_getSelf|]. intros a2 S2 _.
  eapply returns_bind; [apply returns_getApp; exact Hown|]. intros a3 S3 _.
  eapply returns_bind; [apply returns_getSelf|]. intros a4 S4 _.
  cbn [self owner] in *.
  config S1. config S2. config S3. config S4. to_self. apply returns_ret.
Qed.

Lemma appName_appAfter : forall app m, appName (appAfter app m) = appName app.
Proof. intros app m. unfold appAfter. now destruct (JsObject.keys m). Qed.

(** The built-in [treeForAddon] on a fresh instance with a root: the
    concatenated bundle and the styles, merged; the whitelist grows. *)
Lemma treeForAddon_ends :
  forall w d t a app r,
    asConstructed a ->
    root a = Some r ->
    let m := includedModulesOf w a r "addon" in
    ends (treeForAddon w (S d) t) {| self := a; owner := Some app |}
         (Some (MergeTrees (filterBoolean [scriptBranchOf w a app r t m;
                                           stylesBranchOf w a app r])))
         (Some (appAfter app m)) (Some m).
Proof.
  intros w d t a app r (Htp & Htm & Hmemo) Hroot m.
  unfold treeForAddon, treeForAddonWith.
  eapply ends_bind; [apply returns_ends, returns_requireBuildPackages|]. intros a1 S1 M1.
  cbn [self owner] in *.
  eapply ends_bind.
  { change (compileAddonWith w (_treeFor w (S d)) t) with (compileAddon w (S d) t).
    apply (@compileAddon_ends w d t a1 app r m).
    - config S1. split; congruence.
    - config S1. congruence.
    - left. split; [congruence|].
      unfold m. symmetry. apply includedModulesOf_sameConfig. exact S1. }
  intros a2 S2 M2. cbn [self owner] in *.
  eapply ends_bind.
  { apply returns_ends.
    eapply returns_treeFor_leaf with (r := r) (rel := "addon/styles"); simpl.
    - config S1. config S2. congruence.
    - config S1. config S2. rewrite Htp1, Htp0, Htp. reflexivity.
    - config S1. config S2. rewrite Htm1, Htm0, Htm. reflexivity. }
  intros a3 S3 M3. cbn [self owner] in *.
  eapply ends_bind.
  { apply returns_ends. apply returns_compileStyles with (app := appAfter app m).
    reflexivity. }
  intros a4 S4 M4. cbn [self owner] in *.
  eapply ends_bind; [apply returns_ends, returns_getSelf|]. intros a5 S5 M5.
  cbn [self owner] in *.
  exists a5. split; [|split; [apply sameConfig_refl | congruence]].
  unfold ret. f_equal. f_equal. f_equal.
  rewrite appName_appAfter.
  rewrite (bundleOf_sameConfig w app r t S1).
  config S1. config S2. config S3. config S4. config S5.
  unfold scriptBranchOf, stylesBranchOf. to_self.
  destruct (JsObject.keys m); destruct (existsSync w (Path.join r "addon/styles"));
    reflexivity.
Qed.

(** X17: on a freshly constructed addon with a root whose [addon]
    directory exists and whose definition brings no [treeForAddon] of its
    own, [treeFor('addon')] returns the merge of one tree: the merge of
    the bundle concatenated into [/<name>.js] (present exactly when the
    directory holds script modules) and of the styles moved from
    [/<appName>.css] to [/<name>.css] (present exactly when [addon/styles]
    exists); the call leaves the application with the addon's modules
    added to its whitelist. *)
Theorem treeFor_addon_composite :
  forall (w : World) (d : nat) (a : Addon) (app : App) (r : string),
    asConstructed a ->
    JsObject.get "treeForAddon" (customMethods a) = None ->
    root a = Some r ->
    existsSync w (Path.join r "addon") = true ->
    let t := treeGenerator w (Path.join r "addon") in
    let m := includedModulesOf w a r "addon" in
    let out := treeFor w (S (S d)) "addon" {| self := a; owner := Some app |} in
    fst out = inr (MergeTrees [MergeTrees (filterBoolean [scriptBranchOf w a app r t m;
                                                           stylesBranchOf w a app r])])
    /\ owner (snd out) = Some (appAfter app m).
Proof.
  intros w d a app r Hfresh Hcustom Hroot Hdir t m out.
  assert (ends (treeFor w (S (S d)) "addon") {| self := a; owner := Some app |}
               (MergeTrees [MergeTrees (filterBoolean [scriptBranchOf w a app r t m;
                                                       stylesBranchOf w a app r])])
               (Some (appAfter app m)) (Some m)) as (a' & Hrun & _ & _).
  { pose proof Hfresh as (Htp & Htm & Hmemo).
    unfold treeFor.
    eapply ends_bind; [apply returns_ends, returns_requireBuildPackages|].
    intros a1 S1 M1. cbn [self owner] in *.
    eapply ends_bind
      with (v := Some (MergeTrees (filterBoolean [scriptBranchOf w a app r t m;
                                                  stylesBranchOf w a app r])))
           (o1 := Some (appAfter app m)) (memo1 := Some m).
    { change (_treeFor w (S (S d)) "addon")
        with (_treeForWith w (_treeFor w (S d)) "addon").
      unfold _treeForWith.
      eapply ends_bind; [apply returns_ends, returns_getSelf|]. intros a2 S2 M2.
      cbn [self owner] in *.
      assert (Hr1 : root a1 = Some r) by (config S1; congruence).
      assert (Htp1 : treePaths a1 = fixedTreePaths) by (config S1; congruence).
      assert (Htm1 : treeForMethods a1 = fixedTreeForMethods) by (config S1; congruence).
      rewrite Hr1, Htp1, Htm1.
      change (JsObject.get "addon" fixedTreePaths) with (Some "addon").
      change (JsObject.get "addon" fixedTreeForMethods) with (Some "treeForAddon").
      unfold pathJoin.
      eapply ends_bind; [apply returns_ends, returns_ret|]. intros a3 S3 M3.
      cbn [self owner] in *. rewrite Hdir.
      eapply ends_bind; [apply returns_ends, returns_getSelf|]. intros a4 S4 M4.
      cbn [self owner] in *.
      assert (Hc3 : JsObject.get "treeForAddon" (customMethods a3) = None).
      { config S1. config S2. config S3. congruence. }
      unfold lookupMethod. rewrite Hc3.
      change ("treeForAddon" =? "treeForPublic") with false.
      change ("treeForAddon" =? "treeForAddon") with true. cbv iota.
      change (treeForAddonWith w (_treeFor w (S d))) with (treeForAddon w (S d)).
      assert (S14 : sameConfig a a4).
      { eapply sameConfig_trans; [exact S1|]. eapply sameConfig_trans; [exact S2|].
        eapply sameConfig_trans; [exact S3|]. exact S4. }
      pose proof (@treeForAddon_ends w d t a4 app r) as H.
      cbv zeta in H.
      rewrite (includedModulesOf_sameConfig w r "addon" S14) in H. fold m in H.
      assert (Hsb : scriptBranchOf w a4 app r t m = scriptBranchOf w a app r t m).
      { unfold scriptBranchOf. rewrite (bundleOf_sameConfig w app r t S14).
        config S14. now rewrite Hname. }
      assert (Hst : stylesBranchOf w a4 app r = stylesBranchOf w a app r).
      { unfold stylesBranchOf. config S14. now rewrite Hname, Hreg. }
      rewrite Hsb, Hst in H. apply H.
      - config S14. repeat split; congruence.
      - config S14. congruence. }
    intros a5 S5 M5. cbn [self owner] in *.
    unfold isDevelopingAddon.
    destruct (addonEnvDevelopment w).
    - eapply ends_bind with (o1 := Some (appAfter app m)) (memo1 := Some m).
      { eapply ends_bind; [apply returns_ends, returns_getApp; reflexivity|].
        intros a6 S6 M6. cbn [self owner] in *.
        change ("addon" =? "app") with false. rewrite andb_false_r.
        exists a6. split; [reflexivity|]. split; [apply sameConfig_refl|]. congruence. }
      intros a7 S7 M7. cbn [self owner] in *.
      exists a7. split; [reflexivity|]. split; [apply sameConfig_refl|]. congruence.
    - eapply ends_bind; [apply returns_ends, returns_ret|].
      intros a7 S7 M7. cbn [self owner] in *.
      exists a7. split; [reflexivity|]. split; [apply sameConfig_refl|]. congruence. }
  unfold out. rewrite Hrun. split; reflexivity.
Qed.

Lemma treeFor_addon_composite_witness :
  fst (treeFor Examples.world 2 "addon" Examples.heapX)
  = inr (MergeTrees
           [MergeTrees
              (filterBoolean
                 [scriptBranchOf Examples.world Examples.addonX Examples.theApp "/lib/x"
                    (treeGenerator Examples.world (Path.join "/lib/x" "addon"))
                    (includedModulesOf Examples.world Examples.addonX "/lib/x" "addon");
                  stylesBranchOf Examples.world Examples.addonX Examples.theApp "/lib/x"])])
  /\ owner (snd (treeFor Examples.world 2 "addon" Examples.heapX))
     = Some (appAfter Examples.theApp
               (includedModulesOf Examples.world Examples.addonX "/lib/x" "addon")).
Proof.
  apply (@treeFor_addon_composite Examples.world 0 Examples.addonX Examples.theApp "/lib/x").
  - repeat split.
  - reflexivity.
  - reflexivity.
  - reflexivity.
Defined.

(** ** [blueprintsPath] and the directory [jshintAddonTree] looks at *)

Module RootFacts.
Import JsString Path StringFacts PathFacts.
Local Arguments Ascii.eqb : simpl never.

(** A normalised absolute path resolves to itself, whatever the working
    directory. *)
Lemma resolve_normalised :
  forall cwd segs,
    forallb normalSegment segs = true ->
    resolve cwd ("/" ++ joinSlash segs) "" = "/" ++ joinSlash segs.
Proof.
  intros cwd segs Hsegs. unfold resolve. simpl fold_left.
  assert (Hseg : segments (String "/" (joinSlash segs ++ String "/" "")) = segs).
  { change (String "/" (joinSlash segs ++ String "/" ""))
      with ("" ++ String "/" (joinSlash segs ++ String "/" "")).
    rewrite segments_append, segments_append, (segments_joinSlash _ Hsegs).
    simpl. apply app_nil_r. }
  change ("/" ++ joinSlash segs ++ "/" ++ "") with (String "/" (joinSlash segs ++ String "/" "")).
  simpl startsWithSlash. cbv iota beta.
  rewrite Hseg. unfold normalizeArray.
  rewrite normalizeScan_normal by exact Hsegs. reflexivity.
Qed.

Lemma existsSync_normalised :
  forall w segs,
    forallb normalSegment segs = true ->
    existsSync w ("/" ++ joinSlash segs) = pathExists w ("/" ++ joinSlash segs).
Proof.
  intros w segs Hsegs. unfold existsSync. now rewrite resolve_normalised.
Qed.

End RootFacts.

(** X18: for an addon whose root is a normalised absolute directory,
    [blueprintsPath()] returns [<root>/blueprints] when that path exists
    and nothing otherwise, whatever the working directory of the process,
    and changes neither the instance nor the application. *)
Theorem blueprintsPath_below_root :
  forall (w : World) (segs : list string) (h : Heap),
    root (self h) = Some ("/" ++ JsString.joinSlash segs) ->
    forallb normalSegment segs = true ->
    let p := "/" ++ JsString.joinSlash (segs ++ ["blueprints"]) in
    blueprintsPath w h = (inr (if pathExists w p then Some p else None), h).
Proof.
  intros w segs [a o] Hroot Hsegs p. simpl in Hroot.
  unfold blueprintsPath. run_method. rewrite Hroot. unfold pathJoin. run_method.
  assert (Hjoin : Path.join (String "/" (JsString.joinSlash segs)) "blueprints" = p).
  { apply (@TreePathFacts.join_in_directory segs ["blueprints"]);
      [assumption | reflexivity | discriminate]. }
  rewrite Hjoin. unfold p at 1.
  rewrite RootFacts.existsSync_normalised by (now apply PathFacts.forallb_snoc).
  fold p. destruct (pathExists w p); reflexivity.
Qed.

Lemma blueprintsPath_below_root_witness :
  blueprintsPath Examples.world Examples.heapX = (inr None, Examples.heapX).
Proof.
  apply (@blueprintsPath_below_root Examples.world ["lib"; "x"] Examples.heapX).
  - reflexivity.
  - reflexivity.
Defined.

(** X19: [jshintAddonTree()] never consults [this.root]: moving the
    addon to another root (or taking the root away) changes neither what
    the method returns or raises, nor the application. *)
Theorem jshintAddonTree_ignores_root :
  forall (w : World) (a : Addon) (o : option App) (r' : option string),
    fst (jshintAddonTree w {| self := withRootOf a r'; owner := o |})
    = fst (jshintAddonTree w {| self := a; owner := o |})
    /\ owner (snd (jshintAddonTree w {| self := withRootOf a r'; owner := o |})) = o.
Proof.
  intros w [pr reg did tp tm nm rt mp memo cm] o r'.
  unfold jshintAddonTree, addonJsFiles, _jsFileGlob, moduleName, withRootOf.
  run_method.
  destruct did; simpl;
    (destruct (JsObject.get "addon" tp) as [addonPath|]; simpl; [|auto]);
    (destruct (existsSync w addonPath); simpl; [|auto]);
    destruct (truthy mp); simpl; destruct o; simpl; auto.
Qed.
